(** * poll_eta: the Routes API ETA logger

    A shallow embedding of [poll_eta.py] and the properties of its
    specification.  The script reads the local clock, asks the routing
    service for the current travel time between two fixed addresses,
    converts the answer to minutes and miles and appends one row to a
    CSV file.

    Conventions of the embedding:
    - a Python [str] is a [string]; each character stands for one code
      point below 256.  A text of the response that holds a lone
      surrogate, which no encoding of the log file accepts, is a value of
      its own, [VSurrogate];
    - a Python [int] is a [Z]; a Python [float] is a binary64 value of
      [SpecFloat] (precision 53, infinities at exponent 1024), and the
      conversions between text, ints and floats round to nearest, ties to
      even, as CPython does;
    - an exception is a value of [exn], and code that may raise returns
      a [result];
    - the two clocks, the routing service, the log file and the console
      are explicit: an [env] holds what the outside world answers, a
      [world] holds what the script has done to it.

    Left out: the payload of the request but for its departure time,
    which is computed from the reading of the UTC clock before the request
    is sent (requests are counted), failures of the clocks and of the file
    system, texts with other code points from 256 on, and the text that
    [str] and [json.dumps] produce for floats and containers, over which
    the script is parameterized. *)

From Stdlib Require Import ZArith List Bool Ascii String Lia.
From Stdlib Require Import DecimalString.
From Stdlib Require DecimalPos.
From Stdlib Require Import Floats.SpecFloat.
Import ListNotations.

Set Warnings "-register-all".

Local Open Scope string_scope.
Local Open Scope Z_scope.

(** ** Exceptions and results *)

Inductive result (E A : Type) : Type :=
| Ok (a : A)
| Raise (e : E).

Arguments Ok {E A} a.
Arguments Raise {E A} e.

Definition bind {E A B} (m : result E A) (k : A -> result E B) : result E B :=
  match m with
  | Ok a => k a
  | Raise e => Raise e
  end.

Declare Scope result_scope.
Delimit Scope result_scope with result.
Notation "x <- m ;; k" := (bind m (fun x => k))
  (at level 100, m at next level, right associativity) : result_scope.

(** ** Python floats: binary64 *)

Module Float.

Definition prec : Z := 53.
Definition emax : Z := 1024.

Definition float := spec_float.

(** The correctly rounded (nearest, ties to even) quotient of two positive
    integers, with sign [s]. *)
Definition round_ratio (s : bool) (n d : positive) : float :=
  let '(q, e, l) := SFdiv_core_binary prec emax (Zpos n) 0 (Zpos d) 0 in
  binary_round_aux prec emax s q e l.

(** The binary64 value nearest to [(-1)^s * m * 10^e], as the string to
    float conversion of CPython computes it. *)
Definition of_decimal (s : bool) (m : Z) (e : Z) : float :=
  match m with
  | Zpos p =>
      match e with
      | Zneg k => round_ratio s p (Pos.pow 10 k)
      | Z0 => binary_normalize prec emax (if s then Zneg p else Zpos p) 0 s
      | Zpos k => binary_normalize prec emax
                    (if s then Zneg (p * Pos.pow 10 k) else Zpos (p * Pos.pow 10 k)) 0 s
      end
  | _ => S754_zero s
  end.

(** [float(n)] for a Python int. *)
Definition of_Z (n : Z) : float := binary_normalize prec emax n 0 false.

Definition is_finite (x : float) : bool :=
  match x with
  | S754_zero _ | S754_finite _ _ _ => true
  | _ => false
  end.

(** The integer part of a finite float, rounding toward zero. *)
Definition trunc (x : float) : Z :=
  match x with
  | S754_finite s m e =>
      let a := match e with
               | Zneg k => Z.shiftr (Zpos m) (Zpos k)
               | _ => Z.shiftl (Zpos m) e
               end in
      if s then - a else a
  | _ => 0
  end.

Definition div (x y : float) : float := SFdiv prec emax x y.

(** Round half to even of the rational [n / d], [d] positive. *)
Definition div_half_even (n : Z) (d : Z) : Z :=
  let q := Z.div n d in
  let r := Z.modulo n d in
  match Z.compare (2 * r) d with
  | Lt => q
  | Gt => q + 1
  | Eq => if Z.even q then q else q + 1
  end.

(** [round(x, ndigits)] for a float and [ndigits >= 0]: the exact value of
    [x] is rounded half to even to [ndigits] decimal places and the decimal
    result is converted back to the nearest float.  Infinities and nans
    round to themselves. *)
Definition round (x : float) (ndigits : N) : float :=
  match x with
  | S754_finite s m e =>
      let p := Z.pow 10 (Z.of_N ndigits) in
      let k := match e with
               | Zneg b => div_half_even (Zpos m * p) (Z.pow 2 (Zpos b))
               | _ => Z.shiftl (Zpos m) e * p
               end in
      of_decimal s k (- Z.of_N ndigits)
  | _ => x
  end.

End Float.

(** ** Python values

    What [json.loads] can return: [None], booleans, ints, floats, strings,
    lists and dicts keyed by strings.  A dict is an association list read by
    its first matching key.

    A string is a [VStr] when all its code points are below 256.  A JSON
    text can also hold an escape such as [\ud800], which decodes to a lone
    surrogate, a code point from 0xD800 to 0xDFFF that no encoding of a
    file accepts: [VSurrogate cs] is a string that holds at least one lone
    surrogate, given by its code points [cs], each of them below 256 or a
    lone surrogate. *)

Inductive value : Type :=
| VNone
| VBool (b : bool)
| VInt (n : Z)
| VFloat (x : Float.float)
| VStr (s : string)
| VList (l : list value)
| VDict (kv : list (string * value))
| VSurrogate (cs : list N).

Inductive exn : Type :=
| ValueError
| OverflowError
| TypeError
| AttributeError
| KeyError (key : value)
| IndexError
| ZeroDivisionError
| HTTPError (status_code : Z) (text : string)
| RequestException
| JSONDecodeError
| UnicodeEncodeError.

Definition res := result exn.

Local Open Scope result_scope.

(** [bool(v)]. *)
Definition truthy (v : value) : bool :=
  match v with
  | VNone => false
  | VBool b => b
  | VInt n => negb (Z.eqb n 0)
  | VFloat (S754_zero _) => false
  | VFloat _ => true
  | VStr s => match s with EmptyString => false | _ => true end
  | VList l => match l with [] => false | _ => true end
  | VDict kv => match kv with [] => false | _ => true end
  | VSurrogate cs => match cs with [] => false | _ => true end
  end.

(** ** Strings *)

Module Str.

Definition code (c : ascii) : N := N_of_ascii c.

(** [s.endswith(c)] for a one-character suffix. *)
Fixpoint endswith (s : string) (c : ascii) : bool :=
  match s with
  | EmptyString => false
  | String a EmptyString => Ascii.eqb a c
  | String _ s' => endswith s' c
  end.

(** [s[:-1]]. *)
Fixpoint drop_last (s : string) : string :=
  match s with
  | EmptyString => EmptyString
  | String _ EmptyString => EmptyString
  | String a s' => String a (drop_last s')
  end.

Definition is_digit (c : ascii) : bool :=
  ((48 <=? code c) && (code c <=? 57))%N.

Definition digit_value (c : ascii) : Z := Z.of_N (code c) - 48.

(** ASCII lower case, as [Py_TOLOWER]. *)
Definition lower (c : ascii) : ascii :=
  if ((65 <=? code c) && (code c <=? 90))%N then ascii_of_N (code c + 32) else c.

(** The characters [float()] strips at both ends: the ASCII white space
    and, below 256, the two other white-space code points, which the
    conversion first turns into spaces. *)
Definition is_space (c : ascii) : bool :=
  (((9 <=? code c) && (code c <=? 13)) || (code c =? 32)
   || (code c =? 133) || (code c =? 160))%N.

End Str.

(** ** [float(str)] *)

Module FloatParse.

Import Str.

Definition is_underscore (c : option ascii) : bool :=
  match c with
  | Some c => Ascii.eqb c "_"
  | None => false
  end.

Definition is_digit_opt (c : option ascii) : bool :=
  match c with
  | Some c => is_digit c
  | None => false
  end.

(** Underscores may only stand between two digits; they are dropped.
    [prev] is the character before [s]. *)
Fixpoint strip_underscores (prev : option ascii) (s : list ascii) : option (list ascii) :=
  match s with
  | [] => if is_underscore prev then None else Some []
  | c :: s' =>
      if Ascii.eqb c "_" then
        if is_digit_opt prev then strip_underscores (Some c) s' else None
      else if is_underscore prev && negb (is_digit c) then None
      else option_map (cons c) (strip_underscores (Some c) s')
  end.

Fixpoint lstrip (s : list ascii) : list ascii :=
  match s with
  | c :: s' => if is_space c then lstrip s' else s
  | [] => []
  end.

Definition strip (s : list ascii) : list ascii :=
  rev (lstrip (rev (lstrip s))).

(** The longest prefix of digits and what follows it. *)
Fixpoint span_digits (s : list ascii) : list ascii * list ascii :=
  match s with
  | c :: s' =>
      if is_digit c then let '(ds, r) := span_digits s' in (c :: ds, r)
      else ([], s)
  | [] => ([], [])
  end.

Definition digits_value (ds : list ascii) : Z :=
  fold_left (fun acc c => 10 * acc + digit_value c) ds 0.

Definition sign_of (s : list ascii) : bool * list ascii :=
  match s with
  | c :: s' =>
      if Ascii.eqb c "-" then (true, s')
      else if Ascii.eqb c "+" then (false, s')
      else (false, s)
  | [] => (false, s)
  end.

(** The exponent part: empty, or [e] or [E], an optional sign and at least
    one digit, up to the end of the text. *)
Definition exponent (s : list ascii) : option Z :=
  match s with
  | [] => Some 0
  | c :: s' =>
      if Ascii.eqb (lower c) "e" then
        let '(neg, s'') := sign_of s' in
        match span_digits s'' with
        | ((_ :: _) as ds, []) =>
            Some (if neg then - digits_value ds else digits_value ds)
        | _ => None
        end
      else None
  end.

(** An unsigned decimal literal: digits with an optional point, at least
    one digit in all, and an optional exponent.  The result is the pair
    [(m, e)] of the value [m * 10^e]. *)
Definition decimal (s : list ascii) : option (Z * Z) :=
  let '(ip, r) := span_digits s in
  let '(fp, r') := match r with
                   | c :: r1 => if Ascii.eqb c "." then span_digits r1 else ([], r)
                   | [] => ([], r)
                   end in
  match (ip ++ fp)%list with
  | [] => None
  | ds =>
      match exponent r' with
      | Some ex => Some (digits_value ds, ex - Z.of_nat (List.length fp))
      | None => None
      end
  end.

Definition lower_text (s : list ascii) : string :=
  string_of_list_ascii (map lower s).

(** [inf], [infinity] and [nan] in any case. *)
Definition special (neg : bool) (s : list ascii) : option Float.float :=
  let t := lower_text s in
  if String.eqb t "inf" || String.eqb t "infinity" then Some (S754_infinity neg)
  else if String.eqb t "nan" then Some S754_nan
  else None.

Definition parse (s : string) : option Float.float :=
  match strip_underscores None (list_ascii_of_string s) with
  | None => None
  | Some t =>
      let '(neg, body) := sign_of (strip t) in
      match decimal body with
      | Some (m, e) => Some (Float.of_decimal neg m e)
      | None => special neg body
      end
  end.

End FloatParse.

(** [float(s)] for a string: [ValueError] when [s] is not a float literal. *)
Definition float_of_str (s : string) : res Float.float :=
  match FloatParse.parse s with
  | Some x => Ok x
  | None => Raise ValueError
  end.

(** [int(x)] for a float. *)
Definition int_of_float (x : Float.float) : res Z :=
  match x with
  | S754_nan => Raise ValueError
  | S754_infinity _ => Raise OverflowError
  | _ => Ok (Float.trunc x)
  end.

(** ** The duration parser *)

(** On a string that holds a lone surrogate and ends with the unit
    character, [float] raises: a surrogate is neither a digit nor white
    space. *)
Definition format_duration (proto_str : value) : res Z :=
  if truthy proto_str then
    match proto_str with
    | VStr s =>
        if Str.endswith s "s" then
          x <- float_of_str (Str.drop_last s) ;; int_of_float x
        else Ok 0
    | VSurrogate cs =>
        if (List.last cs 0 =? 115)%N then Raise ValueError else Ok 0
    | _ => Raise AttributeError
    end
  else Ok 0.

(** ** Arithmetic of the unit conversion *)

(** [a / b] for two ints: the correctly rounded quotient. *)
Definition int_truediv (a b : Z) : res Float.float :=
  match b with
  | Z0 => Raise ZeroDivisionError
  | _ =>
      let neg := xorb (a <? 0) (b <? 0) in
      match a with
      | Z0 => Ok (S754_zero neg)
      | _ =>
          match Float.round_ratio neg (Z.to_pos (Z.abs a)) (Z.to_pos (Z.abs b)) with
          | S754_infinity _ => Raise OverflowError
          | q => Ok q
          end
      end
  end.

(** [float(n)] for an int, as an operand of a float operation. *)
Definition float_of_int (n : Z) : res Float.float :=
  match Float.of_Z n with
  | S754_infinity _ => Raise OverflowError
  | x => Ok x
  end.

(** [v / y] for an arbitrary value [v] and a float [y]. *)
Definition truediv_float (v : value) (y : Float.float) : res Float.float :=
  x <- match v with
       | VInt n => float_of_int n
       | VBool b => float_of_int (if b then 1 else 0)
       | VFloat x => Ok x
       | _ => Raise TypeError
       end ;;
  match y with
  | S754_zero _ => Raise ZeroDivisionError
  | _ => Ok (Float.div x y)
  end.

(** [round(x, ndigits)] for a float. *)
Definition py_round (x : Float.float) (ndigits : N) : res Float.float :=
  match x, Float.round x ndigits with
  | S754_finite _ _ _, S754_infinity _ => Raise OverflowError
  | _, y => Ok y
  end.

(** The literal [1609.34]. *)
Definition meters_per_mile : Float.float := Float.of_decimal false 160934 (-2).

(** ** Subscripts and lookups *)

Fixpoint lookup (k : string) (kv : list (string * value)) : option value :=
  match kv with
  | [] => None
  | (k', v) :: kv' => if String.eqb k k' then Some v else lookup k kv'
  end.

(** [d.get(k, default)]. *)
Definition dict_get (d : value) (k : string) (default : value) : res value :=
  match d with
  | VDict kv => Ok (match lookup k kv with Some v => v | None => default end)
  | _ => Raise AttributeError
  end.

(** [d[k]] for a string key. *)
Definition getitem (d : value) (k : string) : res value :=
  match d with
  | VDict kv =>
      match lookup k kv with
      | Some v => Ok v
      | None => Raise (KeyError (VStr k))
      end
  | _ => Raise TypeError
  end.

(** [v[0]]. *)
Definition getitem0 (v : value) : res value :=
  match v with
  | VList (x :: _) => Ok x
  | VList [] => Raise IndexError
  | VStr (String c _) => Ok (VStr (String c EmptyString))
  | VStr EmptyString => Raise IndexError
  | VSurrogate (c :: _) =>
      Ok (if (c <? 256)%N then VStr (String (ascii_of_N c) EmptyString)
          else VSurrogate [c])
  | VSurrogate [] => Raise IndexError
  | VDict _ => Raise (KeyError (VInt 0))
  | _ => Raise TypeError
  end.

(** ** Configuration *)

Definition ORIGIN : string := "267 Princeton St, Boston, MA".
Definition DESTINATION : string := "425 Waverley Oaks Rd #250, Waltham, MA 02452".

(** ** The local clock *)

(** An aware [datetime]; [utcoffset] is in minutes. *)
Record datetime : Type := {
  year : Z;
  month : Z;
  day : Z;
  hour : Z;
  minute : Z;
  second : Z;
  utcoffset : Z
}.

Definition within_window (local_time : datetime) : bool :=
  (5 <=? hour local_time) && (hour local_time <? 20).

Module Fmt.

(** [str(n)] for an int. *)
Definition of_Z (n : Z) : string := NilZero.string_of_int (Z.to_int n).

Fixpoint zeros (n : nat) : string :=
  match n with
  | O => EmptyString
  | S n' => String "0" (zeros n')
  end.

(** A non-negative number in decimal, padded with zeros to [width]. *)
Definition pad (width : nat) (n : Z) : string :=
  let d := of_Z n in
  zeros (width - String.length d) ++ d.

(** [f"{t:%H:%M}"]. *)
Definition hour_minute (t : datetime) : string :=
  pad 2 (hour t) ++ ":" ++ pad 2 (minute t).

(** [t.isoformat(timespec="seconds")]. *)
Definition isoformat (t : datetime) : string :=
  pad 4 (year t) ++ "-" ++ pad 2 (month t) ++ "-" ++ pad 2 (day t) ++ "T"
  ++ pad 2 (hour t) ++ ":" ++ pad 2 (minute t) ++ ":" ++ pad 2 (second t)
  ++ (if utcoffset t <? 0 then "-" else "+")
  ++ pad 2 (Z.abs (utcoffset t) / 60) ++ ":" ++ pad 2 (Z.abs (utcoffset t) mod 60).

End Fmt.

(** ** The departure time

    [routes_api_request] asks for a departure 30 seconds after the UTC
    clock.  The date arithmetic is that of the [datetime] module: a date is
    turned into its ordinal (the number of days since the day before
    0001-01-01), the seconds are added and the days carried, and the
    ordinal is turned back into a date. *)

Module Calendar.

(** [_is_leap]. *)
Definition is_leap (year : Z) : bool :=
  (year mod 4 =? 0) && (negb (year mod 100 =? 0) || (year mod 400 =? 0)).

(** [_days_before_year]. *)
Definition days_before_year (year : Z) : Z :=
  let y := year - 1 in
  y * 365 + y / 4 - y / 100 + y / 400.

Definition DAYS_IN_MONTH : list Z :=
  [-1; 31; 28; 31; 30; 31; 30; 31; 31; 30; 31; 30; 31].

Definition DAYS_BEFORE_MONTH : list Z :=
  [-1; 0; 31; 59; 90; 120; 151; 181; 212; 243; 273; 304; 334].

(** [_days_in_month]. *)
Definition days_in_month (year month : Z) : Z :=
  if (month =? 2) && is_leap year then 29
  else nth (Z.to_nat month) DAYS_IN_MONTH 0.

(** [_days_before_month]. *)
Definition days_before_month (year month : Z) : Z :=
  nth (Z.to_nat month) DAYS_BEFORE_MONTH 0
  + (if (2 <? month) && is_leap year then 1 else 0).

(** [_ymd2ord]: the ordinal of a date. *)
Definition ymd2ord (year month day : Z) : Z :=
  days_before_year year + days_before_month year month + day.

Definition DI400Y : Z := 146097.
Definition DI100Y : Z := 36524.
Definition DI4Y : Z := 1461.

(** The ordinal of 9999-12-31. *)
Definition MAXORDINAL : Z := 3652059.

(** [_ord2ymd]: the date of an ordinal. *)
Definition ord2ymd (n : Z) : Z * Z * Z :=
  let n := n - 1 in
  let n400 := n / DI400Y in
  let n := n mod DI400Y in
  let year := n400 * 400 + 1 in
  let n100 := n / DI100Y in
  let n := n mod DI100Y in
  let n4 := n / DI4Y in
  let n := n mod DI4Y in
  let n1 := n / 365 in
  let n := n mod 365 in
  let year := year + n100 * 100 + n4 * 4 + n1 in
  if (n1 =? 4) || (n100 =? 4) then (year - 1, 12, 31)
  else
    let leapyear := (n1 =? 3) && (negb (n4 =? 24) || (n100 =? 3)) in
    let month := Z.shiftr (n + 50) 5 in
    let preceding :=
      nth (Z.to_nat month) DAYS_BEFORE_MONTH 0
      + (if (2 <? month) && leapyear then 1 else 0) in
    if preceding >? n then
      let month := month - 1 in
      let preceding :=
        preceding - (nth (Z.to_nat month) DAYS_IN_MONTH 0
                     + (if (month =? 2) && leapyear then 1 else 0)) in
      (year, month, n - preceding + 1)
    else (year, month, n - preceding + 1).

(** The last lines of [_ord2ymd]: the month and the day of the month of
    the day [n] of a year, counted from 0. *)
Definition month_day (leapyear : bool) (n : Z) : Z * Z :=
  let month := Z.shiftr (n + 50) 5 in
  let preceding :=
    nth (Z.to_nat month) DAYS_BEFORE_MONTH 0
    + (if (2 <? month) && leapyear then 1 else 0) in
  if preceding >? n then
    let month := month - 1 in
    let preceding :=
      preceding - (nth (Z.to_nat month) DAYS_IN_MONTH 0
                   + (if (month =? 2) && leapyear then 1 else 0)) in
    (month, n - preceding + 1)
  else (month, n - preceding + 1).

End Calendar.

Import Calendar.

(** [t + timedelta(seconds=seconds)]: the time zone is kept, and a date
    outside the years 1 to 9999 raises. *)
Definition add_seconds (t : datetime) (seconds : Z) : res datetime :=
  let total := hour t * 3600 + minute t * 60 + second t + seconds in
  let days := Calendar.ymd2ord (year t) (month t) (day t) + total / 86400 in
  let rest := total mod 86400 in
  if (0 <? days) && (days <=? Calendar.MAXORDINAL) then
    let '(y, m, d) := Calendar.ord2ymd days in
    Ok {| year := y; month := m; day := d;
          hour := rest / 3600;
          minute := (rest mod 3600) / 60;
          second := (rest mod 3600) mod 60;
          utcoffset := utcoffset t |}
  else Raise OverflowError.

(** Whether [p] is a prefix of [s]. *)
Fixpoint startswith (p s : string) : bool :=
  match p, s with
  | EmptyString, _ => true
  | String a p', String b s' => Ascii.eqb a b && startswith p' s'
  | String _ _, EmptyString => false
  end.

(** [s.replace(old, new)] for a non-empty [old]: the occurrences of [old]
    are replaced from left to right, without overlap; [skip] counts the
    characters of an occurrence still to be passed over. *)
Fixpoint replace_from (old new : string) (skip : nat) (s : string) : string :=
  match s with
  | EmptyString => EmptyString
  | String c s' =>
      match skip with
      | S k => replace_from old new k s'
      | O =>
          if startswith old s
          then new ++ replace_from old new (String.length old - 1) s'
          else String c (replace_from old new 0 s')
      end
  end.

Definition replace (old new s : string) : string := replace_from old new 0 s.

(** Texts of two and of four decimal digits. *)
Definition two_digits (s : string) : bool :=
  match s with
  | String a (String b EmptyString) => Str.is_digit a && Str.is_digit b
  | _ => false
  end.

Definition four_digits (s : string) : bool :=
  match s with
  | String a (String b s') => Str.is_digit a && Str.is_digit b && two_digits s'
  | _ => false
  end.

(** Lines 30 and 31 of [routes_api_request]: the departure time sent to
    the service, from the reading [utc_now] of the UTC clock. *)
Definition departure_time (utc_now : datetime) : res string :=
  (now_utc <- add_seconds utc_now 30 ;;
   Ok (replace "+00:00" "Z" (Fmt.isoformat now_utc)))%result.

(** The ISO 8601 text of a date and time with the suffix Z. *)
Definition zulu (t : datetime) : string :=
  Fmt.pad 4 (year t) ++ "-" ++ Fmt.pad 2 (month t) ++ "-" ++ Fmt.pad 2 (day t)
  ++ "T" ++ Fmt.pad 2 (hour t) ++ ":" ++ Fmt.pad 2 (minute t) ++ ":"
  ++ Fmt.pad 2 (second t) ++ "Z".

(** A reading of the UTC clock: a date of the calendar and a time of day,
    with offset zero. *)
Definition utc_reading (t : datetime) : Prop :=
  1 <= year t <= 9999 /\ 1 <= month t <= 12 /\
  1 <= day t <= Calendar.days_in_month (year t) (month t) /\
  0 <= hour t < 24 /\ 0 <= minute t < 60 /\ 0 <= second t < 60 /\
  utcoffset t = 0.

(** The seconds from the start of the day before 0001-01-01 to [t]. *)
Definition instant (t : datetime) : Z :=
  Calendar.ymd2ord (year t) (month t) (day t) * 86400
  + hour t * 3600 + minute t * 60 + second t.

(** ** The outside world *)

(** What a run gets from the routing service: nothing (the connection
    fails or times out), a response with its status code, its body as text
    and the body decoded as JSON when it is JSON, or no exchange at all when
    computing the departure time raises [ex], so that no request is sent. *)
Inductive reply : Type :=
| NoReply
| Reply (status_code : Z) (text : string) (json : option value)
| NoRequest (ex : exn).

(** What the outside world holds for a run: the reading of the local clock
    in [log_eta], the reading of the UTC clock in [routes_api_request], and
    what [requests.post] returns when it is called: a response, or [None]
    when the connection fails or times out. *)
Record env : Type := {
  now : datetime;
  utc_now : datetime;
  http_response : option (Z * string * option value)
}.

(** What the run gets from the service: the departure time is computed
    before the request is sent. *)
Definition service (e : env) : reply :=
  match departure_time (utc_now e) with
  | Raise ex => NoRequest ex
  | Ok _ =>
      match http_response e with
      | None => NoReply
      | Some (status_code, text, json) => Reply status_code text json
      end
  end.

Inductive output : Type :=
| Printed (line : string)
| Traceback (e : exn).

(** [log_file] is the text of [eta_log.csv], [None] while the file does not
    exist; [console] is what was printed, oldest first; [requests] counts
    the HTTP requests sent. *)
Record world : Type := {
  log_file : option string;
  console : list output;
  requests : nat
}.

Definition content (w : world) : string :=
  match log_file w with
  | Some s => s
  | None => EmptyString
  end.

(** ** Effects *)

Definition io (A : Type) : Type := world -> res A * world.

Definition ret {A} (a : A) : io A := fun w => (Ok a, w).

Definition iobind {A B} (m : io A) (k : A -> io B) : io B :=
  fun w =>
    match m w with
    | (Ok a, w') => k a w'
    | (Raise e, w') => (Raise e, w')
    end.

Definition lift {A} (r : res A) : io A := fun w => (r, w).

Declare Scope io_scope.
Delimit Scope io_scope with io.
Notation "x <- m ;; k" := (iobind m (fun x => k))
  (at level 100, m at next level, right associativity) : io_scope.
Notation "m ;; k" := (iobind m (fun _ => k))
  (at level 100, right associativity) : io_scope.

Definition emit (o : output) : io unit :=
  fun w => (Ok tt, {| log_file := log_file w;
                      console := (console w ++ [o])%list;
                      requests := requests w |}).

(** [print(line)]. *)
Definition print (line : string) : io unit := emit (Printed line).

(** [os.path.exists(log_path)]. *)
Definition path_exists : io bool :=
  fun w => (Ok (match log_file w with Some _ => true | None => false end), w).

(** Writing [text], a text of code points below 256, to the log file
    opened in append mode with the UTF-8 encoding, which creates the file
    when it does not exist. *)
Definition append (text : string) : io unit :=
  fun w => (Ok tt, {| log_file := Some (content w ++ text);
                      console := console w;
                      requests := requests w |}).

(** [requests.post(...)]: one request goes out, the service answers. *)
Definition post (e : env) : io (Z * string * option value) :=
  fun w =>
    let w' := {| log_file := log_file w;
                 console := console w;
                 requests := S (requests w) |} in
    match http_response e with
    | None => (Raise RequestException, w')
    | Some response => (Ok response, w')
    end.

(** ** The Route Fetcher *)

(** The departure time is computed first, from the UTC clock; the rest of
    the payload is constant. *)
Definition routes_api_request (e : env) : io value :=
  (departure <- lift (departure_time (utc_now e)) ;;
   response <- post e ;;
   let '(status_code, text, json) := response in
   (* response.raise_for_status() *)
   if (400 <=? status_code) && (status_code <? 600)
   then lift (Raise (HTTPError status_code text))
   else
     (* response.json() *)
     match json with
     | Some data => ret data
     | None => lift (Raise JSONDecodeError)
     end)%io.

(** ** The rows of the log *)

Record row : Type := {
  timestamp : string;
  origin : string;
  destination : string;
  distance_mi : Float.float;
  eta_min : Float.float;
  freeflow_min : Float.float;
  route_description : value
}.

Definition fieldnames : list string :=
  ["timestamp"; "origin"; "destination"; "distance_mi"; "eta_min";
   "freeflow_min"; "route_description"].

(** The values of a row in the order of its keys. *)
Definition row_values (r : row) : list value :=
  [VStr (timestamp r); VStr (origin r); VStr (destination r);
   VFloat (distance_mi r); VFloat (eta_min r); VFloat (freeflow_min r);
   route_description r].

(** ** Sample inputs

    The scenario of the specification: at five past nine in the morning the
    service answers one route of 600 seconds in traffic, 500 seconds
    without, 16093.4 meters, described as I-95 N. *)

Definition sample_time : datetime :=
  {| year := 2024; month := 3; day := 7;
     hour := 9; minute := 5; second := 0; utcoffset := -300 |}.

Definition sample_night : datetime :=
  {| year := 2024; month := 3; day := 7;
     hour := 20; minute := 0; second := 0; utcoffset := -300 |}.

(** A reading of the UTC clock fifteen seconds before the new year. *)
Definition sample_utc : datetime :=
  {| year := 2024; month := 12; day := 31;
     hour := 23; minute := 59; second := 45; utcoffset := 0 |}.

Definition sample_route : list (string * value) :=
  [("duration", VStr "600s"); ("staticDuration", VStr "500s");
   ("distanceMeters", VFloat (Float.of_decimal false 160934 (-1)));
   ("description", VStr "I-95 N")].

Definition answer (routes : list value) : reply :=
  Reply 200 "{...}" (Some (VDict [("routes", VList routes)])).

(** The run at the local time [t] whose request, sent while the UTC clock
    reads [sample_utc], the service answers by [r]. *)
Definition run_at (t : datetime) (r : reply) : env :=
  {| now := t;
     utc_now := sample_utc;
     http_response := match r with
                      | Reply status_code text json => Some (status_code, text, json)
                      | _ => None
                      end |}.

Definition sample_env : env := run_at sample_time (answer [VDict sample_route]).

(** A route without a description, and one with a malformed duration
    and nothing else. *)
Definition bare_route : list (string * value) :=
  [("duration", VStr "600s"); ("staticDuration", VStr "500s");
   ("distanceMeters", VInt 16093)].

Definition faulty_route : list (string * value) := [("duration", VStr "xs")].

Definition faulty_env : env := run_at sample_time (answer [VDict faulty_route]).

(** A route whose description holds a lone surrogate, the code point
    U+D800, which no encoding of the log can write. *)
Definition surrogate_route : list (string * value) :=
  [("duration", VStr "600s"); ("staticDuration", VStr "500s");
   ("distanceMeters", VInt 16093); ("description", VSurrogate [55296%N])].

Definition surrogate_env : env := run_at sample_time (answer [VDict surrogate_route]).

(** A run while the UTC clock reads fifteen seconds before the end of the
    year 9999. *)
Definition last_utc : datetime :=
  {| year := 9999; month := 12; day := 31;
     hour := 23; minute := 59; second := 45; utcoffset := 0 |}.

Definition last_env : env :=
  {| now := sample_time;
     utc_now := last_utc;
     http_response :=
       Some (200, "{...}", Some (VDict [("routes", VList [VDict sample_route])])) |}.

(** Another answer that starts with the sample route: another status,
    another body, a second route and another member. *)
Definition other_env : env :=
  run_at sample_time
    (Reply 203 "{routes: [...], geocodingResults: {}}"
       (Some (VDict [("geocodingResults", VDict []);
                     ("routes", VList [VDict sample_route; VDict bare_route])]))).

Definition sample_row : row :=
  {| timestamp := "2024-03-07T09:05:00-05:00";
     origin := ORIGIN;
     destination := DESTINATION;
     distance_mi := Float.of_decimal false 100 (-1);
     eta_min := Float.of_decimal false 100 (-1);
     freeflow_min := Float.of_decimal false 83 (-1);
     route_description := VStr "I-95 N" |}.

Definition fresh : world :=
  {| log_file := None; console := []; requests := 0 |}.

Definition used : world :=
  {| log_file := Some "old"; console := []; requests := 0 |}.

(** A rendering of values for the samples: a float shows its mantissa and
    its binary exponent. *)
Definition sample_str (v : value) : string :=
  match v with
  | VInt n => Fmt.of_Z n
  | VFloat (S754_finite s m e) =>
      (if s then "-" else EmptyString) ++ Fmt.of_Z (Zpos m) ++ "p" ++ Fmt.of_Z e
  | VFloat (S754_zero s) => if s then "-0.0" else "0.0"
  | VFloat (S754_infinity s) => if s then "-inf" else "inf"
  | VFloat S754_nan => "nan"
  | VBool b => if b then "True" else "False"
  | _ => "..."
  end.

Definition sample_dumps (r : row) : string :=
  timestamp r ++ " " ++ sample_str (VFloat (distance_mi r)) ++ " "
  ++ sample_str (VFloat (eta_min r)) ++ " " ++ sample_str (VFloat (freeflow_min r)).

Section Script.

(** Two renderings of the Python library are left open: [str(v)], which the
    CSV writer applies to a field that is neither a string nor [None], and
    [json.dumps(row, indent=2)]. *)
Variable py_str : value -> string.
Variable json_dumps : row -> string.

(** *** The CSV writer, [excel] dialect *)

Definition quotechar : ascii := ascii_of_N 34.
Definition CR : ascii := ascii_of_N 13.
Definition LF : ascii := ascii_of_N 10.
Definition lineterminator : string := String CR (String LF EmptyString).

Definition special (c : ascii) : bool :=
  Ascii.eqb c "," || Ascii.eqb c quotechar || Ascii.eqb c CR || Ascii.eqb c LF.

Fixpoint needs_quotes (s : string) : bool :=
  match s with
  | EmptyString => false
  | String c s' => special c || needs_quotes s'
  end.

(** Every quote character is written twice. *)
Fixpoint double_quotes (s : string) : string :=
  match s with
  | EmptyString => EmptyString
  | String c s' =>
      if Ascii.eqb c quotechar then String c (String c (double_quotes s'))
      else String c (double_quotes s')
  end.

Definition field_text (v : value) : string :=
  match v with
  | VStr s => s
  | VNone => EmptyString
  | _ => py_str v
  end.

Definition csv_field (v : value) : string :=
  let s := field_text v in
  if needs_quotes s
  then String quotechar (double_quotes s) ++ String quotechar EmptyString
  else s.

Fixpoint join (sep : string) (l : list string) : string :=
  match l with
  | [] => EmptyString
  | [x] => x
  | x :: l' => x ++ sep ++ join sep l'
  end.

(** The line [writerow] writes for a list of fields (more than one). *)
Definition csv_line (fields : list value) : string :=
  join "," (map csv_field fields) ++ lineterminator.

Definition header_line : string := csv_line (map VStr fieldnames).

(** The line of a row.  A description that holds a lone surrogate has no
    line that can be written: [writerow] raises before the line is used. *)
Definition row_line (r : row) : string := csv_line (row_values r).

(** Whether the text of a field can be encoded in UTF-8: every text but a
    string that holds a lone surrogate. *)
Definition encodable (v : value) : bool :=
  match v with
  | VSurrogate _ => false
  | _ => true
  end.

(** [w.writerow(row)]: the line is encoded before it reaches the file, and
    a description that cannot be encoded raises with nothing of the line
    written.  The six other fields are texts below 256 and floats. *)
Definition writerow (r : row) : io unit :=
  if encodable (route_description r) then append (row_line r)
  else lift (Raise UnicodeEncodeError).

(** *** The run *)

(** Lines 73 to 91 of [log_eta]: the row built at [local_time] from the
    first route [r]. *)
Definition route_row (local_time : datetime) (r : value) : res row :=
  (d <- getitem r "duration" ;;
   duration_s <- format_duration d ;;
   d' <- getitem r "staticDuration" ;;
   static_s <- format_duration d' ;;
   dist_m <- getitem r "distanceMeters" ;;
   description <- dict_get r "description" (VStr EmptyString) ;;
   q <- int_truediv duration_s 60 ;;
   eta_min <- py_round q 1 ;;
   q' <- int_truediv static_s 60 ;;
   static_min <- py_round q' 1 ;;
   q'' <- truediv_float dist_m meters_per_mile ;;
   dist_mi <- py_round q'' 2 ;;
   Ok {| timestamp := Fmt.isoformat local_time;
         origin := ORIGIN;
         destination := DESTINATION;
         distance_mi := dist_mi;
         eta_min := eta_min;
         freeflow_min := static_min;
         route_description := description |})%result.

Definition log_eta (e : env) : io unit :=
  (let local_time := now e in
   if negb (within_window local_time) then
     print ("[" ++ Fmt.hour_minute local_time ++ "] Outside time window; skipping.")
   else
     data <- routes_api_request e ;;
     routes <- lift (dict_get data "routes" (VList [])) ;;
     if negb (truthy routes) then
       print "No routes returned."
     else
       r <- lift (getitem0 routes) ;;
       row <- lift (route_row local_time r) ;;
       write_header <- (b <- path_exists ;; ret (negb b)) ;;
       (if write_header then append header_line else ret tt) ;;
       writerow row ;;
       print (json_dumps row))%io.

(** The [__main__] block: whatever [log_eta] raises is reported on the
    console and the process ends normally. *)
Definition main (e : env) (w : world) : world :=
  match log_eta e w with
  | (Ok _, w') => w'
  | (Raise (HTTPError status_code text), w') =>
      snd ((print ("HTTPError status: " ++ Fmt.of_Z status_code) ;;
            print ("Response text: " ++ text))%io w')
  | (Raise ex, w') => snd (emit (Traceback ex) w')
  end.

(** One process after the other, each in the world the last one left. *)
Fixpoint runs (es : list env) (w : world) : world :=
  match es with
  | [] => w
  | e :: es' => runs es' (main e w)
  end.

(** *** Worlds a run can leave *)

Definition with_console (o : list output) (n : nat) (w : world) : world :=
  {| log_file := log_file w;
     console := (console w ++ o)%list;
     requests := n + requests w |}.

(** The world after a run that sent its request, appended [r] and printed
    its summary. *)
Definition logged (r : row) (w : world) : world :=
  {| log_file := Some (match log_file w with
                       | Some s => s ++ row_line r
                       | None => header_line ++ row_line r
                       end);
     console := (console w ++ [Printed (json_dumps r)])%list;
     requests := S (requests w) |}.

(** The world after a run that sent its request and could not encode its
    row: the header is written when the file did not exist, and nothing
    else. *)
Definition header_only (w : world) : world :=
  {| log_file := Some (match log_file w with
                       | Some s => s
                       | None => header_line
                       end);
     console := console w;
     requests := S (requests w) |}.

(** A run that logs [r]: in every world, [e] makes the script append the
    row [r] and return. *)
Definition logs (e : env) (r : row) : Prop :=
  forall w, log_eta e w = (Ok tt, logged r w).


(** The status codes on which [raise_for_status] raises: the client and
    the server errors. *)
Definition error_status (status_code : Z) : Prop := 400 <= status_code < 600.

(** What a run does once the gate is passed and the service has answered
    [data] with a status that is no error. *)
Definition after_fetch (e : env) (data : value) (w : world) : res unit * world :=
  match dict_get data "routes" (VList []) with
  | Raise ex => (Raise ex, with_console [] 1 w)
  | Ok routes =>
      if truthy routes then
        match (r <- getitem0 routes ;; route_row (now e) r)%result with
        | Ok row =>
            if encodable (route_description row) then (Ok tt, logged row w)
            else (Raise UnicodeEncodeError, header_only w)
        | Raise ex => (Raise ex, with_console [] 1 w)
        end
      else (Ok tt, with_console [Printed "No routes returned."] 1 w)
  end.

(** The run passes the gate and the service answers, with a status that is
    no error, a response whose first route is the object [kv]. *)
Definition first_route (e : env) (kv : list (string * value)) : Prop :=
  within_window (now e) = true /\
  exists status_code text top rest,
    service e = Reply status_code text (Some (VDict top)) /\
    ~ error_status status_code /\
    lookup "routes" top = Some (VList (VDict kv :: rest)).

Definition digits (l : list ascii) : Prop :=
  Forall (fun c => Str.is_digit c = true) l.

(** The characters of a plain number: the digits [ip], then, when [fp] is
    not empty, a point and the digits [fp]. *)
Definition number_chars (ip fp : list ascii) : list ascii :=
  (ip ++ match fp with
         | [] => []
         | _ => "."%char :: fp
         end)%list.

Definition number_text (ip fp : list ascii) : string :=
  string_of_list_ascii (number_chars ip fp).

(** The exceptions that the handler of [__main__] reports by a traceback. *)
Definition plain (ex : exn) : Prop :=
  match ex with
  | HTTPError _ _ => False
  | _ => True
  end.

(** *** The outcome of a run

    What a run comes to is decided by the clocks and the service alone:
    it is skipped, it raises before the request is sent ([Unsent]), it
    raises after the request and before the log is opened ([Failed]), it
    finds no routes, it raises on writing the row ([Unwritten]) or it logs
    the row. *)

Inductive outcome : Type :=
| Skipped
| NoRoutes
| Logged (r : row)
| Failed (ex : exn)
| Unsent (ex : exn)
| Unwritten (r : row).

Definition outcome_of (e : env) : outcome :=
  if within_window (now e) then
    match service e with
    | NoRequest ex => Unsent ex
    | NoReply => Failed RequestException
    | Reply status_code text json =>
        if (400 <=? status_code) && (status_code <? 600)
        then Failed (HTTPError status_code text)
        else
          match json with
          | None => Failed JSONDecodeError
          | Some data =>
              match dict_get data "routes" (VList []) with
              | Raise ex => Failed ex
              | Ok routes =>
                  if truthy routes then
                    match (r <- getitem0 routes ;; route_row (now e) r)%result with
                    | Ok row =>
                        if encodable (route_description row) then Logged row
                        else Unwritten row
                    | Raise ex => Failed ex
                    end
                  else NoRoutes
              end
          end
    end
  else Skipped.

(** The rows that a list of runs logs, in the order of the runs. *)
Definition logged_rows (es : list env) : list row :=
  flat_map (fun e => match outcome_of e with
                     | Logged r => [r]
                     | _ => []
                     end) es.

(** Whether the run, once inside the window, sends its request: it does
    unless computing the departure time raises. *)
Definition sends (e : env) : bool :=
  match service e with
  | NoRequest _ => false
  | _ => true
  end.

(** What the program prints for an outcome at time [t]. *)
Definition report (t : datetime) (o : outcome) : list output :=
  match o with
  | Skipped =>
      [Printed ("[" ++ Fmt.hour_minute t ++ "] Outside time window; skipping.")]
  | NoRoutes => [Printed "No routes returned."]
  | Logged r => [Printed (json_dumps r)]
  | Failed (HTTPError status_code text) =>
      [Printed ("HTTPError status: " ++ Fmt.of_Z status_code);
       Printed ("Response text: " ++ text)]
  | Failed ex | Unsent ex => [Traceback ex]
  | Unwritten r => [Traceback UnicodeEncodeError]
  end.

(** The run passes the gate and the service answers [data], decoded from
    a response whose status is no error. *)
Definition fetched (e : env) (data : value) : Prop :=
  within_window (now e) = true /\
  exists status_code text,
    service e = Reply status_code text (Some data) /\
    ~ error_status status_code.

(** The values [format_duration] turns into 0 without converting them:
    the falsy ones (null, zero, false, an empty text, list or object) and
    the texts that do not end with the unit character. *)
Definition zero_like (d : value) : Prop :=
  truthy d = false \/
  (exists s, d = VStr s /\ Str.endswith s "s" = false) \/
  (exists cs, d = VSurrogate cs /\ (List.last cs 0 =? 115)%N = false).

Definition is_str (v : value) : bool :=
  match v with
  | VStr _ | VSurrogate _ => true
  | _ => false
  end.

(** The values that can be divided by a float: ints, booleans, floats. *)
Definition is_number (v : value) : bool :=
  match v with
  | VInt _ | VBool _ | VFloat _ => true
  | _ => false
  end.

(** *** Reading the log back

    A reader of the lines the CSV writer produces: it takes one record off
    the front of a text and returns its fields and the rest of the text.
    A field starts bare or with a quote; inside quotes, two quotes stand
    for one and a single quote closes the field. *)

Inductive reading : Type :=
| AtStart
| InBare
| InQuotes
| AfterQuote.

Definition close_field (acc : list ascii) : string :=
  string_of_list_ascii (rev acc).

Fixpoint read_record (st : reading) (acc : list ascii) (fields : list string)
    (s : string) : option (list string * string) :=
  match s with
  | EmptyString => None
  | String c s' =>
      match st with
      | InQuotes =>
          if Ascii.eqb c quotechar then read_record AfterQuote acc fields s'
          else read_record InQuotes (c :: acc) fields s'
      | _ =>
          if Ascii.eqb c "," then
            read_record AtStart [] (close_field acc :: fields) s'
          else if Ascii.eqb c CR then
            match s' with
            | String l rest =>
                if Ascii.eqb l LF
                then Some (rev (close_field acc :: fields), rest)
                else None
            | EmptyString => None
            end
          else if Ascii.eqb c quotechar then
            match st with
            | AtStart => read_record InQuotes [] fields s'
            | AfterQuote => read_record InQuotes (c :: acc) fields s'
            | _ => None
            end
          else
            match st with
            | AfterQuote => None
            | _ => if Ascii.eqb c LF then None
                   else read_record InBare (c :: acc) fields s'
            end
      end
  end.

(** All the records of a text, at most [fuel] of them. *)
Fixpoint read_records (fuel : nat) (s : string) : option (list (list string)) :=
  match s with
  | EmptyString => Some []
  | _ =>
      match fuel with
      | O => None
      | S fuel' =>
          match read_record AtStart [] [] s with
          | Some (fields, rest) => option_map (cons fields) (read_records fuel' rest)
          | None => None
          end
      end
  end.

(** A text has fewer records than characters. *)
Definition read_log (s : string) : option (list (list string)) :=
  read_records (String.length s) s.

(** The text of each field of a list of values. *)
Definition texts (fields : list value) : list string := map field_text fields.

(** The lines of a list of rows, one after the other. *)
Definition lines (rows : list row) : string :=
  fold_right String.append EmptyString (map row_line rows).

(** The text of a field as the writer puts it on a line. *)
Definition render (t : string) : string :=
  if needs_quotes t
  then String quotechar (double_quotes t) ++ String quotechar EmptyString
  else t.

(** ** Rounding locations *)

(** The location, as the rounding functions of the float library record
    it, of the fraction [a / b] between two integers, [0 <= a < b]. *)
Definition loc_of (a b : Z) : location :=
  if a =? 0 then loc_Exact else loc_Inexact (2 * a ?= b).

(** * Properties *)

Lemma bind_raise {A B} (m : res A) (k : A -> res B) ex :
  bind m k = Raise ex ->
  m = Raise ex \/ exists a, m = Ok a /\ k a = Raise ex.
Proof.
  destruct m as [a|ex']; simpl; intros H; [right; eauto | left].
  now injection H as ->.
Qed.

Lemma bind_ok {A B} (m : res A) (k : A -> res B) b :
  bind m k = Ok b -> exists a, m = Ok a /\ k a = Ok b.
Proof. destruct m as [a|ex]; simpl; intros H; [eauto | discriminate]. Qed.

Lemma append_empty (s : string) : s ++ EmptyString = s.
Proof. induction s as [|c s IH]; simpl; [reflexivity | now rewrite IH]. Qed.

Lemma append_assoc (s t u : string) : (s ++ t) ++ u = s ++ t ++ u.
Proof. induction s as [|c s IH]; simpl; [reflexivity | now rewrite IH]. Qed.

Lemma length_append (s t : string) :
  String.length (s ++ t) = (String.length s + String.length t)%nat.
Proof. induction s as [|c s IH]; simpl; [reflexivity | now rewrite IH]. Qed.

(** ** The Window Gate *)

Lemma within_window_iff (t : datetime) :
  within_window t = true <-> 5 <= hour t < 20.
Proof.
  unfold within_window. rewrite andb_true_iff, Z.leb_le, Z.ltb_lt. reflexivity.
Qed.

Lemma within_window_outside (t : datetime) :
  ~ (5 <= hour t < 20) -> within_window t = false.
Proof.
  intros H. destruct (within_window t) eqn:E; [|reflexivity].
  now apply within_window_iff in E.
Qed.

(** C2.  The gate answers true exactly when the hour of day lies in the
    interval from 5 (included) to 20 (excluded); at any other hour it
    answers false; and the answer depends on the hour alone, whatever the
    minutes, the seconds and the date. *)
Theorem within_window_hours (t : datetime) :
  (within_window t = true <-> 5 <= hour t < 20) /\
  (~ (5 <= hour t < 20) -> within_window t = false) /\
  (forall t', hour t' = hour t -> within_window t' = within_window t).
Proof.
  split; [apply within_window_iff|]. split; [apply within_window_outside|].
  intros t' H. unfold within_window. now rewrite H.
Qed.

(** ** The departure time *)

Lemma is_leap_parts a b c d :
  0 <= b <= 3 -> 0 <= c <= 24 -> 0 <= d <= 3 ->
  is_leap (a * 400 + 1 + b * 100 + c * 4 + d) =
    (d =? 3) && (negb (c =? 24) || (b =? 3)).
Proof.
  intros Hb Hc Hd. unfold is_leap.
  set (y := a * 400 + 1 + b * 100 + c * 4 + d).
  assert (H4 : y mod 4 = (d + 1) mod 4).
  { unfold y. replace (a * 400 + 1 + b * 100 + c * 4 + d)
      with (d + 1 + (a * 100 + b * 25 + c) * 4) by ring.
    apply Z.mod_add. lia. }
  assert (H100 : y mod 100 = (c * 4 + d + 1) mod 100).
  { unfold y. replace (a * 400 + 1 + b * 100 + c * 4 + d)
      with (c * 4 + d + 1 + (a * 4 + b) * 100) by ring.
    apply Z.mod_add. lia. }
  assert (H400 : y mod 400 = (b * 100 + c * 4 + d + 1) mod 400).
  { unfold y. replace (a * 400 + 1 + b * 100 + c * 4 + d)
      with (b * 100 + c * 4 + d + 1 + a * 400) by ring.
    apply Z.mod_add. lia. }
  rewrite H4, H100, H400.
  destruct (Z.eqb_spec d 3) as [-> | Hd3].
  - change ((3 + 1) mod 4 =? 0) with true. cbn [andb].
    destruct (Z.eqb_spec c 24) as [-> | Hc24].
    + change ((24 * 4 + 3 + 1) mod 100 =? 0) with true. cbn [negb orb].
      destruct (Z.eqb_spec b 3) as [-> | Hb3]; [reflexivity|].
      apply Z.eqb_neq. rewrite Z.mod_small by lia. lia.
    + cbn [negb orb].
      assert (E : ((c * 4 + 3 + 1) mod 100 =? 0) = false).
      { apply Z.eqb_neq. rewrite Z.mod_small by lia. lia. }
      rewrite E. reflexivity.
  - assert (E : ((d + 1) mod 4 =? 0) = false).
    { apply Z.eqb_neq. rewrite Z.mod_small by lia. lia. }
    rewrite E. reflexivity.
Qed.

Lemma days_before_year_parts a b c d :
  0 <= b <= 3 -> 0 <= c <= 24 -> 0 <= d <= 3 ->
  days_before_year (a * 400 + 1 + b * 100 + c * 4 + d) =
    a * 146097 + b * 36524 + c * 1461 + d * 365.
Proof.
  intros Hb Hc Hd. unfold days_before_year.
  set (y := a * 400 + 1 + b * 100 + c * 4 + d - 1).
  assert (H4 : y / 4 = a * 100 + b * 25 + c).
  { symmetry. apply (Z.div_unique y 4 _ d); [lia | unfold y; ring]. }
  assert (H100 : y / 100 = a * 4 + b).
  { symmetry. apply (Z.div_unique y 100 _ (c * 4 + d)); [lia | unfold y; ring]. }
  assert (H400 : y / 400 = a).
  { symmetry. apply (Z.div_unique y 400 _ (b * 100 + c * 4 + d)); [lia | unfold y; ring]. }
  rewrite H4, H100, H400. unfold y. ring.
Qed.

Ltac calc :=
  repeat match goal with
  | |- context [nth (Z.to_nat ?k) ?l ?d] =>
      let v := eval vm_compute in (nth (Z.to_nat k) l d) in
      change (nth (Z.to_nat k) l d) with v
  | |- context [Z.ltb 2 ?k] =>
      let v := eval vm_compute in (Z.ltb 2 k) in
      progress change (Z.ltb 2 k) with v
  | |- context [Z.eqb ?k 2] =>
      let v := eval vm_compute in (Z.eqb k 2) in
      progress change (Z.eqb k 2) with v
  end.

(** The month and the day found for a day of the year are those of the
    calendar. *)
Lemma month_day_spec leap r :
  0 <= r < 365 ->
  exists m d,
    month_day leap r = (m, d) /\
    1 <= m <= 12 /\
    1 <= d <= (if (m =? 2) && leap then 29 else nth (Z.to_nat m) DAYS_IN_MONTH 0) /\
    nth (Z.to_nat m) DAYS_BEFORE_MONTH 0 + (if (2 <? m) && leap then 1 else 0) + d
      = r + 1.
Proof.
  intros Hr. unfold month_day.
  rewrite Z.shiftr_div_pow2 by lia. change (2 ^ 5) with 32.
  pose proof (Z.div_mod (r + 50) 32 ltac:(lia)) as Hdm.
  pose proof (Z.mod_pos_bound (r + 50) 32 ltac:(lia)) as Hmb.
  set (k := (r + 50) / 32) in *.
  assert (Hk : k = 1 \/ k = 2 \/ k = 3 \/ k = 4 \/ k = 5 \/ k = 6 \/
               k = 7 \/ k = 8 \/ k = 9 \/ k = 10 \/ k = 11 \/ k = 12) by lia.
  clearbody k.
  destruct Hk as [-> | [-> | [-> | [-> | [-> | [-> | [-> | [-> | [-> | [-> | [-> | ->]]]]]]]]]]];
    destruct leap; cbv zeta; cbn [andb]; calc; cbn [andb];
    match goal with
    | |- context [?p >? r] => destruct (Z.gtb_spec p r)
    end;
    eexists; eexists; (split; [reflexivity|]); calc; cbn [andb]; lia.
Qed.

Lemma ord2ymd_month_day n :
  let n0 := n - 1 in
  let a := n0 / DI400Y in
  let b := (n0 mod DI400Y) / DI100Y in
  let c := ((n0 mod DI400Y) mod DI100Y) / DI4Y in
  let d := (((n0 mod DI400Y) mod DI100Y) mod DI4Y) / 365 in
  let r := (((n0 mod DI400Y) mod DI100Y) mod DI4Y) mod 365 in
  let year := a * 400 + 1 + b * 100 + c * 4 + d in
  ord2ymd n =
    if (d =? 4) || (b =? 4) then (year - 1, 12, 31)
    else
      let '(m, dd) := month_day ((d =? 3) && (negb (c =? 24) || (b =? 3))) r in
      (year, m, dd).
Proof.
  cbv zeta. unfold ord2ymd, month_day. cbv zeta.
  destruct (_ || _); [reflexivity|].
  match goal with |- context [?p >? ?x] => destruct (p >? x) end; reflexivity.
Qed.

(** The date of an ordinal is a date of the calendar, and its ordinal is
    the one it was made from. *)
Lemma ord2ymd_spec n :
  1 <= n ->
  exists y m d,
    ord2ymd n = (y, m, d) /\
    1 <= y /\ 1 <= m <= 12 /\ 1 <= d <= days_in_month y m /\
    ymd2ord y m d = n /\
    (n <= MAXORDINAL -> y <= 9999).
Proof.
  intros Hn. rewrite ord2ymd_month_day. cbv zeta. unfold DI400Y, DI100Y, DI4Y.
  pose proof (Z.div_mod (n - 1) 146097 ltac:(lia)) as E1.
  pose proof (Z.mod_pos_bound (n - 1) 146097 ltac:(lia)) as B1.
  set (a := (n - 1) / 146097) in *. set (r1 := (n - 1) mod 146097) in *.
  pose proof (Z.div_mod r1 36524 ltac:(lia)) as E2.
  pose proof (Z.mod_pos_bound r1 36524 ltac:(lia)) as B2.
  set (b := r1 / 36524) in *. set (r2 := r1 mod 36524) in *.
  pose proof (Z.div_mod r2 1461 ltac:(lia)) as E3.
  pose proof (Z.mod_pos_bound r2 1461 ltac:(lia)) as B3.
  set (c := r2 / 1461) in *. set (r3 := r2 mod 1461) in *.
  pose proof (Z.div_mod r3 365 ltac:(lia)) as E4.
  pose proof (Z.mod_pos_bound r3 365 ltac:(lia)) as B4.
  set (d := r3 / 365) in *. set (r := r3 mod 365) in *.
  clearbody a r1 b r2 c r3 d r.
  assert (Ha : 0 <= a) by lia.
  assert (Hb : 0 <= b <= 4) by lia.
  assert (Hc : 0 <= c <= 24) by lia.
  assert (Hd : 0 <= d <= 4) by lia.
  unfold MAXORDINAL.
  destruct (Z.eqb_spec d 4) as [Hd4 | Hd4]; cbn [orb].
  - (* the last day of a leap year *)
    assert (Hb3 : 0 <= b <= 3) by lia.
    assert (Hc3 : 0 <= c <= 23) by lia.
    exists (a * 400 + 1 + b * 100 + c * 4 + d - 1), 12, 31.
    replace (a * 400 + 1 + b * 100 + c * 4 + d - 1)
      with (a * 400 + 1 + b * 100 + c * 4 + 3) by lia.
    unfold ymd2ord, days_in_month, days_before_month.
    rewrite (days_before_year_parts a b c 3) by lia.
    rewrite (is_leap_parts a b c 3) by lia.
    replace (c =? 24) with false by (symmetry; apply Z.eqb_neq; lia).
    calc. change (12 =? 2) with false. change (3 =? 3) with true.
    cbn [andb negb orb]. repeat split; lia.
  - destruct (Z.eqb_spec b 4) as [Hb4 | Hb4].
    + (* the last day of a cycle of 400 years *)
      exists (a * 400 + 1 + b * 100 + c * 4 + d - 1), 12, 31.
      replace (a * 400 + 1 + b * 100 + c * 4 + d - 1)
        with (a * 400 + 1 + 3 * 100 + 24 * 4 + 3) by lia.
      unfold ymd2ord, days_in_month, days_before_month.
      rewrite (days_before_year_parts a 3 24 3) by lia.
      rewrite (is_leap_parts a 3 24 3) by lia.
      calc. change (12 =? 2) with false. change (3 =? 3) with true.
      change (24 =? 24) with true. cbn [andb negb orb]. repeat split; lia.
    + assert (Hb3 : 0 <= b <= 3) by lia.
      assert (Hd3 : 0 <= d <= 3) by lia.
      destruct (month_day_spec ((d =? 3) && (negb (c =? 24) || (b =? 3))) r B4)
        as [m [dd [Hmd [Hm [Hdd Hord]]]]].
      rewrite Hmd.
      exists (a * 400 + 1 + b * 100 + c * 4 + d), m, dd.
      unfold ymd2ord, days_in_month, days_before_month.
      rewrite (days_before_year_parts a b c d) by lia.
      rewrite (is_leap_parts a b c d) by lia.
      split; [reflexivity|]. split; [lia|]. split; [exact Hm|].
      split; [exact Hdd|]. split; lia.
Qed.

Lemma days_before_year_bounds y :
  1 <= y <= 9999 ->
  0 <= days_before_year y <= 3651694 /\
  (y <= 9998 -> days_before_year y <= 3651329).
Proof.
  intros Hy. unfold days_before_year. cbv zeta.
  pose proof (Z.div_mod (y - 1) 4 ltac:(lia)) as E4.
  pose proof (Z.mod_pos_bound (y - 1) 4 ltac:(lia)) as B4.
  pose proof (Z.div_mod (y - 1) 100 ltac:(lia)) as E100.
  pose proof (Z.mod_pos_bound (y - 1) 100 ltac:(lia)) as B100.
  pose proof (Z.div_mod (y - 1) 400 ltac:(lia)) as E400.
  pose proof (Z.mod_pos_bound (y - 1) 400 ltac:(lia)) as B400.
  set (q4 := (y - 1) / 4) in *. set (q100 := (y - 1) / 100) in *.
  set (q400 := (y - 1) / 400) in *.
  clearbody q4 q100 q400.
  split; [split|]; lia.
Qed.

Lemma day_of_year_bounds y m d :
  1 <= m <= 12 -> 1 <= d <= days_in_month y m ->
  1 <= days_before_month y m + d <= 365 + (if is_leap y then 1 else 0).
Proof.
  intros Hm. unfold days_in_month, days_before_month.
  assert (Hk : m = 1 \/ m = 2 \/ m = 3 \/ m = 4 \/ m = 5 \/ m = 6 \/
               m = 7 \/ m = 8 \/ m = 9 \/ m = 10 \/ m = 11 \/ m = 12) by lia.
  destruct Hk as [-> | [-> | [-> | [-> | [-> | [-> | [-> | [-> | [-> | [-> | [-> | ->]]]]]]]]]]];
    destruct (is_leap y); cbn [andb]; calc; cbn [andb]; lia.
Qed.

(** The ordinal of a date of the calendar is between 1 and the largest
    ordinal. *)
Lemma ymd2ord_bounds y m d :
  1 <= y <= 9999 -> 1 <= m <= 12 -> 1 <= d <= days_in_month y m ->
  1 <= ymd2ord y m d <= MAXORDINAL.
Proof.
  intros Hy Hm Hd. unfold ymd2ord, MAXORDINAL.
  pose proof (days_before_year_bounds y Hy) as [Hb Hb'].
  pose proof (day_of_year_bounds y m d Hm Hd) as Hday.
  destruct (Z.eq_dec y 9999) as [-> | Hne].
  - change (is_leap 9999) with false in Hday. lia.
  - specialize (Hb' ltac:(lia)). destruct (is_leap y); lia.
Qed.

(** Adding seconds to a date and time of the calendar: when the result is
    in the years 1 to 9999 it is the date and time of the instant that
    many seconds later, and otherwise the sum raises. *)
Lemma add_seconds_spec t k :
  utc_reading t ->
  (86400 <= instant t + k < (MAXORDINAL + 1) * 86400 ->
   exists t', add_seconds t k = Ok t' /\ utc_reading t' /\
              instant t' = instant t + k) /\
  (~ 86400 <= instant t + k < (MAXORDINAL + 1) * 86400 ->
   add_seconds t k = Raise OverflowError).
Proof.
  intros [Hy [Hm [Hd [Hh [Hmi [Hs Hz]]]]]].
  unfold add_seconds, instant. cbv zeta.
  set (ord := ymd2ord (year t) (month t) (day t)).
  set (total := hour t * 3600 + minute t * 60 + second t + k).
  pose proof (Z.div_mod total 86400 ltac:(lia)) as E.
  pose proof (Z.mod_pos_bound total 86400 ltac:(lia)) as B.
  set (carry := total / 86400) in *. set (rest := total mod 86400) in *.
  assert (Eq : ord * 86400 + hour t * 3600 + minute t * 60 + second t + k
               = (ord + carry) * 86400 + rest) by (unfold total in E; lia).
  rewrite Eq. unfold MAXORDINAL. split.
  - intros Hr.
    assert (H0 : 1 <= ord + carry <= 3652059) by lia.
    replace (0 <? ord + carry) with true by (symmetry; apply Z.ltb_lt; lia).
    replace (ord + carry <=? 3652059) with true by (symmetry; apply Z.leb_le; lia).
    cbn [andb].
    destruct (ord2ymd_spec (ord + carry) ltac:(lia))
      as [y' [m' [d' [Ho [Hy' [Hm' [Hd' [Hord Hmax]]]]]]]].
    rewrite Ho. eexists. split; [reflexivity|].
    pose proof (Z.div_mod rest 3600 ltac:(lia)) as E1.
    pose proof (Z.mod_pos_bound rest 3600 ltac:(lia)) as B1.
    pose proof (Z.div_mod (rest mod 3600) 60 ltac:(lia)) as E2.
    pose proof (Z.mod_pos_bound (rest mod 3600) 60 ltac:(lia)) as B2.
    unfold utc_reading.
    cbn [year month day hour minute second utcoffset].
    rewrite Hord.
    set (h := rest / 3600) in *. set (r1 := rest mod 3600) in *.
    set (mi := r1 / 60) in *. set (s := r1 mod 60) in *.
    unfold MAXORDINAL in Hmax.
    split; [|lia].
    split; [lia|]. split; [lia|]. split; [exact Hd'|].
    split; [lia|]. split; [lia|]. split; [lia | exact Hz].
  - intros Hr.
    destruct (Z.ltb_spec 0 (ord + carry)); cbn [andb]; [|reflexivity].
    destruct (Z.leb_spec (ord + carry) 3652059); [|reflexivity].
    exfalso. apply Hr. lia.
Qed.

(** *** The text of the departure time *)

Lemma of_uint_acc_bound l acc :
  Zpos acc * 10 ^ Z.of_nat (Decimal.nb_digits l) <= Zpos (Pos.of_uint_acc l acc).
Proof.
  revert acc.
  induction l as [|l IH|l IH|l IH|l IH|l IH|l IH|l IH|l IH|l IH|l IH]; intros acc;
    cbn [Decimal.nb_digits Pos.of_uint_acc].
  1: { change (Z.of_nat 0) with 0. lia. }
  all: rewrite Nat2Z.inj_succ, Z.pow_succ_r by lia.
  all: match goal with
       | |- _ <= Zpos (Pos.of_uint_acc ?l' ?a) =>
           specialize (IH a);
           assert (Hp : 0 < 10 ^ Z.of_nat (Decimal.nb_digits l'))
             by (apply Z.pow_pos_nonneg; lia);
           assert (Ha : Zpos acc * 10 <= Zpos a) by lia
       end.
  all: nia.
Qed.

Lemma nzhead_not_zero l l' : Decimal.nzhead l <> Decimal.D0 l'.
Proof. induction l; cbn [Decimal.nzhead]; try discriminate. exact IHl. Qed.

(** The decimal digits of a positive number below [10 ^ k] are at most
    [k]. *)
Lemma to_uint_digits p k :
  0 <= k -> Zpos p < 10 ^ k ->
  Z.of_nat (Decimal.nb_digits (Pos.to_uint p)) <= k.
Proof.
  intros Hk Hp.
  pose proof (DecimalPos.Unsigned.of_to p) as Hof.
  pose proof (DecimalPos.Unsigned.to_of (Pos.to_uint p)) as Hto.
  rewrite Hof in Hto. cbn [N.to_uint] in Hto.
  pose proof (DecimalPos.Unsigned.to_uint_nonzero p) as Hnz.
  assert (Hlen : forall l a,
            Pos.of_uint_acc l a = p ->
            Z.of_nat (Decimal.nb_digits l) < k).
  { intros l a E. pose proof (of_uint_acc_bound l a) as B. rewrite E in B.
    destruct (Z_lt_ge_dec (Z.of_nat (Decimal.nb_digits l)) k) as [Hlt|Hge];
      [exact Hlt | exfalso].
    assert (10 ^ k <= 10 ^ Z.of_nat (Decimal.nb_digits l))
      by (apply Z.pow_le_mono_r; lia).
    assert (0 < 10 ^ k) by (apply Z.pow_pos_nonneg; lia).
    nia. }
  destruct (Pos.to_uint p) as [|l|l|l|l|l|l|l|l|l|l] eqn:E;
    cbn [Decimal.nb_digits]; [lia| |..].
  { exfalso. unfold Decimal.unorm in Hto. cbn [Decimal.nzhead] in Hto.
    destruct (Decimal.nzhead l) eqn:En; try discriminate Hto.
    - injection Hto as ->. apply Hnz. reflexivity.
    - rewrite <- En in Hto. symmetry in Hto. revert Hto. apply nzhead_not_zero. }
  all: cbn [Pos.of_uint] in Hof; injection Hof as Hof;
    specialize (Hlen _ _ Hof); lia.
Qed.

Lemma string_of_uint_shape d :
  String.length (NilEmpty.string_of_uint d) = Decimal.nb_digits d /\
  digits (list_ascii_of_string (NilEmpty.string_of_uint d)).
Proof.
  induction d as [|l [IH1 IH2]|l [IH1 IH2]|l [IH1 IH2]|l [IH1 IH2]|l [IH1 IH2]
                  |l [IH1 IH2]|l [IH1 IH2]|l [IH1 IH2]|l [IH1 IH2]|l [IH1 IH2]];
    cbn [NilEmpty.string_of_uint String.length list_ascii_of_string Decimal.nb_digits].
  1: split; [reflexivity | constructor].
  all: split; [now rewrite IH1 | constructor; [reflexivity | exact IH2]].
Qed.

Lemma zeros_shape k :
  String.length (Fmt.zeros k) = k /\ digits (list_ascii_of_string (Fmt.zeros k)).
Proof.
  induction k as [|k [IH1 IH2]]; cbn [Fmt.zeros String.length list_ascii_of_string].
  - split; [reflexivity | constructor].
  - split; [now rewrite IH1 | constructor; [reflexivity | exact IH2]].
Qed.

Lemma list_ascii_append s t :
  list_ascii_of_string (s ++ t) =
    (list_ascii_of_string s ++ list_ascii_of_string t)%list.
Proof.
  induction s as [|c s IH]; cbn [String.append list_ascii_of_string app];
    [reflexivity | now rewrite IH].
Qed.

(** A number from 0 to [10 ^ width - 1], padded: [width] decimal digits. *)
Lemma pad_shape width n :
  0 <= n < 10 ^ Z.of_nat width -> (0 < width)%nat ->
  String.length (Fmt.pad width n) = width /\
  digits (list_ascii_of_string (Fmt.pad width n)).
Proof.
  intros [H0 Hn] Hw. unfold Fmt.pad. cbv zeta.
  assert (Hd : (String.length (Fmt.of_Z n) <= width)%nat /\
               digits (list_ascii_of_string (Fmt.of_Z n))).
  { destruct n as [|p|p]; [| |lia].
    - split; [cbn; lia | repeat constructor].
    - unfold Fmt.of_Z, NilZero.string_of_int. cbn [Z.to_int].
      unfold NilZero.string_of_uint.
      assert (E : match Pos.to_uint p with
                  | Decimal.Nil => "0"
                  | _ => NilEmpty.string_of_uint (Pos.to_uint p)
                  end = NilEmpty.string_of_uint (Pos.to_uint p)).
      { pose proof (DecimalPos.Unsigned.to_uint_nonnil p).
        destruct (Pos.to_uint p); [contradiction|reflexivity..]. }
      rewrite E.
      destruct (string_of_uint_shape (Pos.to_uint p)) as [Hl Hdig].
      split; [|exact Hdig]. rewrite Hl.
      pose proof (to_uint_digits p (Z.of_nat width) ltac:(lia) Hn). lia. }
  destruct Hd as [Hlen Hdig].
  destruct (zeros_shape (width - String.length (Fmt.of_Z n))) as [Hz1 Hz2].
  split.
  - rewrite length_append, Hz1. lia.
  - rewrite list_ascii_append. apply Forall_app. split; assumption.
Qed.

Lemma pad_two n :
  0 <= n < 100 -> two_digits (Fmt.pad 2 n) = true.
Proof.
  intros Hn.
  destruct (pad_shape 2 n) as [Hl Hd]; [exact Hn | lia |].
  destruct (Fmt.pad 2 n) as [|a [|b [|c s]]]; try discriminate Hl.
  cbn [list_ascii_of_string] in Hd.
  inversion Hd as [|? ? Ha Hd']. inversion Hd' as [|? ? Hb _].
  cbn [two_digits]. now rewrite Ha, Hb.
Qed.

Lemma pad_four n :
  0 <= n < 10000 -> four_digits (Fmt.pad 4 n) = true.
Proof.
  intros Hn.
  destruct (pad_shape 4 n) as [Hl Hd]; [exact Hn | lia |].
  destruct (Fmt.pad 4 n) as [|a [|b [|c [|d [|e s]]]]]; try discriminate Hl.
  cbn [list_ascii_of_string] in Hd.
  inversion Hd as [|? ? Ha Hd1]. inversion Hd1 as [|? ? Hb Hd2].
  inversion Hd2 as [|? ? Hc Hd3]. inversion Hd3 as [|? ? Hdd _].
  cbn [four_digits two_digits]. now rewrite Ha, Hb, Hc, Hdd.
Qed.

Lemma digit_not_plus c : Str.is_digit c = true -> Ascii.eqb "+" c = false.
Proof.
  intros H. destruct (Ascii.eqb_spec "+"%char c) as [<- | Hne]; [|reflexivity].
  discriminate H.
Qed.

Lemma replace_skip c s :
  Ascii.eqb "+" c = false ->
  replace_from "+00:00" "Z" 0 (String c s) =
    String c (replace_from "+00:00" "Z" 0 s).
Proof. intros H. cbn [replace_from startswith]. now rewrite H. Qed.

Lemma replace_two s rest :
  two_digits s = true ->
  exists a b,
    s = String a (String b EmptyString) /\
    replace_from "+00:00" "Z" 0 (s ++ rest) =
      String a (String b (replace_from "+00:00" "Z" 0 rest)).
Proof.
  destruct s as [|a [|b [|c s]]]; try discriminate. cbn [two_digits].
  intros H. apply andb_prop in H. destruct H as [Ha Hb].
  exists a, b. split; [reflexivity|].
  cbn [String.append].
  rewrite !replace_skip by now apply digit_not_plus. reflexivity.
Qed.

Lemma replace_four s rest :
  four_digits s = true ->
  exists a b c d,
    s = String a (String b (String c (String d EmptyString))) /\
    replace_from "+00:00" "Z" 0 (s ++ rest) =
      String a (String b (String c (String d (replace_from "+00:00" "Z" 0 rest)))).
Proof.
  destruct s as [|a [|b s]]; try discriminate. cbn [four_digits].
  intros H. apply andb_prop in H. destruct H as [H Hs].
  apply andb_prop in H. destruct H as [Ha Hb].
  destruct (replace_two s rest Hs) as [c [d [-> Hr]]].
  exists a, b, c, d. split; [reflexivity|].
  cbn [String.append] in *.
  rewrite !replace_skip by now apply digit_not_plus. now rewrite Hr.
Qed.

Lemma days_in_month_le y m : 1 <= m <= 12 -> days_in_month y m <= 31.
Proof.
  intros Hm. unfold days_in_month.
  assert (Hk : m = 1 \/ m = 2 \/ m = 3 \/ m = 4 \/ m = 5 \/ m = 6 \/
               m = 7 \/ m = 8 \/ m = 9 \/ m = 10 \/ m = 11 \/ m = 12) by lia.
  destruct Hk as [-> | [-> | [-> | [-> | [-> | [-> | [-> | [-> | [-> | [-> | [-> | ->]]]]]]]]]]];
    destruct (is_leap y); cbn [andb]; calc; cbn [andb]; lia.
Qed.

(** The ISO text of a UTC date and time with the offset replaced: twenty
    characters, the last one a Z. *)
Lemma replace_isoformat t :
  utc_reading t ->
  replace "+00:00" "Z" (Fmt.isoformat t) = zulu t /\
  String.length (zulu t) = 20%nat.
Proof.
  intros [Hy [Hm [Hd [Hh [Hmi [Hs Hz]]]]]].
  assert (Hd31 : day t <= 31)
    by (pose proof (days_in_month_le (year t) (month t) Hm); lia).
  unfold zulu, replace, Fmt.isoformat. rewrite Hz.
  change (if 0 <? 0 then "-" else "+") with "+".
  change (Fmt.pad 2 (Z.abs 0 / 60)) with "00".
  change (Fmt.pad 2 (Z.abs 0 mod 60)) with "00".
  destruct (replace_four (Fmt.pad 4 (year t))
              ("-" ++ Fmt.pad 2 (month t) ++ "-" ++ Fmt.pad 2 (day t) ++ "T"
               ++ Fmt.pad 2 (hour t) ++ ":" ++ Fmt.pad 2 (minute t) ++ ":"
               ++ Fmt.pad 2 (second t) ++ "+" ++ "00" ++ ":" ++ "00")
              (pad_four (year t) ltac:(lia)))
    as [y1 [y2 [y3 [y4 [Ey Hy']]]]].
  rewrite Hy'. clear Hy'. rewrite Ey. clear Ey.
  cbn [String.append]. rewrite replace_skip by reflexivity.
  destruct (replace_two (Fmt.pad 2 (month t))
              ("-" ++ Fmt.pad 2 (day t) ++ "T"
               ++ Fmt.pad 2 (hour t) ++ ":" ++ Fmt.pad 2 (minute t) ++ ":"
               ++ Fmt.pad 2 (second t) ++ "+00:00")
              (pad_two (month t) ltac:(lia)))
    as [m1 [m2 [Em Hm']]].
  cbn [String.append] in Hm'. rewrite Hm'. clear Hm'. rewrite Em. clear Em.
  cbn [String.append]. rewrite replace_skip by reflexivity.
  destruct (replace_two (Fmt.pad 2 (day t))
              ("T" ++ Fmt.pad 2 (hour t) ++ ":" ++ Fmt.pad 2 (minute t) ++ ":"
               ++ Fmt.pad 2 (second t) ++ "+00:00")
              (pad_two (day t) ltac:(lia)))
    as [d1 [d2 [Ed Hd']]].
  cbn [String.append] in Hd'. rewrite Hd'. clear Hd'. rewrite Ed. clear Ed.
  cbn [String.append]. rewrite replace_skip by reflexivity.
  destruct (replace_two (Fmt.pad 2 (hour t))
              (":" ++ Fmt.pad 2 (minute t) ++ ":"
               ++ Fmt.pad 2 (second t) ++ "+00:00")
              (pad_two (hour t) ltac:(lia)))
    as [h1 [h2 [Eh Hh']]].
  cbn [String.append] in Hh'. rewrite Hh'. clear Hh'. rewrite Eh. clear Eh.
  cbn [String.append]. rewrite replace_skip by reflexivity.
  destruct (replace_two (Fmt.pad 2 (minute t))
              (":" ++ Fmt.pad 2 (second t) ++ "+00:00")
              (pad_two (minute t) ltac:(lia)))
    as [i1 [i2 [Ei Hi']]].
  cbn [String.append] in Hi'. rewrite Hi'. clear Hi'. rewrite Ei. clear Ei.
  cbn [String.append]. rewrite replace_skip by reflexivity.
  destruct (replace_two (Fmt.pad 2 (second t)) "+00:00" (pad_two (second t) ltac:(lia)))
    as [s1 [s2 [Es Hs']]].
  rewrite Hs'. clear Hs'. rewrite Es. clear Es.
  cbn [String.append]. split; reflexivity.
Qed.

Lemma days_before_year_step y :
  days_before_year (y + 1) =
    days_before_year y + 365 + (if is_leap y then 1 else 0).
Proof.
  unfold days_before_year, is_leap. cbv zeta.
  replace (y + 1 - 1) with y by lia.
  pose proof (Z.div_mod y 4 ltac:(lia)) as E4.
  pose proof (Z.mod_pos_bound y 4 ltac:(lia)) as B4.
  pose proof (Z.div_mod y 100 ltac:(lia)) as E100.
  pose proof (Z.mod_pos_bound y 100 ltac:(lia)) as B100.
  pose proof (Z.div_mod y 400 ltac:(lia)) as E400.
  pose proof (Z.mod_pos_bound y 400 ltac:(lia)) as B400.
  pose proof (Z.div_mod (y - 1) 4 ltac:(lia)) as F4.
  pose proof (Z.mod_pos_bound (y - 1) 4 ltac:(lia)) as C4.
  pose proof (Z.div_mod (y - 1) 100 ltac:(lia)) as F100.
  pose proof (Z.mod_pos_bound (y - 1) 100 ltac:(lia)) as C100.
  pose proof (Z.div_mod (y - 1) 400 ltac:(lia)) as F400.
  pose proof (Z.mod_pos_bound (y - 1) 400 ltac:(lia)) as C400.
  destruct (Z.eqb_spec (y mod 4) 0) as [H4|H4];
    destruct (Z.eqb_spec (y mod 100) 0) as [H100|H100];
    destruct (Z.eqb_spec (y mod 400) 0) as [H400|H400];
    cbn [andb orb negb]; lia.
Qed.

Lemma days_before_year_mono y1 y2 :
  y1 <= y2 -> days_before_year y1 + 365 * (y2 - y1) <= days_before_year y2.
Proof.
  intros H. replace y2 with (y1 + Z.of_nat (Z.to_nat (y2 - y1))) by lia.
  generalize (Z.to_nat (y2 - y1)) as k. clear H y2.
  induction k as [|k IH].
  - rewrite Z.add_0_r. lia.
  - rewrite Nat2Z.inj_succ.
    replace (y1 + Z.succ (Z.of_nat k)) with (y1 + Z.of_nat k + 1) by lia.
    rewrite days_before_year_step. destruct (is_leap (y1 + Z.of_nat k)); lia.
Qed.

Lemma days_before_month_mono y m1 m2 :
  1 <= m1 -> m1 < m2 -> m2 <= 12 ->
  days_before_month y m1 + days_in_month y m1 <= days_before_month y m2.
Proof.
  intros H1 H H2. unfold days_in_month, days_before_month.
  assert (Hk : m1 = 1 \/ m1 = 2 \/ m1 = 3 \/ m1 = 4 \/ m1 = 5 \/ m1 = 6 \/
               m1 = 7 \/ m1 = 8 \/ m1 = 9 \/ m1 = 10 \/ m1 = 11) by lia.
  assert (Hk2 : m2 = 2 \/ m2 = 3 \/ m2 = 4 \/ m2 = 5 \/ m2 = 6 \/
                m2 = 7 \/ m2 = 8 \/ m2 = 9 \/ m2 = 10 \/ m2 = 11 \/ m2 = 12) by lia.
  destruct (is_leap y);
    destruct Hk as [E | [E | [E | [E | [E | [E | [E | [E | [E | [E | E]]]]]]]]]];
    rewrite E in *; clear E;
    destruct Hk2 as [E | [E | [E | [E | [E | [E | [E | [E | [E | [E | E]]]]]]]]]];
    rewrite E in *; clear E; try lia;
    cbn [andb]; calc; cbn [andb]; lia.
Qed.

(** Earlier dates of the calendar have smaller ordinals. *)
Lemma ymd2ord_lt y1 m1 d1 y2 m2 d2 :
  1 <= m1 <= 12 -> 1 <= d1 <= days_in_month y1 m1 ->
  1 <= m2 <= 12 -> 1 <= d2 <= days_in_month y2 m2 ->
  y1 < y2 \/ (y1 = y2 /\ (m1 < m2 \/ (m1 = m2 /\ d1 < d2))) ->
  ymd2ord y1 m1 d1 < ymd2ord y2 m2 d2.
Proof.
  intros Hm1 Hd1 Hm2 Hd2 H. unfold ymd2ord.
  pose proof (day_of_year_bounds y1 m1 d1 Hm1 Hd1) as B1.
  pose proof (day_of_year_bounds y2 m2 d2 Hm2 Hd2) as B2.
  destruct H as [Hy | [-> [Hm | [-> Hd]]]].
  - pose proof (days_before_year_mono (y1 + 1) y2 ltac:(lia)) as Hmono.
    rewrite days_before_year_step in Hmono. destruct (is_leap y1); lia.
  - pose proof (days_before_month_mono y2 m1 m2 ltac:(lia) Hm ltac:(lia)). lia.
  - lia.
Qed.

Lemma ymd2ord_inj y1 m1 d1 y2 m2 d2 :
  1 <= m1 <= 12 -> 1 <= d1 <= days_in_month y1 m1 ->
  1 <= m2 <= 12 -> 1 <= d2 <= days_in_month y2 m2 ->
  ymd2ord y1 m1 d1 = ymd2ord y2 m2 d2 ->
  y1 = y2 /\ m1 = m2 /\ d1 = d2.
Proof.
  intros Hm1 Hd1 Hm2 Hd2 H.
  destruct (Z.lt_trichotomy y1 y2) as [Hy | [Hy | Hy]].
  - pose proof (ymd2ord_lt y1 m1 d1 y2 m2 d2 Hm1 Hd1 Hm2 Hd2 (or_introl Hy)). lia.
  - subst y2. destruct (Z.lt_trichotomy m1 m2) as [Hm | [Hm | Hm]].
    + pose proof (ymd2ord_lt y1 m1 d1 y1 m2 d2 Hm1 Hd1 Hm2 Hd2
                    (or_intror (conj eq_refl (or_introl Hm)))). lia.
    + subst m2. unfold ymd2ord in H. lia.
    + pose proof (ymd2ord_lt y1 m2 d2 y1 m1 d1 Hm2 Hd2 Hm1 Hd1
                    (or_intror (conj eq_refl (or_introl Hm)))). lia.
  - pose proof (ymd2ord_lt y2 m2 d2 y1 m1 d1 Hm2 Hd2 Hm1 Hd1 (or_introl Hy)). lia.
Qed.

(** Two readings of the clock at the same instant are the same reading. *)
Lemma instant_inj t u :
  utc_reading t -> utc_reading u -> instant t = instant u -> t = u.
Proof.
  destruct t as [y1 m1 d1 h1 i1 s1 z1], u as [y2 m2 d2 h2 i2 s2 z2].
  unfold utc_reading, instant.
  cbn [year month day hour minute second utcoffset].
  intros [Hy [Hm [Hd [Hh [Hmi [Hs Hz]]]]]] [Hy' [Hm' [Hd' [Hh' [Hmi' [Hs' Hz']]]]]] H.
  assert (Ho : ymd2ord y1 m1 d1 = ymd2ord y2 m2 d2) by lia.
  destruct (ymd2ord_inj _ _ _ _ _ _ Hm Hd Hm' Hd' Ho) as [E1 [E2 E3]].
  subst y2 m2 d2. f_equal; lia.
Qed.

(** X14.  The departure time sent to the service is the UTC clock plus 30
    seconds, as a text of twenty characters that ends with Z.  For every
    reading of the UTC clock (a date of the calendar in the years 1 to
    9999 and a time of day) up to 9999-12-31T23:59:29, the text is that
    of the one date and time whose instant is 30 seconds later, carried
    over the minute, the hour, the day, the month and the year where
    needed; while the seconds are below 30 only the seconds change.  In
    the last 30 seconds of the year 9999 the sum raises
    [OverflowError]. *)
Theorem departure_thirty_seconds_later t :
  utc_reading t ->
  (instant t + 30 < (MAXORDINAL + 1) * 86400 ->
   exists t',
     utc_reading t' /\ instant t' = instant t + 30 /\
     (forall u, utc_reading u -> instant u = instant t + 30 -> u = t') /\
     departure_time t = Ok (zulu t') /\
     String.length (zulu t') = 20%nat) /\
  (second t < 30 ->
   departure_time t =
     Ok (zulu {| year := year t; month := month t; day := day t;
                 hour := hour t; minute := minute t;
                 second := second t + 30; utcoffset := 0 |})) /\
  (instant t + 30 >= (MAXORDINAL + 1) * 86400 ->
   departure_time t = Raise OverflowError).
Proof.
  intros Ht. pose proof (add_seconds_spec t 30 Ht) as [Hok Hraise].
  pose proof Ht as [Hy [Hm [Hd [Hh [Hmi [Hs Hz]]]]]].
  pose proof (ymd2ord_bounds _ _ _ Hy Hm Hd) as Hord.
  assert (Hlow : 86400 <= instant t + 30) by (unfold instant; lia).
  assert (Hdep : forall t', add_seconds t 30 = Ok t' -> utc_reading t' ->
                 departure_time t = Ok (zulu t')).
  { intros t' Ha Ht'. unfold departure_time. rewrite Ha. cbn [bind].
    now rewrite (proj1 (replace_isoformat t' Ht')). }
  split; [|split].
  - intros Hb. destruct (Hok (conj Hlow Hb)) as [t' [Ha [Ht' Hi]]].
    exists t'. split; [exact Ht'|]. split; [exact Hi|]. split; [|split].
    + intros u Hu Hiu. apply instant_inj; [exact Hu | exact Ht' | congruence].
    + now apply Hdep.
    + exact (proj2 (replace_isoformat t' Ht')).
  - intros Hlt.
    set (u := {| year := year t; month := month t; day := day t;
                 hour := hour t; minute := minute t;
                 second := second t + 30; utcoffset := 0 |}).
    assert (Hu : utc_reading u).
    { unfold utc_reading, u. cbn [year month day hour minute second utcoffset].
      repeat split; try lia. }
    assert (Hiu : instant u = instant t + 30).
    { unfold instant, u. cbn [year month day hour minute second]. lia. }
    assert (Hb : instant t + 30 < (MAXORDINAL + 1) * 86400).
    { unfold instant, MAXORDINAL in *. lia. }
    destruct (Hok (conj Hlow Hb)) as [t' [Ha [Ht' Hi]]].
    assert (E : u = t') by (apply instant_inj; [exact Hu | exact Ht' | congruence]).
    rewrite E. now apply Hdep.
  - intros Hge. unfold departure_time. rewrite Hraise by lia. reflexivity.
Qed.

(** ** The run, case by case *)

Lemma error_status_test status_code :
  error_status status_code ->
  (400 <=? status_code) && (status_code <? 600) = true.
Proof.
  intros [H1 H2]. apply andb_true_iff. split; [apply Z.leb_le | apply Z.ltb_lt]; lia.
Qed.

Lemma not_error_status_test status_code :
  ~ error_status status_code ->
  (400 <=? status_code) && (status_code <? 600) = false.
Proof.
  intros H. apply andb_false_iff. unfold error_status in H.
  destruct (Z.leb_spec 400 status_code); [right | left; reflexivity].
  apply Z.ltb_ge. lia.
Qed.

(** What the run gets from the service, taken apart. *)
Lemma service_reply e status_code text json :
  service e = Reply status_code text json ->
  exists departure,
    departure_time (utc_now e) = Ok departure /\
    http_response e = Some (status_code, text, json).
Proof.
  unfold service. destruct (departure_time (utc_now e)) as [departure|ex];
    [|discriminate].
  destruct (http_response e) as [[[s t] j]|]; [|discriminate].
  intros [= -> -> ->]. now exists departure.
Qed.

Lemma service_no_reply e :
  service e = NoReply ->
  exists departure,
    departure_time (utc_now e) = Ok departure /\ http_response e = None.
Proof.
  unfold service. destruct (departure_time (utc_now e)) as [departure|ex];
    [|discriminate].
  destruct (http_response e) as [[[s t] j]|]; [discriminate|].
  intros _. now exists departure.
Qed.

Lemma service_no_request e ex :
  service e = NoRequest ex -> departure_time (utc_now e) = Raise ex.
Proof.
  unfold service. destruct (departure_time (utc_now e)) as [departure|ex'].
  - destruct (http_response e) as [[[s t] j]|]; discriminate.
  - now intros [= ->].
Qed.

Ltac run_script :=
  unfold log_eta, routes_api_request, writerow, iobind, lift, print,
    emit, post, path_exists, append, ret, with_console, header_only, content.

Lemma log_eta_skip e w :
  within_window (now e) = false ->
  log_eta e w =
    (Ok tt,
     with_console
       [Printed ("[" ++ Fmt.hour_minute (now e) ++ "] Outside time window; skipping.")]
       0 w).
Proof. intros Hw. run_script. now rewrite Hw. Qed.

Lemma log_eta_no_reply e w :
  within_window (now e) = true ->
  service e = NoReply ->
  log_eta e w = (Raise RequestException, with_console [] 1 w).
Proof.
  intros Hw Hs. destruct (service_no_reply e Hs) as [departure [Hd Hr]].
  run_script. rewrite Hw, Hd, Hr. simpl. now rewrite app_nil_r.
Qed.

Lemma log_eta_no_request e w ex :
  within_window (now e) = true ->
  service e = NoRequest ex ->
  log_eta e w = (Raise ex, with_console [] 0 w).
Proof.
  intros Hw Hs. apply service_no_request in Hs.
  run_script. rewrite Hw, Hs. simpl. rewrite app_nil_r. now destruct w.
Qed.

Lemma log_eta_http_error e w status_code text json :
  within_window (now e) = true ->
  service e = Reply status_code text json ->
  error_status status_code ->
  log_eta e w = (Raise (HTTPError status_code text), with_console [] 1 w).
Proof.
  intros Hw Hs He. destruct (service_reply e _ _ _ Hs) as [departure [Hd Hr]].
  run_script. rewrite Hw, Hd, Hr. simpl.
  rewrite (error_status_test _ He). simpl. now rewrite app_nil_r.
Qed.

Lemma log_eta_not_json e w status_code text :
  within_window (now e) = true ->
  service e = Reply status_code text None ->
  ~ error_status status_code ->
  log_eta e w = (Raise JSONDecodeError, with_console [] 1 w).
Proof.
  intros Hw Hs He. destruct (service_reply e _ _ _ Hs) as [departure [Hd Hr]].
  run_script. rewrite Hw, Hd, Hr. simpl.
  rewrite (not_error_status_test _ He). simpl. now rewrite app_nil_r.
Qed.

Lemma log_eta_fetched e w status_code text data :
  within_window (now e) = true ->
  service e = Reply status_code text (Some data) ->
  ~ error_status status_code ->
  log_eta e w = after_fetch e data w.
Proof.
  intros Hw Hs Hok. destruct (service_reply e _ _ _ Hs) as [departure [Hd Hr]].
  unfold after_fetch. run_script.
  rewrite Hw, Hd, Hr. simpl. rewrite (not_error_status_test _ Hok). simpl.
  destruct (dict_get data "routes" (VList [])) as [routes|ex]; simpl.
  - destruct (truthy routes); simpl; [|reflexivity].
    destruct (getitem0 routes) as [r|ex]; simpl.
    + destruct (route_row (now e) r) as [row|ex]; simpl.
      * destruct (encodable (route_description row)); simpl.
        -- unfold logged. simpl. destruct (log_file w); reflexivity.
        -- destruct (log_file w); reflexivity.
      * now rewrite app_nil_r.
    + now rewrite app_nil_r.
  - now rewrite app_nil_r.
Qed.

Lemma error_status_dec status_code :
  {error_status status_code} + {~ error_status status_code}.
Proof.
  unfold error_status.
  destruct (Z_le_dec 400 status_code); [|right; lia].
  destruct (Z_lt_dec status_code 600); [left|right]; lia.
Qed.

(** What a row holds, read off the code that builds it. *)
Lemma route_row_inv t r row :
  route_row t r = Ok row ->
  (exists d d' m n n' q q' q'',
     getitem r "duration" = Ok d /\ format_duration d = Ok n /\
     getitem r "staticDuration" = Ok d' /\ format_duration d' = Ok n' /\
     getitem r "distanceMeters" = Ok m /\
     int_truediv n 60 = Ok q /\ py_round q 1 = Ok (eta_min row) /\
     int_truediv n' 60 = Ok q' /\ py_round q' 1 = Ok (freeflow_min row) /\
     truediv_float m meters_per_mile = Ok q'' /\
     py_round q'' 2 = Ok (distance_mi row)) /\
  timestamp row = Fmt.isoformat t /\
  origin row = ORIGIN /\
  destination row = DESTINATION /\
  dict_get r "description" (VStr EmptyString) = Ok (route_description row).
Proof.
  intros H. unfold route_row in H.
  apply bind_ok in H. destruct H as [d [Hd H]].
  apply bind_ok in H. destruct H as [n [Hn H]].
  apply bind_ok in H. destruct H as [d' [Hd' H]].
  apply bind_ok in H. destruct H as [n' [Hn' H]].
  apply bind_ok in H. destruct H as [m [Hm H]].
  apply bind_ok in H. destruct H as [desc [Hdesc H]].
  apply bind_ok in H. destruct H as [q [Hq H]].
  apply bind_ok in H. destruct H as [eta [Heta H]].
  apply bind_ok in H. destruct H as [q' [Hq' H]].
  apply bind_ok in H. destruct H as [ff [Hff H]].
  apply bind_ok in H. destruct H as [q'' [Hq'' H]].
  apply bind_ok in H. destruct H as [mi [Hmi H]].
  injection H as <-.
  cbn [eta_min freeflow_min distance_mi timestamp origin destination route_description].
  split; [|repeat split; assumption].
  exists d, d', m, n, n', q, q', q''. repeat split; assumption.
Qed.

(** Every run either leaves the log file as it was, whatever its state,
    or logs the row of a route, or raises on writing a row that cannot be
    encoded. *)
Lemma log_eta_cases e :
  (forall w, log_file (snd (log_eta e w)) = log_file w) \/
  (exists r first, route_row (now e) first = Ok r /\ logs e r) \/
  (exists r first,
     route_row (now e) first = Ok r /\
     encodable (route_description r) = false /\
     forall w, log_eta e w = (Raise UnicodeEncodeError, header_only w)).
Proof.
  destruct (within_window (now e)) eqn:Hw.
  2:{ left. intros w. now rewrite log_eta_skip. }
  destruct (service e) as [|status_code text json|ex] eqn:Hs.
  1:{ left. intros w. now rewrite log_eta_no_reply. }
  2:{ left. intros w. now rewrite (log_eta_no_request _ _ _ Hw Hs). }
  destruct (error_status_dec status_code) as [He|He].
  1:{ left. intros w. now rewrite (log_eta_http_error _ _ _ _ _ Hw Hs He). }
  destruct json as [data|].
  2:{ left. intros w. now rewrite (log_eta_not_json _ _ _ _ Hw Hs He). }
  assert (Hf := fun w => log_eta_fetched e w status_code text data Hw Hs He).
  unfold after_fetch in Hf.
  destruct (dict_get data "routes" (VList [])) as [routes|ex].
  2:{ left. intros w. now rewrite Hf. }
  destruct (truthy routes).
  2:{ left. intros w. now rewrite Hf. }
  destruct (r <- getitem0 routes ;; route_row (now e) r)%result as [row|ex] eqn:Hr.
  - right. apply bind_ok in Hr. destruct Hr as [first [_ Hr]].
    destruct (encodable (route_description row)) eqn:Henc.
    + left. exists row, first. split; [exact Hr | exact Hf].
    + right. exists row, first. split; [exact Hr|]. split; [exact Henc | exact Hf].
  - left. intros w. now rewrite Hf.
Qed.



(** The handler of [__main__] only prints. *)
Lemma main_log_file e w : log_file (main e w) = log_file (snd (log_eta e w)).
Proof.
  unfold main.
  destruct (log_eta e w) as [[u|ex] w']; simpl; [reflexivity|].
  destruct ex; reflexivity.
Qed.

Lemma main_requests e w : requests (main e w) = requests (snd (log_eta e w)).
Proof.
  unfold main.
  destruct (log_eta e w) as [[u|ex] w']; simpl; [reflexivity|].
  destruct ex; reflexivity.
Qed.


(** ** Runs that do not log *)

(** C7.  At a local time whose hour is outside the interval from 5 to 20,
    the run sends no request and writes nothing to the log file: it prints
    the skip notice and returns, and so does the whole program. *)
Theorem skip_outside_window e w :
  ~ (5 <= hour (now e) < 20) ->
  let notice := "[" ++ Fmt.hour_minute (now e) ++ "] Outside time window; skipping." in
  let w' := {| log_file := log_file w;
               console := (console w ++ [Printed notice])%list;
               requests := requests w |} in
  log_eta e w = (Ok tt, w') /\ main e w = w'.
Proof.
  intros H notice w'.
  assert (Hw : within_window (now e) = false)
    by (now apply within_window_outside).
  assert (Hl : log_eta e w = (Ok tt, w')) by (now rewrite log_eta_skip).
  split; [exact Hl|]. unfold main. now rewrite Hl.
Qed.

(** C6 (amended).  When the response carries an error status, a 4xx or 5xx
    code such as 403, the fetch raises an HTTP error holding the status
    code and the body of the response; the program prints that status code
    and the raw body, and the log file is left as it was. *)
Theorem http_error_reported e w status_code text json :
  within_window (now e) = true ->
  service e = Reply status_code text json ->
  error_status status_code ->
  let sent := {| log_file := log_file w;
                 console := console w;
                 requests := S (requests w) |} in
  routes_api_request e w = (Raise (HTTPError status_code text), sent) /\
  log_eta e w = (Raise (HTTPError status_code text), sent) /\
  main e w =
    {| log_file := log_file w;
       console := (console w ++ [Printed ("HTTPError status: " ++ Fmt.of_Z status_code);
                                 Printed ("Response text: " ++ text)])%list;
       requests := S (requests w) |}.
Proof.
  intros Hw Hs He sent.
  assert (Hl : log_eta e w = (Raise (HTTPError status_code text), sent)).
  { rewrite (log_eta_http_error _ _ _ _ _ Hw Hs He).
    unfold with_console, sent. simpl. now rewrite app_nil_r. }
  split; [|split].
  - destruct (service_reply e _ _ _ Hs) as [departure [Hd Hr]].
    unfold routes_api_request, iobind, post, lift. rewrite Hd, Hr.
    now rewrite (error_status_test _ He).
  - exact Hl.
  - unfold main. rewrite Hl. unfold sent, iobind, print, emit. simpl.
    now rewrite <- app_assoc.
Qed.

(** C5.  When the service answers, with a status that is no error, a
    response that holds no route (the list of routes is empty or absent),
    the run prints the no-routes message and returns without touching the
    log file: its content is unchanged if it existed and it is still
    absent if it did not. *)
Theorem no_routes_leaves_log e w status_code text kv :
  within_window (now e) = true ->
  service e = Reply status_code text (Some (VDict kv)) ->
  ~ error_status status_code ->
  lookup "routes" kv = None \/ lookup "routes" kv = Some (VList []) ->
  let w' := {| log_file := log_file w;
               console := (console w ++ [Printed "No routes returned."])%list;
               requests := S (requests w) |} in
  log_eta e w = (Ok tt, w') /\ main e w = w'.
Proof.
  intros Hw Hs He Hr w'.
  assert (Hl : log_eta e w = (Ok tt, w')).
  { rewrite (log_eta_fetched _ _ _ _ _ Hw Hs He). unfold after_fetch, dict_get.
    now destruct Hr as [-> | ->]. }
  split; [exact Hl|]. unfold main. now rewrite Hl.
Qed.

(** ** The log file *)

(** C4.  The log only grows by appending.  After any call of [log_eta],
    from any prior state of the file, the prior content is a prefix of the
    new content and the length has not decreased; a file that existed is
    unchanged or has one row more at its end, and a file that did not
    exist is still absent, or holds the header alone (the run raised on a
    row that could not be encoded), or holds the header followed by one
    row.  The same holds for the whole program. *)
Theorem log_is_append_only e w :
  let w' := snd (log_eta e w) in
  (exists suffix, content w' = content w ++ suffix) /\
  (String.length (content w) <= String.length (content w'))%nat /\
  (forall s, log_file w = Some s ->
     log_file w' = Some s \/ exists r, log_file w' = Some (s ++ row_line r)) /\
  (log_file w = None ->
     log_file w' = None \/ log_file w' = Some header_line \/
     exists r, log_file w' = Some (header_line ++ row_line r)) /\
  log_file (main e w) = log_file w'.
Proof.
  intros w'. subst w'.
  destruct (log_eta_cases e)
    as [Hsame | [[r [first [_ Hr]]] | [r [first [_ [_ Hr]]]]]].
  - unfold content. rewrite Hsame. repeat split.
    + exists EmptyString. now rewrite append_empty.
    + apply Nat.le_refl.
    + intros s Hs. now left.
    + intros Hn. now left.
    + rewrite main_log_file. apply Hsame.
  - unfold content. rewrite (Hr w). simpl. repeat split.
    + destruct (log_file w); [now exists (row_line r)|].
      now exists (header_line ++ row_line r).
    + destruct (log_file w); simpl; [|apply Nat.le_0_l].
      rewrite length_append. apply Nat.le_add_r.
    + intros s Hs. right. exists r. now rewrite Hs.
    + intros Hn. right. right. exists r. now rewrite Hn.
    + rewrite main_log_file. now rewrite (Hr w).
  - unfold content. rewrite (Hr w). simpl. repeat split.
    + destruct (log_file w); [exists EmptyString; now rewrite append_empty|].
      now exists header_line.
    + destruct (log_file w); simpl; [apply Nat.le_refl | apply Nat.le_0_l].
    + intros s Hs. left. now rewrite Hs.
    + intros Hn. right. left. now rewrite Hn.
    + rewrite main_log_file. now rewrite (Hr w).
Qed.



(** ** Routes with missing keys *)

Lemma getitem_plain d k ex : getitem d k = Raise ex -> plain ex.
Proof.
  destruct d; simpl; try (intros [= <-]; exact I).
  destruct (lookup k kv); intros [= <-]; exact I.
Qed.

Lemma dict_get_plain d k v ex : dict_get d k v = Raise ex -> plain ex.
Proof. destruct d; simpl; intros [= <-]; exact I. Qed.

Lemma int_of_float_plain x ex : int_of_float x = Raise ex -> plain ex.
Proof. destruct x; simpl; intros [= <-]; exact I. Qed.

Lemma format_duration_plain v ex : format_duration v = Raise ex -> plain ex.
Proof.
  unfold format_duration. destruct (truthy v); [|discriminate].
  destruct v; try (intros [= <-]; exact I).
  - destruct (Str.endswith s "s"); [|discriminate].
    unfold float_of_str. destruct (FloatParse.parse (Str.drop_last s)); simpl.
    + apply int_of_float_plain.
    + intros [= <-]; exact I.
  - destruct (List.last cs 0 =? 115)%N; [|discriminate].
    intros [= <-]; exact I.
Qed.

Lemma int_truediv_plain a b ex : int_truediv a b = Raise ex -> plain ex.
Proof.
  unfold int_truediv. destruct b; [intros [= <-]; exact I | |].
  all: destruct a; [discriminate | |].
  all: match goal with |- context [Float.round_ratio ?s ?n ?d] =>
         destruct (Float.round_ratio s n d) end;
       try discriminate; intros [= <-]; exact I.
Qed.

Lemma float_of_int_plain n ex : float_of_int n = Raise ex -> plain ex.
Proof.
  unfold float_of_int. destruct (Float.of_Z n); try discriminate.
  intros [= <-]; exact I.
Qed.

Lemma truediv_float_plain v y ex : truediv_float v y = Raise ex -> plain ex.
Proof.
  unfold truediv_float. intros H. apply bind_raise in H.
  destruct H as [H | [x [_ H]]].
  - destruct v; try discriminate; try (injection H as <-; exact I);
      eapply float_of_int_plain; eassumption.
  - destruct y; try discriminate. injection H as <-. exact I.
Qed.

Lemma py_round_plain x n ex : py_round x n = Raise ex -> plain ex.
Proof.
  unfold py_round. destruct x; try discriminate.
  destruct (Float.round (S754_finite s m e) n); try discriminate.
  intros [= <-]; exact I.
Qed.

Lemma route_row_plain t r ex : route_row t r = Raise ex -> plain ex.
Proof.
  unfold route_row. intros H.
  repeat (apply bind_raise in H; destruct H as [H | [? [_ H]]];
          [eauto using getitem_plain, dict_get_plain, format_duration_plain,
             int_truediv_plain, truediv_float_plain, py_round_plain |]).
  discriminate.
Qed.

Lemma main_traceback e w ex w' :
  log_eta e w = (Raise ex, w') ->
  plain ex ->
  main e w = {| log_file := log_file w';
                console := (console w' ++ [Traceback ex])%list;
                requests := requests w' |}.
Proof.
  intros H Hp. unfold main. rewrite H. destruct ex; try reflexivity. destruct Hp.
Qed.

Lemma log_eta_first_route e kv w :
  first_route e kv ->
  log_eta e w =
    match route_row (now e) (VDict kv) with
    | Ok row =>
        if encodable (route_description row) then (Ok tt, logged row w)
        else (Raise UnicodeEncodeError, header_only w)
    | Raise ex => (Raise ex, with_console [] 1 w)
    end.
Proof.
  intros [Hw [status_code [text [top [rest [Hs [He Hr]]]]]]].
  rewrite (log_eta_fetched _ _ _ _ _ Hw Hs He).
  unfold after_fetch, dict_get. now rewrite Hr.
Qed.

Lemma route_row_raises e kv w ex :
  first_route e kv ->
  route_row (now e) (VDict kv) = Raise ex ->
  let sent := {| log_file := log_file w;
                 console := console w;
                 requests := S (requests w) |} in
  log_eta e w = (Raise ex, sent) /\
  main e w = {| log_file := log_file w;
                console := (console w ++ [Traceback ex])%list;
                requests := S (requests w) |}.
Proof.
  intros Hf Hr sent.
  assert (Hl : log_eta e w = (Raise ex, sent)).
  { rewrite (log_eta_first_route _ _ _ Hf), Hr.
    unfold with_console, sent. simpl. now rewrite app_nil_r. }
  split; [exact Hl|].
  rewrite (main_traceback _ _ _ _ Hl); [reflexivity|].
  eapply route_row_plain; eassumption.
Qed.

Lemma route_row_missing t kv :
  lookup "duration" kv = None \/ lookup "staticDuration" kv = None \/
  lookup "distanceMeters" kv = None ->
  exists ex, route_row t (VDict kv) = Raise ex.
Proof.
  intros H. unfold route_row, getitem.
  destruct (lookup "duration" kv) as [d|]; simpl; [|eauto].
  destruct (format_duration d) as [n|]; simpl; [|eauto].
  destruct (lookup "staticDuration" kv) as [d'|]; simpl; [|eauto].
  destruct (format_duration d') as [n'|]; simpl; [|eauto].
  destruct (lookup "distanceMeters" kv) as [m|]; simpl; [|eauto].
  destruct H as [H | [H | H]]; discriminate.
Qed.

(** C10 (amended).  Take a response whose first route is an object.  When
    that object lacks one of the keys [duration], [staticDuration] and
    [distanceMeters], the run raises an exception, the handler of
    [__main__] reports it and the log file is left as it was.  The
    exception is the key-lookup error of the first missing key as long as
    the durations read before it parse: always for [duration], after a
    well-formed [duration] for [staticDuration], after two well-formed
    durations for [distanceMeters].  A missing [description] is
    tolerated: when the other three fields convert, the row is written
    with the empty string as its description. *)
Theorem missing_route_keys e kv w :
  first_route e kv ->
  let failed ex :=
    log_eta e w = (Raise ex, {| log_file := log_file w;
                                console := console w;
                                requests := S (requests w) |}) /\
    main e w = {| log_file := log_file w;
                  console := (console w ++ [Traceback ex])%list;
                  requests := S (requests w) |} in
  (lookup "duration" kv = None \/ lookup "staticDuration" kv = None \/
   lookup "distanceMeters" kv = None ->
   exists ex, plain ex /\ failed ex) /\
  (lookup "duration" kv = None -> failed (KeyError (VStr "duration"))) /\
  (forall d n,
     lookup "duration" kv = Some d -> format_duration d = Ok n ->
     lookup "staticDuration" kv = None ->
     failed (KeyError (VStr "staticDuration"))) /\
  (forall d n d' n',
     lookup "duration" kv = Some d -> format_duration d = Ok n ->
     lookup "staticDuration" kv = Some d' -> format_duration d' = Ok n' ->
     lookup "distanceMeters" kv = None ->
     failed (KeyError (VStr "distanceMeters"))) /\
  (forall d n d' n' m eta ff mi,
     lookup "duration" kv = Some d -> format_duration d = Ok n ->
     lookup "staticDuration" kv = Some d' -> format_duration d' = Ok n' ->
     lookup "distanceMeters" kv = Some m ->
     (q <- int_truediv n 60 ;; py_round q 1)%result = Ok eta ->
     (q <- int_truediv n' 60 ;; py_round q 1)%result = Ok ff ->
     (q <- truediv_float m meters_per_mile ;; py_round q 2)%result = Ok mi ->
     lookup "description" kv = None ->
     log_eta e w =
       (Ok tt, logged {| timestamp := Fmt.isoformat (now e);
                         origin := ORIGIN;
                         destination := DESTINATION;
                         distance_mi := mi;
                         eta_min := eta;
                         freeflow_min := ff;
                         route_description := VStr EmptyString |} w)).
Proof.
  intros Hf failed.
  assert (Hfail : forall ex, route_row (now e) (VDict kv) = Raise ex -> failed ex)
    by (intros ex Hr; exact (route_row_raises e kv w ex Hf Hr)).
  split; [|split; [|split; [|split]]].
  - intros H. destruct (route_row_missing (now e) kv H) as [ex Hr].
    exists ex. split; [eapply route_row_plain; eassumption | now apply Hfail].
  - intros H. apply Hfail. unfold route_row, getitem. now rewrite H.
  - intros d n Hd Hn H. apply Hfail. unfold route_row, getitem.
    rewrite Hd. simpl. rewrite Hn. simpl. now rewrite H.
  - intros d n d' n' Hd Hn Hd' Hn' H. apply Hfail. unfold route_row, getitem.
    rewrite Hd. simpl. rewrite Hn. simpl. rewrite Hd'. simpl. rewrite Hn'. simpl.
    now rewrite H.
  - intros d n d' n' m eta ff mi Hd Hn Hd' Hn' Hm Heta Hff Hmi H.
    rewrite (log_eta_first_route _ _ _ Hf).
    apply bind_ok in Heta. destruct Heta as [q [Hq Heta]].
    apply bind_ok in Hff. destruct Hff as [q' [Hq' Hff]].
    apply bind_ok in Hmi. destruct Hmi as [q'' [Hq'' Hmi]].
    unfold route_row, getitem, dict_get.
    rewrite Hd. cbn [bind]. rewrite Hn. cbn [bind]. rewrite Hd'. cbn [bind].
    rewrite Hn'. cbn [bind]. rewrite Hm. cbn [bind]. rewrite H.
    rewrite Hq. cbn [bind]. rewrite Heta. cbn [bind].
    rewrite Hq'. cbn [bind]. rewrite Hff. cbn [bind].
    rewrite Hq''. cbn [bind]. rewrite Hmi. reflexivity.
Qed.

(** ** Unit conversion *)

Lemma div_half_even_nearest n d :
  0 < d -> 2 * Z.abs (Float.div_half_even n d * d - n) <= d.
Proof.
  intros Hd. unfold Float.div_half_even.
  assert (Hn := Z.div_mod n d ltac:(lia)).
  assert (Hr := Z.mod_pos_bound n d Hd).
  destruct (Z.compare_spec (2 * (n mod d)) d) as [He | Hl | Hg].
  - destruct (Z.even (n / d)); nia.
  - nia.
  - nia.
Qed.

(** ** The duration parser *)

Lemma endswith_app (s : string) (c d : ascii) :
  Str.endswith (s ++ String d EmptyString) c = Ascii.eqb d c.
Proof.
  induction s as [|a s IH]; simpl; [reflexivity|].
  rewrite IH. destruct s; reflexivity.
Qed.

Lemma drop_last_app (s : string) (d : ascii) :
  Str.drop_last (s ++ String d EmptyString) = s.
Proof.
  induction s as [|a s IH]; simpl; [reflexivity|].
  rewrite IH. destruct s; reflexivity.
Qed.

(** A string ends with [c] exactly when it is some text followed by [c]. *)
Lemma endswith_spec (s : string) (c : ascii) :
  Str.endswith s c = true <-> exists t, s = t ++ String c EmptyString.
Proof.
  split.
  - induction s as [|a s IH]; simpl; [discriminate|].
    destruct s as [|b s].
    + intros H. apply Ascii.eqb_eq in H. subst. now exists EmptyString.
    + intros H. destruct (IH H) as [t Ht]. exists (String a t). simpl. now rewrite Ht.
  - intros [t ->]. rewrite endswith_app. apply Ascii.eqb_refl.
Qed.

(** C1 (amended).  On the empty string and on every string that does not
    end with the unit character the parser returns 0 and raises nothing.
    A string that ends with the unit character is converted: when what
    precedes the unit is not a float literal, the parser raises
    [ValueError]. *)
Theorem format_duration_guard (s : string) :
  format_duration (VStr EmptyString) = Ok 0 /\
  (Str.endswith s "s" = false -> format_duration (VStr s) = Ok 0) /\
  ((forall t, s <> t ++ "s") -> format_duration (VStr s) = Ok 0) /\
  (Str.endswith s "s" = true ->
   FloatParse.parse (Str.drop_last s) = None ->
   format_duration (VStr s) = Raise ValueError).
Proof.
  assert (Hno : Str.endswith s "s" = false -> format_duration (VStr s) = Ok 0).
  { intros H. unfold format_duration. rewrite H. now destruct s. }
  split; [reflexivity|]. split; [exact Hno|]. split.
  - intros H. apply Hno. destruct (Str.endswith s "s") eqn:E; [|reflexivity].
    apply endswith_spec in E. destruct E as [t Ht]. now elim (H t).
  - intros H Hp. unfold format_duration. rewrite H.
    destruct s; [discriminate|]. simpl truthy. cbv iota.
    unfold float_of_str. now rewrite Hp.
Qed.

Lemma is_digit_code c : Str.is_digit c = true -> (48 <= Str.code c <= 57)%N.
Proof.
  unfold Str.is_digit. intros H. apply andb_true_iff in H.
  destruct H as [H1 H2]. apply N.leb_le in H1. apply N.leb_le in H2. lia.
Qed.

Lemma code_inj c n : Ascii.eqb c (ascii_of_N n) = true -> (n < 256)%N -> Str.code c = n.
Proof.
  intros H Hn. apply Ascii.eqb_eq in H. subst c. unfold Str.code.
  now apply N_ascii_embedding.
Qed.

Lemma digit_not c n :
  Str.is_digit c = true -> (n < 48 \/ 57 < n)%N -> (n < 256)%N ->
  Ascii.eqb c (ascii_of_N n) = false.
Proof.
  intros Hd Hn Hb. destruct (Ascii.eqb c (ascii_of_N n)) eqn:E; [|reflexivity].
  apply code_inj in E; [|assumption]. apply is_digit_code in Hd. lia.
Qed.

Lemma digit_not_space c : Str.is_digit c = true -> Str.is_space c = false.
Proof.
  intros H. apply is_digit_code in H. unfold Str.is_space.
  repeat (apply orb_false_iff; split).
  - apply andb_false_iff. right. apply N.leb_gt. lia.
  - apply N.eqb_neq. lia.
  - apply N.eqb_neq. lia.
  - apply N.eqb_neq. lia.
Qed.

Lemma digits_app l l' : digits l -> digits l' -> digits (l ++ l').
Proof. intros H H'. apply Forall_app. now split. Qed.

Lemma span_digits_app ds rest :
  digits ds ->
  match rest with [] => True | c :: _ => Str.is_digit c = false end ->
  FloatParse.span_digits (ds ++ rest) = (ds, rest).
Proof.
  intros Hd Hr. induction Hd as [|c ds Hc _ IH]; simpl.
  - destruct rest as [|c rest]; [reflexivity|]. simpl. now rewrite Hr.
  - now rewrite Hc, IH.
Qed.

Lemma strip_underscores_none l prev :
  Forall (fun c => Ascii.eqb c "_" = false) l ->
  FloatParse.is_underscore prev = false ->
  FloatParse.strip_underscores prev l = Some l.
Proof.
  intros H. revert prev. induction H as [|c l Hc _ IH]; intros prev Hp; simpl.
  - now rewrite Hp.
  - rewrite Hc, Hp. simpl. rewrite IH; [reflexivity|exact Hc].
Qed.

Lemma lstrip_head c l :
  Str.is_space c = false -> FloatParse.lstrip (c :: l) = c :: l.
Proof. intros H. simpl. now rewrite H. Qed.

Lemma strip_id c l d :
  Str.is_space c = false -> Str.is_space d = false ->
  forall l', c :: l = (l' ++ [d])%list -> FloatParse.strip (c :: l) = c :: l.
Proof.
  intros Hc Hd l' E. unfold FloatParse.strip.
  rewrite (lstrip_head c l Hc), E, rev_unit, (lstrip_head d _ Hd).
  simpl. now rewrite rev_involutive.
Qed.

Lemma sign_of_digit c l :
  Str.is_digit c = true -> FloatParse.sign_of (c :: l) = (false, c :: l).
Proof.
  intros H. unfold FloatParse.sign_of.
  change "-"%char with (ascii_of_N 45). change "+"%char with (ascii_of_N 43).
  rewrite !(digit_not c _ H) by lia. reflexivity.
Qed.

Lemma decimal_number ip fp :
  digits ip -> digits fp -> ip <> [] ->
  FloatParse.decimal (number_chars ip fp) =
    Some (FloatParse.digits_value (ip ++ fp), - Z.of_nat (List.length fp)).
Proof.
  intros Hi Hf Hne. unfold FloatParse.decimal, number_chars.
  destruct fp as [|c fp].
  - rewrite (span_digits_app ip [] Hi I). rewrite app_nil_r. simpl.
    destruct ip; [congruence | reflexivity].
  - rewrite (span_digits_app ip _ Hi) by reflexivity.
    rewrite Ascii.eqb_refl.
    rewrite <- (app_nil_r (c :: fp)) at 1.
    rewrite (span_digits_app (c :: fp) [] Hf I).
    destruct ip as [|a ip]; [congruence|]. simpl app. cbv iota.
    reflexivity.
Qed.

Lemma number_chars_ends ip fp :
  digits ip -> digits fp -> ip <> [] ->
  exists c l d l',
    number_chars ip fp = c :: l /\ number_chars ip fp = (l' ++ [d])%list /\
    Str.is_digit c = true /\ Str.is_digit d = true.
Proof.
  intros Hi Hf Hne. unfold number_chars.
  destruct ip as [|c ip]; [congruence|].
  assert (Hc : Str.is_digit c = true) by (now inversion Hi).
  destruct fp as [|b fp].
  - destruct (exists_last Hne) as [l' [d E]].
    exists c, ip, d, l'. rewrite app_nil_r. repeat split; trivial.
    rewrite E in Hi. apply Forall_app in Hi. destruct Hi as [_ Hd]. now inversion Hd.
  - assert (Hb : b :: fp <> []) by discriminate.
    destruct (exists_last Hb) as [l' [d E]].
    exists c, (ip ++ "."%char :: b :: fp)%list, d, ((c :: ip) ++ "."%char :: l')%list.
    repeat split; trivial.
    + rewrite <- app_assoc. cbn [app]. now rewrite <- E.
    + rewrite E in Hf. apply Forall_app in Hf. destruct Hf as [_ Hd]. now inversion Hd.
Qed.

Lemma number_chars_no_underscore ip fp :
  digits ip -> digits fp ->
  Forall (fun c => Ascii.eqb c "_" = false) (number_chars ip fp).
Proof.
  intros Hi Hf.
  assert (Hd : forall l, digits l -> Forall (fun c => Ascii.eqb c "_" = false) l).
  { intros l Hl. eapply Forall_impl; [|exact Hl]. intros c Hc.
    change "_"%char with (ascii_of_N 95). apply digit_not; trivial; lia. }
  unfold number_chars. apply Forall_app. split; [now apply Hd|].
  destruct fp; [constructor|]. constructor; [reflexivity | now apply Hd].
Qed.

(** A plain number is a float literal: its value is the integer written by
    all its digits, scaled down by the number of digits after the point. *)
Lemma parse_number ip fp :
  digits ip -> digits fp -> ip <> [] ->
  FloatParse.parse (number_text ip fp) =
    Some (Float.of_decimal false (FloatParse.digits_value (ip ++ fp))
            (- Z.of_nat (List.length fp))).
Proof.
  intros Hi Hf Hne. unfold FloatParse.parse, number_text.
  rewrite list_ascii_of_string_of_list_ascii.
  rewrite strip_underscores_none;
    [| now apply number_chars_no_underscore | reflexivity].
  destruct (number_chars_ends ip fp Hi Hf Hne) as [c [l [d [l' [E1 [E2 [Hc Hd]]]]]]].
  assert (Hs : FloatParse.strip (number_chars ip fp) = number_chars ip fp).
  { rewrite E1. apply (strip_id c l d) with (l' := l');
      [now apply digit_not_space | now apply digit_not_space | congruence]. }
  rewrite Hs. rewrite E1 at 1. rewrite (sign_of_digit c l Hc). rewrite <- E1.
  now rewrite (decimal_number ip fp Hi Hf Hne).
Qed.

Lemma digits2_bounds p :
  2 ^ (Zpos (digits2_pos p) - 1) <= Zpos p < 2 ^ Zpos (digits2_pos p).
Proof.
  induction p as [p IH | p IH |]; simpl digits2_pos.
  - rewrite Pos2Z.inj_succ. replace (Z.succ (Zpos (digits2_pos p)) - 1) with (Zpos (digits2_pos p)) by lia.
    rewrite Z.pow_succ_r by lia.
    replace (2 ^ Zpos (digits2_pos p)) with (2 * 2 ^ (Zpos (digits2_pos p) - 1)) in *
      by (rewrite <- Z.pow_succ_r by lia; f_equal; lia).
    lia.
  - rewrite Pos2Z.inj_succ. replace (Z.succ (Zpos (digits2_pos p)) - 1) with (Zpos (digits2_pos p)) by lia.
    rewrite Z.pow_succ_r by lia.
    replace (2 ^ Zpos (digits2_pos p)) with (2 * 2 ^ (Zpos (digits2_pos p) - 1)) in *
      by (rewrite <- Z.pow_succ_r by lia; f_equal; lia).
    lia.
  - simpl. lia.
Qed.

Lemma iter_xO_digits p k :
  digits2_pos (Pos.iter xO p k) = (digits2_pos p + k)%positive.
Proof.
  induction k using Pos.peano_ind.
  - simpl. lia.
  - rewrite Pos.iter_succ. simpl. rewrite IHk. lia.
Qed.

Lemma iter_xO_value p k : Zpos (Pos.iter xO p k) = Zpos p * 2 ^ Zpos k.
Proof.
  induction k using Pos.peano_ind.
  - simpl. lia.
  - rewrite Pos.iter_succ, Pos2Z.inj_xO, IHk, Pos2Z.inj_succ, Z.pow_succ_r by lia. lia.
Qed.

Lemma shr_fexp_canonical m e :
  Zpos (digits2_pos m) = 53 -> -1074 <= e ->
  shr_fexp 53 1024 (Zpos m) e loc_Exact =
    ({| shr_m := Zpos m; shr_r := false; shr_s := false |}, e).
Proof.
  intros Hd He. unfold shr_fexp.
  assert (E : fexp 53 1024 (Zdigits2 (Zpos m) + e) - e = 0).
  { unfold fexp, emin, Zdigits2. lia. }
  rewrite E. reflexivity.
Qed.

Lemma round_canonical s m e :
  Zpos (digits2_pos m) = 53 -> -1074 <= e <= 971 ->
  binary_round_aux Float.prec Float.emax s (Zpos m) e loc_Exact = S754_finite s m e.
Proof.
  intros Hd He. unfold binary_round_aux, Float.prec, Float.emax.
  rewrite (shr_fexp_canonical m e Hd) by lia.
  cbn [shr_m loc_of_shr_record round_nearest_even].
  rewrite (shr_fexp_canonical m e Hd) by lia.
  cbn [shr_m].
  destruct (Z.leb_spec e (1024 - 53)); [reflexivity | lia].
Qed.

(** An integer below 2^53 is a float, and truncating that float gives
    the integer back. *)
Lemma of_Z_exact p :
  Zpos p < 2 ^ 53 ->
  exists m e,
    binary_normalize Float.prec Float.emax (Zpos p) 0 false = S754_finite false m e /\
    Float.trunc (S754_finite false m e) = Zpos p.
Proof.
  intros Hp.
  assert (Hb := digits2_bounds p).
  assert (Hd : Zpos (digits2_pos p) <= 53).
  { destruct (Z_le_gt_dec (Zpos (digits2_pos p)) 53) as [H|H]; [exact H|].
    assert (2 ^ 53 <= 2 ^ (Zpos (digits2_pos p) - 1)) by (apply Z.pow_le_mono_r; lia).
    lia. }
  unfold binary_normalize, binary_round, shl_align.
  unfold fexp at 1, emin, Float.prec, Float.emax.
  replace (Z.max (Zpos (digits2_pos p) + 0 - 53) (3 - 1024 - 53) - 0)
    with (Zpos (digits2_pos p) - 53) by lia.
  destruct (Zpos (digits2_pos p) - 53) as [|k|k] eqn:E; try lia.
  - exists p, 0. split; [|reflexivity].
    apply round_canonical; lia.
  - exists (Pos.iter xO p k), (fexp 53 1024 (Zpos (digits2_pos p) + 0)).
    assert (Hf : fexp 53 1024 (Zpos (digits2_pos p) + 0) = Zneg k).
    { unfold fexp, emin. lia. }
    rewrite Hf. split.
    + apply round_canonical; [|lia].
      rewrite iter_xO_digits. lia.
    + unfold Float.trunc. rewrite iter_xO_value.
      rewrite Z.shiftr_div_pow2 by lia. apply Z.div_mul.
      apply Z.pow_nonzero; lia.
Qed.

Lemma digits_value_acc ds acc :
  digits ds -> 0 <= acc ->
  0 <= fold_left (fun a c => 10 * a + Str.digit_value c) ds acc.
Proof.
  intros H. revert acc.
  induction H as [|c ds Hc _ IH]; intros acc Ha; cbn [fold_left].
  - exact Ha.
  - apply IH. apply is_digit_code in Hc.
    unfold Str.digit_value, Str.code in *. lia.
Qed.

Lemma digits_value_nonneg ds : digits ds -> 0 <= FloatParse.digits_value ds.
Proof. intros H. apply digits_value_acc; [exact H | lia]. Qed.

Lemma int_of_float_whole n :
  0 <= n < 2 ^ 53 -> int_of_float (Float.of_decimal false n 0) = Ok n.
Proof.
  intros [H0 Hn]. destruct n as [|p|p]; [reflexivity | | lia].
  unfold Float.of_decimal.
  destruct (of_Z_exact p Hn) as [m [e [E Ht]]].
  rewrite E. unfold int_of_float. now rewrite Ht.
Qed.

Lemma format_duration_unit (body : string) :
  format_duration (VStr (body ++ "s")) =
    (x <- float_of_str body ;; int_of_float x)%result.
Proof.
  unfold format_duration.
  rewrite endswith_app, drop_last_app, Ascii.eqb_refl.
  now destruct body.
Qed.

Lemma int_of_float_finite s m e :
  int_of_float (S754_finite s m e) =
    Ok (let a := if 0 <=? e then Zpos m * 2 ^ e else Zpos m / 2 ^ (- e) in
        if s then - a else a).
Proof.
  unfold int_of_float, Float.trunc. f_equal. destruct e as [|k|k].
  - change (0 <=? 0) with true. cbv iota.
    now rewrite Z.shiftl_mul_pow2 by lia.
  - change (0 <=? Zpos k) with true. cbv iota.
    now rewrite Z.shiftl_mul_pow2 by lia.
  - change (0 <=? Zneg k) with false. cbv iota.
    now rewrite Z.shiftr_div_pow2 by lia.
Qed.

(** ** Successful runs *)


(** ** Outcomes *)

Lemma getitem0_plain v ex : getitem0 v = Raise ex -> plain ex.
Proof.
  destruct v as [| | | |s|l|kv|cs]; simpl; try (intros [= <-]; exact I).
  - destruct s; [intros [= <-]; exact I | discriminate].
  - destruct l; [intros [= <-]; exact I | discriminate].
  - destruct cs; [intros [= <-]; exact I | discriminate].
Qed.

(** The run, as a decision followed by its effect. *)
Lemma log_eta_outcome e w :
  log_eta e w =
    match outcome_of e with
    | Skipped => (Ok tt, with_console (report (now e) Skipped) 0 w)
    | NoRoutes => (Ok tt, with_console (report (now e) NoRoutes) 1 w)
    | Logged r => (Ok tt, logged r w)
    | Failed ex => (Raise ex, with_console [] 1 w)
    | Unsent ex => (Raise ex, with_console [] 0 w)
    | Unwritten r => (Raise UnicodeEncodeError, header_only w)
    end.
Proof.
  unfold outcome_of.
  destruct (within_window (now e)) eqn:Hw; [|now apply log_eta_skip].
  destruct (service e) as [|status_code text json|ex] eqn:Hs;
    [now apply log_eta_no_reply | | now apply log_eta_no_request].
  destruct (error_status_dec status_code) as [He|He].
  - rewrite (error_status_test _ He). now apply (log_eta_http_error e w _ _ json).
  - rewrite (not_error_status_test _ He).
    destruct json as [data|]; [|now apply (log_eta_not_json e w status_code text)].
    rewrite (log_eta_fetched _ _ _ _ _ Hw Hs He). unfold after_fetch.
    destruct (dict_get data "routes" (VList [])) as [routes|ex]; [|reflexivity].
    destruct (truthy routes); [|reflexivity].
    destruct (r <- getitem0 routes ;; route_row (now e) r)%result as [row|ex];
      [|reflexivity].
    now destruct (encodable (route_description row)).
Qed.

(** An exception other than the HTTP error of an error status is plain. *)
Lemma outcome_failed e ex :
  outcome_of e = Failed ex ->
  plain ex \/
  exists status_code text json,
    service e = Reply status_code text json /\ error_status status_code /\
    ex = HTTPError status_code text.
Proof.
  unfold outcome_of.
  destruct (within_window (now e)); [|discriminate].
  destruct (service e) as [|status_code text json|ex0];
    [intros [= <-]; now left | | discriminate].
  destruct (error_status_dec status_code) as [He|He].
  - rewrite (error_status_test _ He). intros [= <-]. right. eauto 6.
  - rewrite (not_error_status_test _ He).
    destruct json as [data|]; [|intros [= <-]; now left].
    destruct (dict_get data "routes" (VList [])) as [routes|ex'] eqn:Hd.
    + destruct (truthy routes); [|discriminate].
      destruct (r <- getitem0 routes ;; route_row (now e) r)%result as [row|ex'] eqn:Hr;
        [destruct (encodable (route_description row)); discriminate|].
      intros [= <-]. left. apply bind_raise in Hr. destruct Hr as [Hr | [r [_ Hr]]].
      * eapply getitem0_plain; eassumption.
      * eapply route_row_plain; eassumption.
    + intros [= <-]. left. eapply dict_get_plain; eassumption.
Qed.

(** Computing the departure time raises nothing but [OverflowError]. *)
Lemma departure_time_raises t ex :
  departure_time t = Raise ex -> ex = OverflowError.
Proof.
  unfold departure_time, add_seconds.
  destruct ((0 <? _) && (_ <=? MAXORDINAL)).
  - destruct (ord2ymd _) as [[y m] d]. discriminate.
  - now intros [= <-].
Qed.

(** What the outcome tells of the clocks and of the service. *)
Lemma outcome_service e :
  match outcome_of e with
  | Skipped => within_window (now e) = false
  | Unsent ex =>
      within_window (now e) = true /\ service e = NoRequest ex /\
      ex = OverflowError
  | _ => within_window (now e) = true /\ sends e = true
  end.
Proof.
  unfold outcome_of, sends.
  destruct (within_window (now e)); [|reflexivity].
  destruct (service e) as [|status_code text json|ex] eqn:Hs.
  - now split.
  - destruct ((400 <=? status_code) && (status_code <? 600)); [now split|].
    destruct json as [data|]; [|now split].
    destruct (dict_get data "routes" (VList [])) as [routes|]; [|now split].
    destruct (truthy routes); [|now split].
    destruct (r <- getitem0 routes ;; route_row (now e) r)%result as [row|];
      [|now split].
    destruct (encodable (route_description row)); now split.
  - split; [reflexivity|]. split; [reflexivity|].
    apply service_no_request in Hs. now apply departure_time_raises in Hs.
Qed.

Lemma main_outcome e w :
  main e w =
    match outcome_of e with
    | Skipped => with_console (report (now e) Skipped) 0 w
    | Logged r => logged r w
    | Unsent ex => with_console (report (now e) (Unsent ex)) 0 w
    | Unwritten r => with_console (report (now e) (Unwritten r)) 0 (header_only w)
    | o => with_console (report (now e) o) 1 w
    end.
Proof.
  unfold main. rewrite log_eta_outcome.
  pose proof (outcome_service e) as Hs.
  destruct (outcome_of e) as [| |r|ex|ex|r]; try reflexivity.
  - destruct ex; unfold with_console, iobind, print, emit; simpl;
      rewrite ?app_nil_r, <- ?app_assoc; reflexivity.
  - destruct Hs as [_ [_ ->]]. unfold with_console, emit. simpl.
    now rewrite app_nil_r.
Qed.

Lemma outcome_skipped e : outcome_of e = Skipped <-> within_window (now e) = false.
Proof.
  pose proof (outcome_service e) as Hs. split.
  - intros Ho. now rewrite Ho in Hs.
  - intros Hw. unfold outcome_of. now rewrite Hw.
Qed.

Lemma sends_true e :
  sends e = true <-> exists departure, departure_time (utc_now e) = Ok departure.
Proof.
  unfold sends, service.
  destruct (departure_time (utc_now e)) as [departure|ex].
  - split; [eauto|]. intros _. now destruct (http_response e) as [[[s t] j]|].
  - split; [discriminate|]. intros [departure H]. discriminate H.
Qed.

(** X1.  A run sends exactly one request when the local clock is inside
    the window and the departure time can be computed, and none otherwise,
    whatever the service answers and whatever the run comes to: nothing is
    retried.  For a reading of the UTC clock the departure time can be
    computed but in the last thirty seconds of the year 9999. *)
Theorem one_request_in_window e w :
  requests (main e w) =
    ((if within_window (now e) && sends e then 1 else 0) + requests w)%nat /\
  requests (snd (log_eta e w)) = requests (main e w) /\
  (utc_reading (utc_now e) ->
   (sends e = true <-> instant (utc_now e) + 30 < (MAXORDINAL + 1) * 86400)).
Proof.
  split; [|split; [now rewrite main_requests|]].
  - rewrite main_outcome. pose proof (outcome_service e) as Hs.
    destruct (outcome_of e) as [| |r|ex|ex|r].
    + now rewrite Hs.
    + destruct Hs as [-> ->]. reflexivity.
    + destruct Hs as [-> ->]. reflexivity.
    + destruct Hs as [-> ->]. reflexivity.
    + destruct Hs as [-> [Hs _]]. unfold sends. now rewrite Hs.
    + destruct Hs as [-> ->]. reflexivity.
  - intros Hu. rewrite sends_true. unfold departure_time.
    destruct (add_seconds_spec (utc_now e) 30 Hu) as [Hok Hraise].
    pose proof Hu as [Hy [Hm [Hd _]]].
    pose proof (ymd2ord_bounds _ _ _ Hy Hm Hd) as Hord.
    assert (Hlow : 86400 <= instant (utc_now e) + 30).
    { destruct Hu as [_ [_ [_ [Hh [Hmi [Hsec _]]]]]]. unfold instant. lia. }
    split.
    + intros [departure H].
      destruct (Z_lt_ge_dec (instant (utc_now e) + 30) ((MAXORDINAL + 1) * 86400))
        as [Hlt|Hge]; [exact Hlt|].
      rewrite Hraise in H by lia. discriminate H.
    + intros Hlt. destruct (Hok (conj Hlow Hlt)) as [t' [Ha _]].
      rewrite Ha. cbn [bind]. eauto.
Qed.

(** X2.  Every run of the program reports once: it keeps what was on the
    console and adds one output, or two lines when, inside the window,
    the service answers with an error status, and only then. *)
Theorem every_run_reports e w :
  exists out,
    console (main e w) = (console w ++ out)%list /\
    (List.length out = 1%nat \/ List.length out = 2%nat) /\
    (List.length out = 2%nat <->
     within_window (now e) = true /\
     exists status_code text json,
       service e = Reply status_code text json /\ error_status status_code).
Proof.
  exists (report (now e) (outcome_of e)). split; [|split].
  - rewrite main_outcome. now destruct (outcome_of e).
  - destruct (outcome_of e) as [| |r|ex|ex|r]; try (now left). destruct ex; auto.
  - split.
    + intros Hl. pose proof (outcome_service e) as Hsv.
      destruct (outcome_of e) as [| |r|ex|ex|r] eqn:Ho; try discriminate.
      split; [exact (proj1 Hsv)|].
      destruct (outcome_failed e ex Ho) as [Hp | [st [tx [js [Hs [He ->]]]]]].
      * destruct ex; try discriminate. destruct Hp.
      * eauto.
    + intros [Hw [st [tx [js [Hs He]]]]].
      unfold outcome_of. rewrite Hw, Hs, (error_status_test _ He). reflexivity.
Qed.

(** X3.  What a run returns or raises, what it prints and whether it sends
    a request do not depend on the state it starts in: neither on the log
    file nor on the console.  The log file is left as it was, or, when the
    row cannot be encoded, with only the header added where no file
    existed, or with one row added, after the header where no file
    existed: only the header depends on whether the file exists. *)
Theorem run_independent_of_world e :
  exists result out n,
    forall w,
      fst (log_eta e w) = result /\
      console (snd (log_eta e w)) = (console w ++ out)%list /\
      requests (snd (log_eta e w)) = (n + requests w)%nat /\
      (log_file (snd (log_eta e w)) = log_file w \/
       (result = Raise UnicodeEncodeError /\
        log_file (snd (log_eta e w)) =
          Some (match log_file w with
                | Some s => s
                | None => header_line
                end)) \/
       exists r, result = Ok tt /\
                 log_file (snd (log_eta e w)) =
                   Some (match log_file w with
                         | Some s => s ++ row_line r
                         | None => header_line ++ row_line r
                         end)).
Proof.
  destruct (outcome_of e) as [| |r|ex|ex|r] eqn:Ho.
  - exists (Ok tt), (report (now e) Skipped), 0%nat. intros w.
    rewrite log_eta_outcome, Ho. simpl. auto.
  - exists (Ok tt), (report (now e) NoRoutes), 1%nat. intros w.
    rewrite log_eta_outcome, Ho. simpl. auto.
  - exists (Ok tt), [Printed (json_dumps r)], 1%nat. intros w.
    rewrite log_eta_outcome, Ho. simpl. repeat split. right. right. now exists r.
  - exists (Raise ex), [], 1%nat. intros w.
    rewrite log_eta_outcome, Ho. simpl. auto.
  - exists (Raise ex), [], 0%nat. intros w.
    rewrite log_eta_outcome, Ho. simpl. auto.
  - exists (Raise UnicodeEncodeError), [], 1%nat. intros w.
    rewrite log_eta_outcome, Ho. simpl. rewrite app_nil_r.
    split; [reflexivity|]. split; [reflexivity|]. split; [reflexivity|].
    right. left. split; reflexivity.
Qed.

(** X4.  Rows are written whole, the header is not held back.  A run that
    raises leaves an existing log file as it was; where no file existed it
    leaves none, or, when it raised on a row that cannot be encoded, a
    file that holds the header alone, and the program then prints the
    traceback of [UnicodeEncodeError].  A run that returns and has changed
    the log file has sent its request, appended the header (on a new file)
    and one row, and printed the summary of that very row.  A first route
    whose description holds a lone surrogate, with fields that convert, is
    such a run that raises. *)
Theorem failed_write_leaves_header e w :
  (forall ex, fst (log_eta e w) = Raise ex ->
     log_file (main e w) = log_file (snd (log_eta e w)) /\
     (log_file (snd (log_eta e w)) = log_file w \/
      ex = UnicodeEncodeError /\ log_file w = None /\
      log_file (snd (log_eta e w)) = Some header_line)) /\
  (fst (log_eta e w) = Ok tt ->
   log_file (snd (log_eta e w)) <> log_file w ->
   exists r, log_eta e w = (Ok tt, logged r w) /\ main e w = logged r w) /\
  (forall kv r,
     first_route e kv ->
     route_row (now e) (VDict kv) = Ok r ->
     encodable (route_description r) = false ->
     log_eta e w = (Raise UnicodeEncodeError, header_only w) /\
     main e w =
       {| log_file := Some (match log_file w with
                            | Some s => s
                            | None => header_line
                            end);
          console := (console w ++ [Traceback UnicodeEncodeError])%list;
          requests := S (requests w) |}).
Proof.
  split; [|split].
  - intros ex. rewrite main_log_file. rewrite log_eta_outcome.
    destruct (outcome_of e) as [| |r|ex'|ex'|r]; simpl; try discriminate;
      intros [= <-]; (split; [reflexivity|]); try (now left).
    destruct (log_file w); [now left|]. right. auto.
  - rewrite main_outcome, log_eta_outcome.
    destruct (outcome_of e) as [| |r|ex'|ex'|r]; simpl; try discriminate;
      try (intros _ H; now elim H).
    intros _ _. now exists r.
  - intros kv r Hf Hr Henc.
    assert (Hl : log_eta e w = (Raise UnicodeEncodeError, header_only w))
      by (now rewrite (log_eta_first_route _ _ _ Hf), Hr, Henc).
    split; [exact Hl|]. unfold main. rewrite Hl. reflexivity.
Qed.

(** ** Failures of the fetch *)

(** X5.  When no response arrives (the connection fails or the request
    times out), and when a response without error status has a body that
    is not JSON, the run raises, the program prints the traceback of that
    exception and the log file is left as it was. *)
Theorem fetch_failures_reported e w :
  within_window (now e) = true ->
  let failed ex :=
    log_eta e w = (Raise ex, {| log_file := log_file w;
                                console := console w;
                                requests := S (requests w) |}) /\
    main e w = {| log_file := log_file w;
                  console := (console w ++ [Traceback ex])%list;
                  requests := S (requests w) |} in
  (service e = NoReply -> failed RequestException) /\
  (forall status_code text,
     service e = Reply status_code text None -> ~ error_status status_code ->
     failed JSONDecodeError).
Proof.
  intros Hw failed.
  assert (Hf : forall ex, plain ex -> outcome_of e = Failed ex -> failed ex).
  { intros ex Hp Ho. unfold failed. rewrite main_outcome, log_eta_outcome, Ho.
    unfold with_console. simpl. rewrite app_nil_r. split; [reflexivity|].
    destruct ex; try reflexivity. destruct Hp. }
  split.
  - intros Hs. apply Hf; [exact I|]. unfold outcome_of. now rewrite Hw, Hs.
  - intros status_code text Hs He. apply Hf; [exact I|].
    unfold outcome_of. now rewrite Hw, Hs, (not_error_status_test _ He).
Qed.

(** ** Responses of another shape *)

Lemma failed_run e w ex :
  plain ex -> outcome_of e = Failed ex ->
  log_eta e w = (Raise ex, {| log_file := log_file w;
                              console := console w;
                              requests := S (requests w) |}) /\
  main e w = {| log_file := log_file w;
                console := (console w ++ [Traceback ex])%list;
                requests := S (requests w) |}.
Proof.
  intros Hp Ho. rewrite main_outcome, log_eta_outcome, Ho.
  unfold with_console. simpl. rewrite app_nil_r. split; [reflexivity|].
  destruct ex; try reflexivity. destruct Hp.
Qed.

Lemma fetched_outcome e data :
  fetched e data ->
  outcome_of e =
    match dict_get data "routes" (VList []) with
    | Raise ex => Failed ex
    | Ok routes =>
        if truthy routes then
          match (r <- getitem0 routes ;; route_row (now e) r)%result with
          | Ok row =>
              if encodable (route_description row) then Logged row
              else Unwritten row
          | Raise ex => Failed ex
          end
        else NoRoutes
    end.
Proof.
  intros [Hw [status_code [text [Hs He]]]]. unfold outcome_of.
  now rewrite Hw, Hs, (not_error_status_test _ He).
Qed.

(** X6.  A decoded response of another shape than a list of route objects
    makes the run raise, the program print a traceback, and leaves the log
    file as it was: [AttributeError] when the response is no object,
    [KeyError] of 0 when its routes are a non-empty object, [TypeError]
    when its routes are a number, a boolean or a text that is not falsy,
    or a list whose first element is no object. *)
Theorem other_shapes_raise e w data :
  fetched e data ->
  let failed ex :=
    log_eta e w = (Raise ex, {| log_file := log_file w;
                                console := console w;
                                requests := S (requests w) |}) /\
    main e w = {| log_file := log_file w;
                  console := (console w ++ [Traceback ex])%list;
                  requests := S (requests w) |} in
  ((forall top, data <> VDict top) -> failed AttributeError) /\
  (forall top routes,
     data = VDict top -> lookup "routes" top = Some routes ->
     truthy routes = true ->
     match routes with
     | VList (VDict _ :: _) => True
     | VDict _ => failed (KeyError (VInt 0))
     | _ => failed TypeError
     end).
Proof.
  intros Hf failed.
  assert (Ho := fetched_outcome e data Hf).
  split.
  - intros Hd. apply failed_run; [exact I|]. rewrite Ho.
    destruct data; try reflexivity. now elim (Hd kv).
  - intros top routes -> Hl Ht. unfold dict_get in Ho. rewrite Hl, Ht in Ho.
    destruct routes as [| b | n | x | s | l | kv | cs]; try discriminate;
      try (apply failed_run; [exact I | exact Ho]).
    + destruct s as [|c s]; [discriminate|].
      apply failed_run; [exact I | exact Ho].
    + destruct l as [|first l]; [discriminate|].
      destruct first; try exact I; apply failed_run; (exact I || exact Ho).
    + destruct cs as [|c cs]; [discriminate|].
      apply failed_run; [exact I|]. rewrite Ho. cbn [getitem0 bind].
      now destruct (c <? 256)%N.
Qed.

Lemma first_route_fetched e kv :
  first_route e kv ->
  exists top rest,
    fetched e (VDict top) /\ lookup "routes" top = Some (VList (VDict kv :: rest)).
Proof.
  intros [Hw [status_code [text [top [rest [Hs [He Hr]]]]]]].
  exists top, rest. split; [|exact Hr]. split; [exact Hw|]. eauto.
Qed.

Lemma first_route_outcome e kv :
  first_route e kv ->
  outcome_of e =
    match route_row (now e) (VDict kv) with
    | Ok row =>
        if encodable (route_description row) then Logged row else Unwritten row
    | Raise ex => Failed ex
    end.
Proof.
  intros Hf. destruct (first_route_fetched e kv Hf) as [top [rest [Hd Hr]]].
  rewrite (fetched_outcome e _ Hd). unfold dict_get. now rewrite Hr.
Qed.

Lemma format_duration_not_str d :
  truthy d = true -> is_str d = false -> format_duration d = Raise AttributeError.
Proof.
  intros Ht Hs. unfold format_duration. rewrite Ht. now destruct d.
Qed.

Lemma truediv_float_not_number m y :
  is_number m = false -> truediv_float m y = Raise TypeError.
Proof. intros H. now destruct m. Qed.

(** X7.  Fields of the wrong type make the run raise and leave the log as
    it was.  A duration that is no text and is not falsy, such as the
    number 600, raises [AttributeError]; so does such a static duration
    after a well-formed duration; a distance that is no number, such as a
    text or null, raises [TypeError] once both durations have been
    converted to minutes. *)
Theorem wrong_types_raise e kv w :
  first_route e kv ->
  let failed ex :=
    log_eta e w = (Raise ex, {| log_file := log_file w;
                                console := console w;
                                requests := S (requests w) |}) /\
    main e w = {| log_file := log_file w;
                  console := (console w ++ [Traceback ex])%list;
                  requests := S (requests w) |} in
  (forall d,
     lookup "duration" kv = Some d -> truthy d = true -> is_str d = false ->
     failed AttributeError) /\
  (forall d n d',
     lookup "duration" kv = Some d -> format_duration d = Ok n ->
     lookup "staticDuration" kv = Some d' -> truthy d' = true -> is_str d' = false ->
     failed AttributeError) /\
  (forall d n d' n' m eta ff,
     lookup "duration" kv = Some d -> format_duration d = Ok n ->
     lookup "staticDuration" kv = Some d' -> format_duration d' = Ok n' ->
     lookup "distanceMeters" kv = Some m -> is_number m = false ->
     (q <- int_truediv n 60 ;; py_round q 1)%result = Ok eta ->
     (q <- int_truediv n' 60 ;; py_round q 1)%result = Ok ff ->
     failed TypeError).
Proof.
  intros Hf failed.
  assert (Hfail : forall ex, plain ex ->
            route_row (now e) (VDict kv) = Raise ex -> failed ex).
  { intros ex Hp Hr. apply failed_run; [exact Hp|].
    now rewrite (first_route_outcome e kv Hf), Hr. }
  split; [|split].
  - intros d Hd Ht Hs. apply Hfail; [exact I|]. unfold route_row, getitem.
    rewrite Hd. cbn [bind]. now rewrite (format_duration_not_str d Ht Hs).
  - intros d n d' Hd Hn Hd' Ht Hs. apply Hfail; [exact I|]. unfold route_row, getitem.
    rewrite Hd. cbn [bind]. rewrite Hn. cbn [bind]. rewrite Hd'. cbn [bind].
    now rewrite (format_duration_not_str d' Ht Hs).
  - intros d n d' n' m eta ff Hd Hn Hd' Hn' Hm Hnum Heta Hff.
    apply Hfail; [exact I|].
    apply bind_ok in Heta. destruct Heta as [q [Hq Heta]].
    apply bind_ok in Hff. destruct Hff as [q' [Hq' Hff]].
    unfold route_row, getitem, dict_get.
    rewrite Hd. cbn [bind]. rewrite Hn. cbn [bind]. rewrite Hd'. cbn [bind].
    rewrite Hn'. cbn [bind]. rewrite Hm. cbn [bind].
    rewrite Hq. cbn [bind]. rewrite Heta. cbn [bind].
    rewrite Hq'. cbn [bind]. rewrite Hff. cbn [bind].
    now rewrite (truediv_float_not_number m _ Hnum).
Qed.

(** ** Durations that count for nothing *)

Lemma format_duration_zero_like d : zero_like d -> format_duration d = Ok 0.
Proof.
  intros [Ht | [[s [-> Hs]] | [cs [-> Hs]]]]; unfold format_duration.
  - now rewrite Ht.
  - rewrite Hs. now destruct s.
  - rewrite Hs. now destruct cs.
Qed.

(** X8.  A duration that is null, zero, empty, or a text without the unit
    character is not rejected: when the other fields convert, the row is
    built with 0.0 minutes in its place, as if the trip took no time, and
    it is written unless its description cannot be encoded. *)
Theorem zero_like_duration_logged e kv w :
  first_route e kv ->
  forall d d' n' m ff mi,
    lookup "duration" kv = Some d -> zero_like d ->
    lookup "staticDuration" kv = Some d' -> format_duration d' = Ok n' ->
    lookup "distanceMeters" kv = Some m ->
    (q <- int_truediv n' 60 ;; py_round q 1)%result = Ok ff ->
    (q <- truediv_float m meters_per_mile ;; py_round q 2)%result = Ok mi ->
    exists description,
      dict_get (VDict kv) "description" (VStr EmptyString) = Ok description /\
      route_row (now e) (VDict kv) =
        Ok {| timestamp := Fmt.isoformat (now e);
              origin := ORIGIN;
              destination := DESTINATION;
              distance_mi := mi;
              eta_min := S754_zero false;
              freeflow_min := ff;
              route_description := description |} /\
      log_eta e w =
        if encodable description then
          (Ok tt, logged {| timestamp := Fmt.isoformat (now e);
                            origin := ORIGIN;
                            destination := DESTINATION;
                            distance_mi := mi;
                            eta_min := S754_zero false;
                            freeflow_min := ff;
                            route_description := description |} w)
        else (Raise UnicodeEncodeError, header_only w).
Proof.
  intros Hf d d' n' m ff mi Hd Hz Hd' Hn' Hm Hff Hmi.
  eexists. split; [reflexivity|].
  apply bind_ok in Hff. destruct Hff as [q' [Hq' Hff]].
  apply bind_ok in Hmi. destruct Hmi as [q'' [Hq'' Hmi]].
  match goal with
  | |- ?R = Ok ?row /\ _ => assert (Hr : R = Ok row)
  end.
  { unfold route_row, getitem, dict_get.
    rewrite Hd. cbn [bind]. rewrite (format_duration_zero_like d Hz). cbn [bind].
    rewrite Hd'. cbn [bind]. rewrite Hn'. cbn [bind]. rewrite Hm. cbn [bind].
    change (int_truediv 0 60) with (@Ok exn _ (S754_zero false)). cbn [bind].
    change (py_round (S754_zero false) 1) with (@Ok exn _ (S754_zero false)).
    cbn [bind].
    rewrite Hq'. cbn [bind]. rewrite Hff. cbn [bind].
    rewrite Hq''. cbn [bind]. rewrite Hmi. reflexivity. }
  split; [exact Hr|].
  rewrite (log_eta_first_route _ _ _ Hf), Hr. reflexivity.
Qed.

(** ** Only the first route *)

(** X9.  Only the first route counts.  Take two runs at the same local
    time whose requests are answered, with a status that is no error, by
    two bodies that decode to objects whose lists of routes start with the
    same route: whatever the status codes, the texts of the bodies, the
    other routes and the other members of the objects are, the two runs
    return or raise the same, write the same and print the same. *)
Theorem only_first_route_counts e e' status_code text top status_code' text' top'
    r rest rest' w :
  now e = now e' ->
  service e = Reply status_code text (Some (VDict top)) ->
  ~ error_status status_code ->
  service e' = Reply status_code' text' (Some (VDict top')) ->
  ~ error_status status_code' ->
  lookup "routes" top = Some (VList (r :: rest)) ->
  lookup "routes" top' = Some (VList (r :: rest')) ->
  log_eta e w = log_eta e' w /\ main e w = main e' w.
Proof.
  intros Hn Hs He Hs' He' H H'.
  assert (Ho : outcome_of e = outcome_of e').
  { unfold outcome_of. rewrite Hs, Hs', <- Hn.
    rewrite (not_error_status_test _ He), (not_error_status_test _ He').
    unfold dict_get. now rewrite H, H'. }
  rewrite !main_outcome, !log_eta_outcome, Ho, Hn. now split.
Qed.

(** ** Reading the log back *)

Lemma csv_field_render v : csv_field v = render (field_text v).
Proof. reflexivity. Qed.

Lemma special_false c :
  special c = false ->
  Ascii.eqb c "," = false /\ Ascii.eqb c quotechar = false /\
  Ascii.eqb c CR = false /\ Ascii.eqb c LF = false.
Proof.
  unfold special. intros H.
  apply orb_false_iff in H. destruct H as [H H4].
  apply orb_false_iff in H. destruct H as [H H3].
  apply orb_false_iff in H. destruct H as [H1 H2]. auto.
Qed.

Lemma read_bare st t acc fields rest :
  needs_quotes t = false -> st <> InQuotes -> st <> AfterQuote ->
  t <> EmptyString ->
  read_record st acc fields (t ++ rest) =
    read_record InBare (rev (list_ascii_of_string t) ++ acc) fields rest.
Proof.
  revert st acc. induction t as [|c t IH]; intros st acc Hq Hs1 Hs2 Hne.
  - congruence.
  - simpl in Hq. apply orb_false_iff in Hq. destruct Hq as [Hc Hq].
    destruct (special_false c Hc) as [H1 [H2 [H3 H4]]].
    assert (Hstep : read_record st acc fields (String c t ++ rest) =
                    read_record InBare (c :: acc) fields (t ++ rest)).
    { simpl. rewrite H1, H3, H2, H4. destruct st; congruence. }
    rewrite Hstep. destruct t as [|c' t].
    + simpl. reflexivity.
    + rewrite IH; try congruence.
      simpl. now rewrite <- !app_assoc.
Qed.

Lemma read_quoted t acc fields rest :
  read_record InQuotes acc fields (double_quotes t ++ String quotechar rest) =
    read_record AfterQuote (rev (list_ascii_of_string t) ++ acc) fields rest.
Proof.
  revert acc. induction t as [|c t IH]; intros acc.
  - reflexivity.
  - simpl double_quotes. destruct (Ascii.eqb c quotechar) eqn:Hc.
    + apply Ascii.eqb_eq in Hc. subst c.
      change (String quotechar (String quotechar (double_quotes t)) ++ String quotechar rest)
        with (String quotechar (String quotechar (double_quotes t ++ String quotechar rest))).
      cbn [read_record]. rewrite Ascii.eqb_refl.
      change (Ascii.eqb quotechar ",") with false.
      change (Ascii.eqb quotechar CR) with false. cbv iota.
      rewrite IH. simpl. now rewrite <- app_assoc.
    + change (String c (double_quotes t) ++ String quotechar rest)
        with (String c (double_quotes t ++ String quotechar rest)).
      cbn [read_record]. rewrite Hc. rewrite IH. simpl. now rewrite <- app_assoc.
Qed.

Lemma close_rev t : close_field (rev (list_ascii_of_string t) ++ []) = t.
Proof.
  unfold close_field. rewrite app_nil_r, rev_involutive.
  apply string_of_list_ascii_of_string.
Qed.

(** After the text of a field the reader holds the field and is outside
    quotes. *)
Lemma read_field t :
  exists st, st <> InQuotes /\
    forall fields rest,
      read_record AtStart [] fields (render t ++ rest) =
        read_record st (rev (list_ascii_of_string t) ++ []) fields rest.
Proof.
  unfold render. destruct (needs_quotes t) eqn:Hq.
  - exists AfterQuote. split; [discriminate|]. intros fields rest.
    rewrite append_assoc.
    change (String quotechar (double_quotes t) ++ String quotechar EmptyString ++ rest)
      with (String quotechar (double_quotes t ++ String quotechar rest)).
    cbn [read_record].
    change (Ascii.eqb quotechar ",") with false.
    change (Ascii.eqb quotechar CR) with false.
    rewrite Ascii.eqb_refl. cbv iota.
    apply read_quoted.
  - destruct t as [|c t].
    + exists AtStart. split; [discriminate|]. reflexivity.
    + exists InBare. split; [discriminate|]. intros fields rest.
      apply read_bare; congruence.
Qed.

Lemma read_comma st acc fields rest :
  st <> InQuotes ->
  read_record st acc fields (String "," rest) =
    read_record AtStart [] (close_field acc :: fields) rest.
Proof. intros H. destruct st; try congruence; reflexivity. Qed.

Lemma read_end st acc fields rest :
  st <> InQuotes ->
  read_record st acc fields (lineterminator ++ rest) =
    Some (rev (close_field acc :: fields), rest).
Proof. intros H. destruct st; try congruence; reflexivity. Qed.

Lemma read_joined ts fields rest :
  ts <> [] ->
  read_record AtStart [] fields (join "," (map render ts) ++ lineterminator ++ rest) =
    Some ((rev fields ++ ts)%list, rest).
Proof.
  revert fields. induction ts as [|t ts IH]; intros fields Hne; [congruence|].
  destruct (read_field t) as [st [Hst Hread]].
  destruct ts as [|t' ts].
  - cbn [map join]. rewrite Hread, (read_end st _ _ _ Hst), close_rev.
    simpl. reflexivity.
  - change (join "," (map render (t :: t' :: ts)))
      with (render t ++ "," ++ join "," (map render (t' :: ts))).
    rewrite !append_assoc. rewrite Hread.
    change ("," ++ join "," (map render (t' :: ts)) ++ lineterminator ++ rest)
      with (String "," (join "," (map render (t' :: ts)) ++ lineterminator ++ rest)).
    rewrite (read_comma st _ _ _ Hst), close_rev.
    rewrite IH by discriminate. simpl. now rewrite <- app_assoc.
Qed.

(** The reader takes a written line apart into the texts of its fields. *)
Lemma read_csv_line fields rest :
  fields <> [] ->
  read_record AtStart [] [] (csv_line fields ++ rest) = Some (texts fields, rest).
Proof.
  intros Hne. unfold csv_line, texts. rewrite append_assoc.
  replace (map csv_field fields) with (map render (map field_text fields))
    by (rewrite map_map; reflexivity).
  rewrite read_joined; [reflexivity|].
  destruct fields; [congruence | discriminate].
Qed.

Lemma csv_line_length fields : (1 <= String.length (csv_line fields))%nat.
Proof.
  unfold csv_line. rewrite length_append. simpl. lia.
Qed.

Lemma read_records_lines (ls : list (list value)) fuel :
  Forall (fun l => l <> []) ls ->
  (List.length ls <= fuel)%nat ->
  read_records fuel (fold_right String.append EmptyString (map csv_line ls)) =
    Some (map texts ls).
Proof.
  intros H. revert fuel. induction H as [|l ls Hl _ IH]; intros fuel Hfuel.
  - destruct fuel; reflexivity.
  - cbn [map fold_right].
    assert (Hread := read_csv_line l
              (fold_right String.append EmptyString (map csv_line ls)) Hl).
    destruct (csv_line l ++ fold_right String.append EmptyString (map csv_line ls))
      as [|c s] eqn:E; [discriminate|].
    destruct fuel as [|fuel]; [simpl in Hfuel; lia|].
    cbn [read_records]. rewrite Hread. rewrite IH by (simpl in Hfuel; lia).
    reflexivity.
Qed.

Lemma lines_length (ls : list (list value)) :
  (List.length ls <=
   String.length (fold_right String.append EmptyString (map csv_line ls)))%nat.
Proof.
  induction ls as [|l ls IH]; simpl; [lia|].
  rewrite length_append. pose proof (csv_line_length l). lia.
Qed.

Lemma read_log_lines (ls : list (list value)) :
  Forall (fun l => l <> []) ls ->
  read_log (fold_right String.append EmptyString (map csv_line ls)) =
    Some (map texts ls).
Proof.
  intros H. unfold read_log. apply read_records_lines; [exact H|].
  apply lines_length.
Qed.

Lemma read_log_rows rows :
  read_log (header_line ++ lines rows) =
    Some (fieldnames :: map (fun r => texts (row_values r)) rows).
Proof.
  pose proof (read_log_lines (map VStr fieldnames :: map row_values rows)) as H.
  cbn [map fold_right] in H. unfold lines, header_line, row_line.
  rewrite map_map in H. rewrite H.
  - now rewrite map_map.
  - constructor; [discriminate|]. apply Forall_forall. intros l Hin.
    apply in_map_iff in Hin. destruct Hin as [r [<- _]]. discriminate.
Qed.

(** *** The lines of the runs *)







(** X10.  The log can be read back without ambiguity.  A reader of the
    writer's format takes the line of a row apart into the seven texts
    that were written, whatever follows the line and whatever commas,
    quotes and line breaks the texts hold; a log made of the header and
    the lines of some rows reads back as the column names followed by the
    texts of each row.  So two rows with the same line have the same
    texts, and two lists of rows with the same log have the same texts. *)
Theorem log_reads_back :
  (forall r rest,
     read_record AtStart [] [] (row_line r ++ rest) =
       Some (texts (row_values r), rest)) /\
  (forall rows,
     read_log (header_line ++ lines rows) =
       Some (fieldnames :: map (fun r => texts (row_values r)) rows)) /\
  (forall r r' rest rest',
     row_line r ++ rest = row_line r' ++ rest' ->
     texts (row_values r) = texts (row_values r') /\ rest = rest') /\
  (forall rows rows',
     header_line ++ lines rows = header_line ++ lines rows' ->
     map (fun r => texts (row_values r)) rows =
     map (fun r => texts (row_values r)) rows').
Proof.
  assert (H1 : forall r rest,
     read_record AtStart [] [] (row_line r ++ rest) =
       Some (texts (row_values r), rest)).
  { intros r rest. apply read_csv_line. discriminate. }
  split; [exact H1|]. split; [exact read_log_rows|]. split.
  - intros r r' rest rest' E.
    pose proof (H1 r rest) as Hr. rewrite E, H1 in Hr.
    assert (Hp : (texts (row_values r'), rest') = (texts (row_values r), rest))
      by congruence.
    split; [exact (eq_sym (f_equal fst Hp)) | exact (eq_sym (f_equal snd Hp))].
  - intros rows rows' E.
    pose proof (read_log_rows rows) as Hr. rewrite E, read_log_rows in Hr.
    assert (Hp : fieldnames :: map (fun r => texts (row_values r)) rows' =
                 fieldnames :: map (fun r => texts (row_values r)) rows)
      by congruence.
    exact (eq_sym (f_equal (@tl _) Hp)).
Qed.

(** *** The log after any runs *)

Lemma main_log e w :
  log_file (main e w) =
    match outcome_of e with
    | Logged r => Some (match log_file w with
                        | Some s => s ++ row_line r
                        | None => header_line ++ row_line r
                        end)
    | Unwritten _ => Some (match log_file w with
                           | Some s => s
                           | None => header_line
                           end)
    | _ => log_file w
    end.
Proof. rewrite main_outcome. now destruct (outcome_of e). Qed.

Lemma lines_app rows rows' : lines (rows ++ rows') = lines rows ++ lines rows'.
Proof.
  unfold lines. induction rows as [|r rows IH]; cbn [app map fold_right];
    [reflexivity | now rewrite IH, append_assoc].
Qed.

Lemma lines_one r : lines [r] = row_line r.
Proof. unfold lines. cbn [map fold_right]. apply append_empty. Qed.

Lemma logged_rows_cons e es :
  logged_rows (e :: es) =
    (match outcome_of e with Logged r => [r] | _ => [] end ++ logged_rows es)%list.
Proof. reflexivity. Qed.

Lemma logged_rows_length es : (List.length (logged_rows es) <= List.length es)%nat.
Proof.
  induction es as [|e es IH]; [apply Nat.le_refl|].
  rewrite logged_rows_cons, length_app. cbn [List.length].
  destruct (outcome_of e); cbn [List.length]; lia.
Qed.

Lemma runs_log_some es rows w :
  log_file w = Some (header_line ++ lines rows) ->
  log_file (runs es w) = Some (header_line ++ lines (rows ++ logged_rows es)).
Proof.
  revert rows w. induction es as [|e es IH]; intros rows w Hw.
  - cbn [runs]. unfold logged_rows. cbn [flat_map]. now rewrite app_nil_r.
  - cbn [runs]. rewrite logged_rows_cons.
    pose proof (main_log e w) as Hm. rewrite Hw in Hm.
    destruct (outcome_of e) as [| |r|ex|ex|r]; cbn [app];
      try (now apply IH).
    rewrite (IH (rows ++ [r])%list).
    + now rewrite <- app_assoc.
    + now rewrite Hm, lines_app, lines_one, append_assoc.
Qed.

Lemma runs_log_none es w :
  log_file w = None ->
  (log_file (runs es w) = None /\ logged_rows es = []) \/
  log_file (runs es w) = Some (header_line ++ lines (logged_rows es)).
Proof.
  revert w. induction es as [|e es IH]; intros w Hw.
  - left. now split.
  - cbn [runs]. rewrite logged_rows_cons.
    pose proof (main_log e w) as Hm. rewrite Hw in Hm.
    destruct (outcome_of e) as [| |r|ex|ex|r]; cbn [app];
      try (now apply IH).
    + right. apply (runs_log_some es [r]). now rewrite Hm, lines_one.
    + right. apply (runs_log_some es []).
      rewrite Hm. unfold lines. cbn [map fold_right]. now rewrite append_empty.
Qed.

(** The row a run logs is the row of a route, built at the time of the
    run. *)
Lemma logged_row_route e r :
  outcome_of e = Logged r -> exists first, route_row (now e) first = Ok r.
Proof.
  unfold outcome_of.
  destruct (within_window (now e)); [|discriminate].
  destruct (service e) as [|status_code text json|ex]; try discriminate.
  destruct ((400 <=? status_code) && (status_code <? 600)); [discriminate|].
  destruct json as [data|]; [|discriminate].
  destruct (dict_get data "routes" (VList [])) as [routes|]; [|discriminate].
  destruct (truthy routes); [|discriminate].
  destruct (r <- getitem0 routes ;; route_row (now e) r)%result as [row|] eqn:Hr;
    [|discriminate].
  destruct (encodable (route_description row)); [|discriminate].
  intros [= <-]. apply bind_ok in Hr. destruct Hr as [first [_ Hr]].
  now exists first.
Qed.

Lemma logged_row_fields e r :
  outcome_of e = Logged r ->
  timestamp r = Fmt.isoformat (now e) /\ origin r = ORIGIN /\
  destination r = DESTINATION.
Proof.
  intros H. destruct (logged_row_route e r H) as [first Hr].
  apply route_row_inv in Hr. tauto.
Qed.

(** X11.  Whatever the runs are, skipped, failed or logging, the log they
    leave on a path where no file existed is well formed: either no run
    has written and there is still no file, or the file reads back as the
    seven column names followed by one record of seven fields for each run
    that logged a row, in the order of the runs, the first three fields
    being the time of a run and the two addresses.  A run that raises on a
    row that cannot be encoded leaves the header and no record. *)
Theorem runs_read_back es w :
  log_file w = None ->
  match log_file (runs es w) with
  | None => logged_rows es = []
  | Some text =>
      read_log text =
        Some (fieldnames :: map (fun r => texts (row_values r)) (logged_rows es))
  end /\
  (List.length (logged_rows es) <= List.length es)%nat /\
  Forall (fun r =>
    exists e, In e es /\ outcome_of e = Logged r /\
      texts (row_values r) =
        [Fmt.isoformat (now e); ORIGIN; DESTINATION;
         py_str (VFloat (distance_mi r)); py_str (VFloat (eta_min r));
         py_str (VFloat (freeflow_min r)); field_text (route_description r)])
    (logged_rows es).
Proof.
  intros Hn. split; [|split].
  - destruct (runs_log_none es w Hn) as [[E1 E2] | E].
    + now rewrite E1.
    + rewrite E. apply read_log_rows.
  - apply logged_rows_length.
  - apply Forall_forall. intros r Hin. unfold logged_rows in Hin.
    apply in_flat_map in Hin. destruct Hin as [e [He Hin]].
    exists e. split; [exact He|].
    destruct (outcome_of e) as [| |r'|ex|ex|r'] eqn:Ho; try contradiction.
    destruct Hin as [<- | []]. split; [reflexivity|].
    destruct (logged_row_fields e r' Ho) as [Ht [Hor Hd]].
    unfold texts, row_values. cbn [map field_text]. now rewrite Ht, Hor, Hd.
Qed.

(** ** Accuracy of the unit conversion *)

Lemma digits2_unique p k :
  2 ^ (k - 1) <= Zpos p < 2 ^ k -> 0 < k -> Zpos (digits2_pos p) = k.
Proof.
  intros [Hl Hu] Hk. pose proof (digits2_bounds p) as [Hl' Hu'].
  set (d := Zpos (digits2_pos p)) in *.
  destruct (Z.lt_trichotomy d k) as [H | [H | H]]; [|exact H|].
  - assert (2 ^ d <= 2 ^ (k - 1)) by (apply Z.pow_le_mono_r; lia). lia.
  - assert (2 ^ k <= 2 ^ (d - 1)) by (apply Z.pow_le_mono_r; lia). lia.
Qed.

Lemma new_location_loc d r :
  0 <= r < d -> new_location d r = loc_of r d.
Proof.
  intros Hr. unfold new_location, new_location_even, new_location_odd, loc_of.
  destruct (Z.even d) eqn:He; [reflexivity|].
  destruct (r =? 0); [reflexivity|]. f_equal.
  assert (Ho : Z.odd d = true) by (rewrite <- Z.negb_even, He; reflexivity).
  apply Z.odd_spec in Ho. destruct Ho as [c Hc].
  destruct (Z.compare_spec (2 * r + 1) d); destruct (Z.compare_spec (2 * r) d);
    try reflexivity; lia.
Qed.

Lemma loc_record m l : loc_of_shr_record (shr_record_of_loc m l) = l.
Proof. destruct l as [|[| |]]; reflexivity. Qed.

Lemma record_m m l : shr_m (shr_record_of_loc m l) = m.
Proof. destruct l as [|[| |]]; reflexivity. Qed.

(** Rounding to nearest moves by half a unit at most. *)
Lemma round_nearest_even_loc m a b :
  0 <= a < b ->
  let m' := round_nearest_even m (loc_of a b) in
  (m' = m \/ m' = m + 1) /\ 2 * Z.abs (m' * b - (m * b + a)) <= b.
Proof.
  intros Ha. unfold loc_of, round_nearest_even.
  destruct (Z.eqb_spec a 0) as [->|Hne].
  - split; [now left | lia].
  - destruct (Z.compare_spec (2 * a) b).
    + destruct (Z.even m); split; auto; nia.
    + split; auto; nia.
    + split; auto; nia.
Qed.

(** One step of [shr_1] halves the mantissa and keeps the location. *)
Lemma shr_1_loc m a b :
  0 < m -> 0 <= a < b ->
  let mrs := shr_1 (shr_record_of_loc m (loc_of a b)) in
  shr_m mrs = m / 2 /\
  loc_of_shr_record mrs = loc_of ((m mod 2) * b + a) (2 * b).
Proof.
  intros Hm Ha. 
  assert (Hdiv : forall p, Zpos p~0 / 2 = Zpos p /\ Zpos p~0 mod 2 = 0).
  { intros p. rewrite Pos2Z.inj_xO. split.
    - rewrite Z.mul_comm. apply Z.div_mul. lia.
    - rewrite Z.mul_comm. apply Z.mod_mul. lia. }
  assert (Hdiv1 : forall p, Zpos p~1 / 2 = Zpos p /\ Zpos p~1 mod 2 = 1).
  { intros p. rewrite Pos2Z.inj_xI. split.
    - rewrite Z.mul_comm, Z.div_add_l by lia. change (1 / 2) with 0. lia.
    - rewrite Z.add_comm, Z.mul_comm, Z.mod_add by lia. reflexivity. }
  unfold loc_of.
  destruct m as [|p|p]; [lia| |lia].
  destruct (Z.eqb_spec a 0) as [->|Hne].
  - destruct p as [p|p|].
    + destruct (Hdiv1 p) as [-> ->]. simpl shr_1. cbn [shr_m loc_of_shr_record].
      split; [reflexivity|].
      destruct (Z.eqb_spec (1 * b + 0) 0); [lia|].
      f_equal. symmetry. apply Z.compare_eq_iff. lia.
    + destruct (Hdiv p) as [-> ->]. simpl shr_1. cbn [shr_m loc_of_shr_record].
      split; reflexivity.
    + simpl shr_1. cbn [shr_m loc_of_shr_record]. split; [reflexivity|].
      change (1 mod 2) with 1.
      destruct (Z.eqb_spec (1 * b + 0) 0); [lia|].
      f_equal. symmetry. apply Z.compare_eq_iff. lia.
  - assert (Hlocs : forall c, orb (match c with Eq | Gt => true | Lt => false end)
                               (match c with Lt | Gt => true | Eq => false end) = true)
      by (intros []; reflexivity).
    destruct p as [p|p|].
    + destruct (Hdiv1 p) as [-> ->].
      destruct (2 * a ?= b) eqn:E; simpl shr_1; cbn [shr_m loc_of_shr_record];
        (split; [reflexivity|]);
        (destruct (Z.eqb_spec (1 * b + a) 0); [lia|]);
        f_equal; symmetry; apply Z.compare_gt_iff; lia.
    + destruct (Hdiv p) as [-> ->].
      destruct (2 * a ?= b) eqn:E; simpl shr_1; cbn [shr_m loc_of_shr_record];
        (split; [reflexivity|]);
        (destruct (Z.eqb_spec (0 * b + a) 0); [lia|]);
        f_equal; symmetry; apply Z.compare_lt_iff; lia.
    + change (1 / 2) with 0. change (1 mod 2) with 1.
      destruct (2 * a ?= b) eqn:E; simpl shr_1; cbn [shr_m loc_of_shr_record];
        (split; [reflexivity|]);
        (destruct (Z.eqb_spec (1 * b + a) 0); [lia|]);
        f_equal; symmetry; apply Z.compare_gt_iff; lia.
Qed.

Lemma Zdigits2_range m k :
  2 ^ (k - 1) <= m < 2 ^ k -> 0 < k -> Zdigits2 m = k.
Proof.
  intros H Hk. assert (0 < 2 ^ (k - 1)) by (apply Z.pow_pos_nonneg; lia).
  destruct m as [|p|p]; try lia. simpl. now apply digits2_unique.
Qed.

Lemma shr_fexp_keep m e l :
  2 ^ 52 <= m < 2 ^ 53 -> -1074 <= e ->
  shr_fexp 53 1024 m e l = (shr_record_of_loc m l, e).
Proof.
  intros Hm He. unfold shr_fexp. rewrite (Zdigits2_range m 53) by lia.
  replace (fexp 53 1024 (53 + e) - e) with 0 by (unfold fexp, emin; lia).
  reflexivity.
Qed.

Lemma shr_fexp_once m e l :
  2 ^ 53 <= m < 2 ^ 54 -> -1075 <= e ->
  shr_fexp 53 1024 m e l = (shr_1 (shr_record_of_loc m l), e + 1).
Proof.
  intros Hm He. unfold shr_fexp. rewrite (Zdigits2_range m 54) by lia.
  replace (fexp 53 1024 (54 + e) - e) with 1 by (unfold fexp, emin; lia).
  reflexivity.
Qed.

(** The last step of rounding: a mantissa of 53 bits is kept, the mantissa
    2^53 is halved. *)
Lemma round_finish s m1 e1 :
  2 ^ 52 <= m1 <= 2 ^ 53 -> -1074 <= e1 <= 970 ->
  exists m e,
    (let '(mrs, e'') := shr_fexp 53 1024 m1 e1 loc_Exact in
     match shr_m mrs with
     | Z0 => S754_zero s
     | Zpos m => if e'' <=? 1024 - 53 then S754_finite s m e'' else S754_infinity s
     | Zneg _ => S754_nan
     end) = S754_finite s m e /\
    e1 <= e <= e1 + 1 /\ Zpos m * 2 ^ (e - e1) = m1 /\ 2 ^ 52 <= Zpos m < 2 ^ 53.
Proof.
  intros Hm He. destruct (Z.eq_dec m1 (2 ^ 53)) as [->|Hne].
  - rewrite shr_fexp_once by lia.
    exists (Z.to_pos (2 ^ 52)), (e1 + 1). split; [|split; [lia|split]].
    + change (shr_m (shr_1 (shr_record_of_loc (2 ^ 53) loc_Exact)))
        with (Zpos (Z.to_pos (2 ^ 52))).
      destruct (Z.leb_spec (e1 + 1) (1024 - 53)); [reflexivity | lia].
    + replace (e1 + 1 - e1) with 1 by lia. reflexivity.
    + change (Zpos (Z.to_pos (2 ^ 52))) with (2 ^ 52). lia.
  - rewrite shr_fexp_keep by lia. cbn [shr_record_of_loc shr_m].
    assert (0 < 2 ^ 52) by (apply Z.pow_pos_nonneg; lia).
    destruct m1 as [|p|p]; try lia.
    exists p, e1. split; [|split; [lia|split]].
    + destruct (Z.leb_spec e1 (1024 - 53)); [reflexivity | lia].
    + replace (e1 - e1) with 0 by lia. simpl. lia.
    + lia.
Qed.

(** Rounding a quotient of 53 or 54 bits: the result is a float within
    half a unit of the last place of the quotient. *)
Lemma round_aux_near s q e0 a b :
  2 ^ 52 <= q < 2 ^ 54 -> -1074 <= e0 <= 960 -> 0 <= a < b ->
  exists m e j,
    binary_round_aux 53 1024 s q e0 (loc_of a b) = S754_finite s m e /\
    0 <= j <= 1 /\ e0 + j <= e <= e0 + j + 1 /\
    2 ^ 52 <= Zpos m < 2 ^ 53 /\
    2 * Z.abs (Zpos m * 2 ^ (e - e0) * b - (q * b + a)) <= b * 2 ^ j.
Proof.
  intros Hq He Ha. unfold binary_round_aux.
  destruct (Z_lt_ge_dec q (2 ^ 53)) as [Hlt|Hge].
  - rewrite shr_fexp_keep by lia. rewrite record_m, loc_record.
    destruct (round_nearest_even_loc q a b Ha) as [Hm1 Herr].
    set (m1 := round_nearest_even q (loc_of a b)) in *.
    destruct (round_finish s m1 e0) as [m [e [Hres [He' [Hval Hmb]]]]]; [lia|lia|].
    exists m, e, 0. rewrite Hres. split; [reflexivity|].
    split; [lia|]. split; [lia|]. split; [lia|].
    rewrite Hval. simpl (2 ^ 0). lia.
  - rewrite shr_fexp_once by lia.
    destruct (shr_1_loc q a b) as [Hm' Hloc]; [lia|lia|].
    rewrite Hm', Hloc.
    assert (Hqd := Z.div_mod q 2 ltac:(lia)).
    assert (Hqm := Z.mod_pos_bound q 2 ltac:(lia)).
    assert (Ha' : 0 <= q mod 2 * b + a < 2 * b) by nia.
    destruct (round_nearest_even_loc (q / 2) _ _ Ha') as [Hm1 Herr].
    set (m1 := round_nearest_even (q / 2) (loc_of (q mod 2 * b + a) (2 * b))) in *.
    assert (Hq2 : 2 ^ 52 <= q / 2 < 2 ^ 53).
    { change (2 ^ 53) with (2 * 2 ^ 52) in Hge.
      change (2 ^ 54) with (2 * 2 ^ 53) in Hq. lia. }
    destruct (round_finish s m1 (e0 + 1)) as [m [e [Hres [He' [Hval Hmb]]]]]; [lia|lia|].
    exists m, e, 1. rewrite Hres. split; [reflexivity|].
    split; [lia|]. split; [lia|]. split; [lia|].
    replace (e - e0) with ((e - (e0 + 1)) + 1) by lia.
    rewrite Z.pow_add_r by lia. change (2 ^ 1) with 2.
    rewrite Z.mul_assoc, Hval. nia.
Qed.

(** The core of the division: the quotient of two mantissas is rounded to
    a float within half a unit of its last place. *)
Lemma div_core_near sgn n e1 d e2 :
  let s := Zpos (digits2_pos d) + 53 - Zpos (digits2_pos n) in
  0 <= s -> -1074 <= e1 - e2 - s <= 960 ->
  exists m e j,
    (let '(q, e', l) := SFdiv_core_binary 53 1024 (Zpos n) e1 (Zpos d) e2 in
     binary_round_aux 53 1024 sgn q e' l) = S754_finite sgn m e /\
    0 <= j <= 1 /\ j <= e - (e1 - e2 - s) <= j + 1 /\
    2 ^ 52 <= Zpos m < 2 ^ 53 /\
    2 * Z.abs (Zpos m * 2 ^ (e - (e1 - e2 - s)) * Zpos d - Zpos n * 2 ^ s)
      <= Zpos d * 2 ^ j.
Proof.
  intros s Hs He0.
  pose proof (digits2_bounds n) as Hn. pose proof (digits2_bounds d) as Hd.
  set (d1 := Zpos (digits2_pos n)) in *. set (d2 := Zpos (digits2_pos d)) in *.
  assert (Hd1 : 0 < d1) by (unfold d1; lia).
  assert (Hd2 : 0 < d2) by (unfold d2; lia).
  unfold SFdiv_core_binary, Zdigits2.
  fold d1 d2. cbv zeta.
  replace (Z.min (fexp 53 1024 (d1 + e1 - (d2 + e2))) (e1 - e2)) with (e1 - e2 - s)
    by (unfold fexp, emin, s; lia).
  replace (e1 - e2 - (e1 - e2 - s)) with s by lia.
  assert (Hm' : match s with
                | 0 => Zpos n
                | Zpos _ => Z.shiftl (Zpos n) s
                | Zneg _ => 0
                end = Zpos n * 2 ^ s).
  { destruct s as [|k|k] eqn:E; [simpl; lia | | lia].
    now rewrite Z.shiftl_mul_pow2 by lia. }
  rewrite Hm'.
  pose proof (Z_div_mod (Zpos n * 2 ^ s) (Zpos d) ltac:(lia)) as Hdm.
  destruct (Z.div_eucl (Zpos n * 2 ^ s) (Zpos d)) as [q r].
  destruct Hdm as [Hq Hr].
  rewrite (new_location_loc (Zpos d) r) by lia.
  assert (Hp : 0 < 2 ^ s) by (apply Z.pow_pos_nonneg; lia).
  assert (Hlo : 2 ^ (d1 - 1) * 2 ^ s = 2 ^ 52 * 2 ^ d2).
  { rewrite <- !Z.pow_add_r by lia. f_equal. unfold s. lia. }
  assert (Hhi : 2 ^ d1 * 2 ^ s = 2 ^ 53 * 2 ^ d2).
  { rewrite <- !Z.pow_add_r by lia. f_equal. unfold s. lia. }
  assert (H2d : 2 ^ d2 = 2 * 2 ^ (d2 - 1)).
  { rewrite <- Z.pow_succ_r by lia. f_equal. lia. }
  assert (Hqb : 2 ^ 52 <= q < 2 ^ 54).
  { change (2 ^ 54) with (2 * 2 ^ 53). split; nia. }
  destruct (round_aux_near sgn q (e1 - e2 - s) r (Zpos d)) as [m [e [j H]]];
    [lia|lia|lia|].
  destruct H as [Hres [Hj [He [Hmb Herr]]]].
  exists m, e, j. rewrite Hres. split; [reflexivity|].
  split; [lia|]. split; [lia|]. split; [lia|].
  replace (Zpos n * 2 ^ s) with (q * Zpos d + r) by lia. exact Herr.
Qed.

(** The quotient of two positive integers as a float: it is within half a
    unit of its last place of the exact quotient. *)
Lemma round_ratio_near sgn n d :
  let s := Zpos (digits2_pos d) + 53 - Zpos (digits2_pos n) in
  0 <= s <= 1074 ->
  exists m e j,
    Float.round_ratio sgn n d = S754_finite sgn m e /\
    0 <= j <= 1 /\ j - s <= e <= j + 1 - s /\
    2 ^ 52 <= Zpos m < 2 ^ 53 /\
    2 * Z.abs (Zpos m * 2 ^ (e + s) * Zpos d - Zpos n * 2 ^ s) <= Zpos d * 2 ^ j.
Proof.
  intros s Hs.
  destruct (div_core_near sgn n 0 d 0) as [m [e [j H]]]; [lia|lia|].
  fold s in H. destruct H as [Hres [Hj [He [Hmb Herr]]]].
  exists m, e, j. unfold Float.round_ratio, Float.prec, Float.emax.
  split; [exact Hres|]. split; [lia|]. split; [lia|]. split; [lia|].
  replace (e + s) with (e - (0 - 0 - s)) by lia. exact Herr.
Qed.

Lemma digits2_le p k : Zpos p < 2 ^ k -> 0 <= k -> Zpos (digits2_pos p) <= k.
Proof.
  intros Hp Hk. pose proof (digits2_bounds p) as [Hl _].
  destruct (Z_le_gt_dec (Zpos (digits2_pos p)) k) as [H|H]; [exact H|].
  assert (2 ^ k <= 2 ^ (Zpos (digits2_pos p) - 1)) by (apply Z.pow_le_mono_r; lia).
  lia.
Qed.

Lemma round_ratio_finite sgn n d :
  Zpos n < 2 ^ 53 -> Zpos d < 2 ^ 1000 ->
  exists m e, Float.round_ratio sgn n d = S754_finite sgn m e.
Proof.
  intros Hn Hd.
  pose proof (digits2_le n 53 Hn ltac:(lia)) as H1.
  pose proof (digits2_le d 1000 Hd ltac:(lia)) as H2.
  pose proof (Pos2Z.is_pos (digits2_pos n)) as H3.
  pose proof (Pos2Z.is_pos (digits2_pos d)) as H4.
  destruct (round_ratio_near sgn n d) as [m [e [j [H _]]]]; [lia|eauto].
Qed.

Lemma div_half_even_nonneg n d : 0 <= n -> 0 < d -> 0 <= Float.div_half_even n d.
Proof.
  intros Hn Hd. unfold Float.div_half_even.
  assert (0 <= n / d) by (apply Z.div_pos; lia).
  destruct (2 * (n mod d) ?= d); [destruct (Z.even (n / d))| |]; lia.
Qed.

(** [round(n / 60, 1)] for a duration below 2^50 seconds: the float of a
    number of tenths [k] within 0.05 of [n / 60]. *)
Lemma minutes_near n :
  0 <= n < 2 ^ 50 ->
  exists k,
    bind (int_truediv n 60) (fun q => py_round q 1) =
      Ok (Float.of_decimal false k (-1)) /\
    0 <= k /\ Z.abs (6 * k - n) <= 3.
Proof.
  intros [H0 Hn]. destruct n as [|p|p]; [|clear H0|lia].
  { exists 0. repeat split; simpl; lia. }
  assert (Hd1 : Zpos (digits2_pos p) <= 50) by (apply digits2_le; lia).
  pose proof (Pos2Z.is_pos (digits2_pos p)) as Hpos.
  destruct (round_ratio_near false p 60) as [m [e [j H]]];
    [change (Zpos (digits2_pos 60)) with 6; lia|].
  change (Zpos (digits2_pos 60)) with 6 in H.
  destruct H as [Hres [Hj [He [Hmb Herr]]]].
  set (s := 6 + 53 - Zpos (digits2_pos p)) in *.
  unfold int_truediv. cbn [Z.ltb Z.compare xorb Z.abs Z.to_pos].
  rewrite Hres. cbn [bind].
  destruct e as [|b|b]; [lia|lia|].
  unfold py_round, Float.round.
  change (10 ^ Z.of_N 1) with 10. change (- Z.of_N 1) with (-1).
  set (k := Float.div_half_even (Zpos m * 10) (2 ^ Zpos b)).
  assert (HB : 0 < 2 ^ Zpos b) by (apply Z.pow_pos_nonneg; lia).
  assert (Hk0 : 0 <= k) by (apply div_half_even_nonneg; lia).
  assert (Hkerr := div_half_even_nearest (Zpos m * 10) (2 ^ Zpos b) HB).
  fold k in Hkerr.
  assert (HS : 2 ^ s = 2 ^ (Zneg b + s) * 2 ^ Zpos b).
  { rewrite <- Z.pow_add_r by lia. f_equal. lia. }
  assert (HT : 0 < 2 ^ (Zneg b + s)) by (apply Z.pow_pos_nonneg; lia).
  assert (HS9 : 2 ^ 9 <= 2 ^ s) by (apply Z.pow_le_mono_r; lia).
  assert (Hj2 : 2 ^ j <= 2) by (change 2 with (2 ^ 1) at 2; apply Z.pow_le_mono_r; lia).
  assert (Hgoal : Z.abs (6 * k - Zpos p) <= 3).
  { set (T := 2 ^ (Zneg b + s)) in *. set (B := 2 ^ Zpos b) in *. set (S := 2 ^ s) in *.
    change (2 ^ 9) with 512 in HS9.
    assert (E : 10 * S * (6 * k - Zpos p) =
                60 * T * (k * B - Zpos m * 10) + 10 * (Zpos m * T * 60 - Zpos p * S))
      by (rewrite HS; ring).
    assert (E1 : 2 * Z.abs (60 * T * (k * B - Zpos m * 10)) <= 60 * S).
    { rewrite Z.abs_mul, (Z.abs_eq (60 * T)) by lia. rewrite HS. nia. }
    assert (E2 : Z.abs (10 * (Zpos m * T * 60 - Zpos p * S)) <= 600).
    { rewrite Z.abs_mul. change (Z.abs 10) with 10. lia. }
    assert (E3 : Z.abs (10 * S * (6 * k - Zpos p)) <= 30 * S + 600).
    { rewrite E. eapply Z.le_trans; [apply Z.abs_triangle|]. lia. }
    rewrite Z.abs_mul, (Z.abs_eq (10 * S)) in E3 by lia.
    destruct (Z_le_gt_dec (Z.abs (6 * k - Zpos p)) 3) as [Hle|Hgt]; [exact Hle|].
    nia. }
  exists k. split; [|split; [exact Hk0 | exact Hgoal]].
  destruct k as [|kp|kp]; [reflexivity| |lia].
  unfold Float.of_decimal.
  destruct (round_ratio_finite false kp (10 ^ 1)) as [m' [e' Hr]].
  - assert (Zpos kp < 2 ^ 50) by lia. 
    assert (2 ^ 50 < 2 ^ 53) by (apply Z.pow_lt_mono_r; lia). lia.
  - change (Zpos (10 ^ 1)) with 10.
    assert (2 ^ 4 <= 2 ^ 1000) by (apply Z.pow_le_mono_r; lia).
    change (2 ^ 4) with 16 in *. lia.
  - rewrite Hr. reflexivity.
Qed.


(** An integer of at most 53 bits as a float: the mantissa is the integer
    shifted to 53 bits. *)
Lemma of_Z_value p :
  Zpos p < 2 ^ 53 ->
  exists m k,
    Float.of_Z (Zpos p) = S754_finite false m (- k) /\
    Zpos m = Zpos p * 2 ^ k /\ Zpos (digits2_pos m) = 53 /\
    k = 53 - Zpos (digits2_pos p) /\ 0 <= k.
Proof.
  intros Hp.
  assert (Hd : Zpos (digits2_pos p) <= 53) by (apply digits2_le; lia).
  unfold Float.of_Z, binary_normalize, binary_round, shl_align.
  unfold fexp at 1, emin, Float.prec, Float.emax.
  replace (Z.max (Zpos (digits2_pos p) + 0 - 53) (3 - 1024 - 53) - 0)
    with (Zpos (digits2_pos p) - 53) by lia.
  destruct (Zpos (digits2_pos p) - 53) as [|j|j] eqn:E; try lia.
  - exists p, 0. split; [|split; [simpl; lia | lia]].
    apply round_canonical; lia.
  - exists (Pos.iter xO p j), (Zpos j).
    assert (Hf : fexp 53 1024 (Zpos (digits2_pos p) + 0) = Zneg j).
    { unfold fexp, emin. lia. }
    rewrite Hf. split; [|split; [|split]].
    + apply round_canonical; [|lia]. rewrite iter_xO_digits. lia.
    + apply iter_xO_value.
    + rewrite iter_xO_digits. lia.
    + lia.
Qed.

Lemma meters_per_mile_value :
  meters_per_mile = S754_finite false 7077952172180111 (-42).
Proof. vm_compute. reflexivity. Qed.

(** The arithmetic of the miles conversion: with [x] the error of the
    division, [yt] that of the decimal rounding and [ks] the scaled
    result, the result is within half a hundredth. *)
Lemma miles_bound z s x yt ks :
  4294967296 <= s ->
  Z.abs x <= 7077952172180111 ->
  2 * Z.abs yt <= s ->
  0 <= ks <= 100 * (2 * 9007199254740992 + 1) + s ->
  z * s * 4398046511104 =
    100 * 7077952172180111 * yt + 10000 * x
    - (100 * 7077952172180111 - 160934 * 4398046511104) * ks ->
  Z.abs z <= 80467.
Proof.
  intros Hs Hx Hy Hk E.
  destruct (Z_le_gt_dec (Z.abs z) 80467) as [Hle|Hgt]; [exact Hle|exfalso].
  assert (E4 : 80468 * s <= Z.abs z * s)
    by (apply Z.mul_le_mono_nonneg_r; lia).
  assert (E5 : Z.abs (z * s * 4398046511104) = Z.abs z * s * 4398046511104).
  { rewrite !Z.abs_mul, (Z.abs_eq s), (Z.abs_eq 4398046511104) by lia. reflexivity. }
  rewrite E in E5. lia.
Qed.

(** [round(d / 1609.34, 2)] for a distance below 2^32 meters: the float of
    a number of hundredths [k] within 0.005 of [d / 1609.34]. *)
Lemma miles_near d :
  0 <= d < 2 ^ 32 ->
  exists k,
    bind (truediv_float (VInt d) meters_per_mile) (fun q => py_round q 2) =
      Ok (Float.of_decimal false k (-2)) /\
    0 <= k /\ Z.abs (160934 * k - 10000 * d) <= 80467.
Proof.
  intros [H0 Hn]. destruct d as [|p|p]; [|clear H0|lia].
  { exists 0. repeat split; simpl; lia. }
  assert (Hd1 : Zpos (digits2_pos p) <= 32) by (apply digits2_le; lia).
  destruct (of_Z_value p) as [m1 [K [Hx [Hm1 [Hdm1 [HK HK0]]]]]].
  { assert (2 ^ 32 < 2 ^ 53) by (apply Z.pow_lt_mono_r; lia). lia. }
  rewrite meters_per_mile_value.
  unfold truediv_float, float_of_int. rewrite Hx. cbn [bind].
  unfold Float.div, SFdiv, Float.prec, Float.emax.
  destruct (div_core_near false m1 (- K) 7077952172180111 (-42)) as [m [e [j H]]].
  - rewrite Hdm1. change (Zpos (digits2_pos 7077952172180111)) with 53. lia.
  - rewrite Hdm1. change (Zpos (digits2_pos 7077952172180111)) with 53. lia.
  - rewrite Hdm1 in H. change (Zpos (digits2_pos 7077952172180111)) with 53 in H.
    replace (53 + 53 - 53) with 53 in H by lia.
    replace (- K - -42 - 53) with (- (K + 11)) in H by lia.
    destruct H as [Hres [Hj [He [Hmb Herr]]]].
    cbn [xorb]. rewrite Hres.
    destruct e as [|b|b]; [lia|lia|].
    unfold py_round, Float.round.
    change (10 ^ Z.of_N 2) with 100. change (- Z.of_N 2) with (-2).
    set (k := Float.div_half_even (Zpos m * 100) (2 ^ Zpos b)).
    assert (HB : 0 < 2 ^ Zpos b) by (apply Z.pow_pos_nonneg; lia).
    assert (Hk0 : 0 <= k) by (apply div_half_even_nonneg; lia).
    assert (Hkerr := div_half_even_nearest (Zpos m * 100) (2 ^ Zpos b) HB).
    fold k in Hkerr.
    assert (HS : 2 ^ (K + 11) = 2 ^ (Zneg b - - (K + 11)) * 2 ^ Zpos b).
    { rewrite <- Z.pow_add_r by lia. f_equal. lia. }
    assert (HT : 0 < 2 ^ (Zneg b - - (K + 11))) by (apply Z.pow_pos_nonneg; lia).
    assert (HS32 : 2 ^ 32 <= 2 ^ (K + 11)) by (apply Z.pow_le_mono_r; lia).
    assert (HKS : 2 ^ K * 2 ^ 53 = 2 ^ (K + 11) * 2 ^ 42).
    { rewrite <- !Z.pow_add_r by lia. f_equal. lia. }
    assert (Hj2 : 2 ^ j <= 2)
      by (change 2 with (2 ^ 1) at 2; apply Z.pow_le_mono_r; lia).
    assert (Hp53 : Zpos p * 2 ^ K < 2 ^ 53).
    { pose proof (digits2_bounds m1) as Hb1. rewrite Hdm1 in Hb1. lia. }
    set (T := 2 ^ (Zneg b - - (K + 11))) in *. set (B := 2 ^ Zpos b) in *.
    set (S := 2 ^ (K + 11)) in *. set (PK := 2 ^ K) in *.
    rewrite Hm1 in Herr.
    change (2 ^ 32) with 4294967296 in *. change (2 ^ 53) with 9007199254740992 in *.
    change (2 ^ 52) with 4503599627370496 in *. change (2 ^ 42) with 4398046511104 in *.
    set (X := Zpos m * T * 7077952172180111 - Zpos p * PK * 9007199254740992) in *.
    set (Y := k * B - Zpos m * 100) in *.
    assert (HX : Z.abs X <= 7077952172180111) by lia.
    assert (HmT : Zpos m * T <= 2 * 9007199254740992 + 1).
    { assert (A1 : Zpos p * PK * 9007199254740992 <= 9007199254740992 * 9007199254740992)
        by (apply Z.mul_le_mono_nonneg_r; lia).
      unfold X in HX. generalize dependent (Zpos m * T). intros u. lia. }
    assert (HkS : k * S <= 100 * (2 * 9007199254740992 + 1) + S).
    { assert (A1 : k * B <= Zpos m * 100 + B) by (unfold Y in Hkerr; lia).
      assert (A2 : k * B * T <= (Zpos m * 100 + B) * T)
        by (apply Z.mul_le_mono_nonneg_r; lia).
      replace (k * B * T) with (k * (T * B)) in A2 by ring.
      replace ((Zpos m * 100 + B) * T) with (100 * (Zpos m * T) + T * B) in A2 by ring.
      rewrite <- HS in A2. lia. }
    assert (EY : 2 * Z.abs (Y * T) <= S).
    { rewrite Z.abs_mul, (Z.abs_eq T) by lia. rewrite HS.
      replace (2 * (Z.abs Y * T)) with (2 * Z.abs Y * T) by ring.
      rewrite (Z.mul_comm T B). apply Z.mul_le_mono_nonneg_r; [lia | exact Hkerr]. }
    assert (E : (160934 * k - 10000 * Zpos p) * S * 4398046511104 =
                100 * 7077952172180111 * (Y * T) + 10000 * X
                - (100 * 7077952172180111 - 160934 * 4398046511104) * (k * S)).
    { unfold X, Y.
      replace (Zpos p * PK * 9007199254740992) with (Zpos p * (PK * 9007199254740992)) by ring.
      rewrite HKS. rewrite HS. ring. }
    assert (HkS0 : 0 <= k * S) by (apply Z.mul_nonneg_nonneg; lia).
    assert (Hgoal : Z.abs (160934 * k - 10000 * Zpos p) <= 80467).
    { apply (miles_bound _ S X (Y * T) (k * S)); [lia | exact HX | exact EY | lia | exact E]. }
    exists k. split; [|split; [exact Hk0 | exact Hgoal]].
    destruct k as [|kp|kp]; [reflexivity| |lia].
    unfold Float.of_decimal.
    destruct (round_ratio_finite false kp (10 ^ 2)) as [m' [e' Hr]].
    + change (2 ^ 53) with 9007199254740992.
      destruct (Z_lt_ge_dec (Zpos kp) 9007199254740992) as [Hlt|Hge]; [exact Hlt|exfalso].
      assert (A3 : 9007199254740992 * S <= Zpos kp * S)
        by (apply Z.mul_le_mono_nonneg_r; lia).
      lia.
    + change (Zpos (10 ^ 2)) with 100.
      assert (2 ^ 7 <= 2 ^ 1000) by (apply Z.pow_le_mono_r; lia).
      change (2 ^ 7) with 128 in *. lia.
    + rewrite Hr. reflexivity.
Qed.

(** *** The conversion in a run *)






(** X12.  The logged numbers are accurate to the last printed digit, in
    spite of the two roundings (of the quotient to a float, then of that
    float to a decimal).  For a first route with durations of [n] and [n']
    seconds below 2^50 and an integer distance of [m] meters below 2^32,
    the row holds the floats nearest to the decimals [k / 10], [k' / 10]
    and [j / 100], where [k / 10] is within 0.05 of [n / 60], [k' / 10]
    within 0.05 of [n' / 60], and [j / 100] within 0.005 of
    [m / 1609.34]. *)
Theorem conversions_accurate t r row d d' n n' m :
  route_row t r = Ok row ->
  getitem r "duration" = Ok d -> format_duration d = Ok n ->
  getitem r "staticDuration" = Ok d' -> format_duration d' = Ok n' ->
  getitem r "distanceMeters" = Ok (VInt m) ->
  0 <= n < 2 ^ 50 -> 0 <= n' < 2 ^ 50 -> 0 <= m < 2 ^ 32 ->
  exists k k' j,
    eta_min row = Float.of_decimal false k (-1) /\
    0 <= k /\ Z.abs (6 * k - n) <= 3 /\
    freeflow_min row = Float.of_decimal false k' (-1) /\
    0 <= k' /\ Z.abs (6 * k' - n') <= 3 /\
    distance_mi row = Float.of_decimal false j (-2) /\
    0 <= j /\ Z.abs (160934 * j - 10000 * m) <= 80467.
Proof.
  intros H Hd Hn Hd' Hn' Hm Bn Bn' Bm.
  apply route_row_inv in H. destruct H as [H _].
  destruct H as [d0 [d0' [m0 [n0 [n0' [q [q' [q'' H]]]]]]]].
  destruct H as [Ed [En [Ed' [En' [Em [Hq [Heta [Hq' [Hff [Hq'' Hmi]]]]]]]]]].
  assert (d0 = d) by congruence. subst d0.
  assert (n0 = n) by congruence. subst n0.
  assert (d0' = d') by congruence. subst d0'.
  assert (n0' = n') by congruence. subst n0'.
  assert (m0 = VInt m) by congruence. subst m0.
  destruct (minutes_near n Bn) as [k [Hk [Hk0 Hke]]].
  destruct (minutes_near n' Bn') as [k' [Hk' [Hk0' Hke']]].
  destruct (miles_near m Bm) as [j [Hj [Hj0 Hje]]].
  rewrite Hq in Hk. rewrite Hq' in Hk'. rewrite Hq'' in Hj.
  cbn [bind] in Hk, Hk', Hj.
  exists k, k', j.
  split; [congruence|]. split; [exact Hk0|]. split; [exact Hke|].
  split; [congruence|]. split; [exact Hk0'|]. split; [exact Hke'|].
  split; [congruence|]. split; [exact Hj0 | exact Hje].
Qed.

(** ** Routes that are falsy *)

(** X13.  The test for routes is a truth test, not a test for an empty
    list: when the response is an object whose routes member is falsy
    (null, false, 0, 0.0, an empty text, an empty list or an empty
    object), the run prints the no-routes message and returns, with the
    log file as it was, instead of failing on the odd shape. *)
Theorem falsy_routes_reported e w top routes :
  fetched e (VDict top) ->
  lookup "routes" top = Some routes ->
  truthy routes = false ->
  let w' := {| log_file := log_file w;
               console := (console w ++ [Printed "No routes returned."])%list;
               requests := S (requests w) |} in
  log_eta e w = (Ok tt, w') /\ main e w = w'.
Proof.
  intros Hf Hl Ht w'.
  assert (Ho : outcome_of e = NoRoutes).
  { rewrite (fetched_outcome e (VDict top) Hf). unfold dict_get.
    now rewrite Hl, Ht. }
  rewrite main_outcome, log_eta_outcome, Ho. split; reflexivity.
Qed.

(** ** Fractions of a second *)

Lemma digits_value_from ds acc :
  fold_left (fun a c => 10 * a + Str.digit_value c) ds acc =
    acc * 10 ^ Z.of_nat (List.length ds) + FloatParse.digits_value ds.
Proof.
  unfold FloatParse.digits_value. revert acc.
  induction ds as [|c ds IH]; intros acc; cbn [fold_left List.length].
  - change (Z.of_nat 0) with 0. lia.
  - rewrite (IH (10 * acc + Str.digit_value c)), (IH (10 * 0 + Str.digit_value c)).
    rewrite Nat2Z.inj_succ, Z.pow_succ_r by lia. ring.
Qed.

Lemma digits_value_app ip fp :
  FloatParse.digits_value (ip ++ fp) =
    FloatParse.digits_value ip * 10 ^ Z.of_nat (List.length fp)
    + FloatParse.digits_value fp.
Proof.
  unfold FloatParse.digits_value at 1. rewrite fold_left_app.
  apply digits_value_from.
Qed.

Lemma digits_value_below ds :
  digits ds -> FloatParse.digits_value ds < 10 ^ Z.of_nat (List.length ds).
Proof.
  intros H. induction H as [|c ds Hc _ IH].
  - reflexivity.
  - unfold FloatParse.digits_value in *. cbn [fold_left List.length].
    rewrite digits_value_from. unfold FloatParse.digits_value.
    rewrite Nat2Z.inj_succ, Z.pow_succ_r by lia.
    apply is_digit_code in Hc.
    assert (Hd : 0 <= Str.digit_value c <= 9)
      by (unfold Str.digit_value, Str.code in *; lia).
    assert (Hp : 0 < 10 ^ Z.of_nat (List.length ds))
      by (apply Z.pow_pos_nonneg; lia).
    nia.
Qed.

(** The float nearest to a decimal between two whole numbers is truncated
    to the lower one, as long as the upper one with the decimal places
    appended is below 2^53. *)
Lemma trunc_of_decimal i n k :
  0 <= i ->
  i * 10 ^ Zpos k <= n < (i + 1) * 10 ^ Zpos k ->
  (i + 1) * 10 ^ Zpos k < 2 ^ 53 ->
  int_of_float (Float.of_decimal false n (Zneg k)) = Ok i.
Proof.
  intros Hi [Hlo Hhi] Hb.
  assert (HD : 10 <= 10 ^ Zpos k).
  { change 10 with (10 ^ 1) at 1. apply Z.pow_le_mono_r; lia. }
  destruct n as [|p|p]; [| |lia].
  { cbn. f_equal. nia. }
  unfold Float.of_decimal.
  set (D := Zpos (10 ^ k)).
  assert (ED : D = 10 ^ Zpos k) by (unfold D; apply Pos2Z.inj_pow).
  rewrite <- ED in *.
  assert (Hp53 : Zpos p < 2 ^ 53) by lia.
  assert (HD53 : D < 2 ^ 53) by nia.
  assert (Hdp : Zpos (digits2_pos p) <= 53) by (apply digits2_le; lia).
  assert (HdD : Zpos (digits2_pos (10 ^ k)) <= 53) by (apply digits2_le; [exact HD53 | lia]).
  assert (HdD3 : 4 <= Zpos (digits2_pos (10 ^ k))).
  { pose proof (digits2_bounds (10 ^ k)%positive) as [_ Hu]. fold D in Hu.
    destruct (Z_lt_ge_dec (Zpos (digits2_pos (10 ^ k))) 4) as [Hlt|Hge]; [|lia].
    assert (2 ^ Zpos (digits2_pos (10 ^ k)) <= 2 ^ 3) by (apply Z.pow_le_mono_r; lia).
    change (2 ^ 3) with 8 in *. lia. }
  pose proof (Pos2Z.is_pos (digits2_pos p)) as Hpos.
  destruct (round_ratio_near false p (10 ^ k)) as [m [e [j H]]]; [lia|].
  destruct H as [Hres [Hj [He [Hmb Herr]]]].
  fold D in Herr.
  set (s := Zpos (digits2_pos (10 ^ k)) + 53 - Zpos (digits2_pos p)) in *.
  rewrite Hres. rewrite int_of_float_finite.
  destruct e as [|b|b]; [lia|lia|].
  change (0 <=? Zneg b) with false. cbv iota. change (- Zneg b) with (Zpos b).
  f_equal.
  assert (HB : 0 < 2 ^ Zpos b) by (apply Z.pow_pos_nonneg; lia).
  assert (HT : 0 < 2 ^ (Zneg b + s)) by (apply Z.pow_pos_nonneg; lia).
  assert (HS : 2 ^ s = 2 ^ (Zneg b + s) * 2 ^ Zpos b).
  { rewrite <- Z.pow_add_r by lia. f_equal. lia. }
  assert (HjT : 2 ^ j <= 2 ^ (Zneg b + s)) by (apply Z.pow_le_mono_r; lia).
  set (T := 2 ^ (Zneg b + s)) in *. set (B := 2 ^ Zpos b) in *.
  rewrite HS in Herr.
  assert (Herr' : 2 * Z.abs (Zpos m * D - Zpos p * B) <= D).
  { assert (E : Zpos m * T * D - Zpos p * (T * B) = T * (Zpos m * D - Zpos p * B)) by ring.
    rewrite E, Z.abs_mul, (Z.abs_eq T) in Herr by lia.
    assert (H : T * (2 * Z.abs (Zpos m * D - Zpos p * B)) <= T * D) by nia.
    apply Z.mul_le_mono_pos_l in H; [exact H | exact HT]. }
  change (2 ^ 52) with 4503599627370496 in *.
  change (2 ^ 53) with 9007199254740992 in *.
  symmetry. apply (Z.div_unique_pos _ _ _ (Zpos m - i * B)); [|ring].
  split.
  - (* the float is not below the lower whole number *)
    destruct (Z_le_gt_dec (i * B) (Zpos m)) as [Hle|Hgt]; [lia|exfalso].
    assert (Zpos m * D <= (i * B - 1) * D) by (apply Z.mul_le_mono_nonneg_r; lia).
    assert (i * D * B <= Zpos p * B) by (apply Z.mul_le_mono_nonneg_r; lia).
    lia.
  - (* nor does it reach the upper one *)
    destruct (Z_lt_ge_dec (Zpos m) ((i + 1) * B)) as [Hlt|Hge]; [lia|exfalso].
    assert (H1 : (Zpos p + 1) * B <= (i + 1) * D * B)
      by (apply Z.mul_le_mono_nonneg_r; lia).
    assert (H2 : (i + 1) * B * D <= Zpos m * D)
      by (apply Z.mul_le_mono_nonneg_r; lia).
    assert (H3 : 2 * B <= D) by lia.
    assert (H4 : 2 * (Zpos m * D) <= 2 * ((i + 1) * B * D) - 2 * B + D) by lia.
    assert (H5 : Zpos m <= (i + 1) * B).
    { destruct (Z_le_gt_dec (Zpos m) ((i + 1) * B)) as [Hle|Hgt]; [exact Hle|exfalso].
      assert (((i + 1) * B + 1) * D <= Zpos m * D)
        by (apply Z.mul_le_mono_nonneg_r; lia).
      lia. }
    assert (H6 : 2 * ((i + 1) * B) <= (i + 1) * D)
      by (replace (2 * ((i + 1) * B)) with ((i + 1) * (2 * B)) by ring;
          apply Z.mul_le_mono_nonneg_l; lia).
    lia.
Qed.

(** X15.  Fractions of a second are dropped, not rounded: for a duration
    written as a plain number with a fraction, whose whole part plus one,
    followed by as many zeros as the fraction has digits, is below 2^53
    (every duration of up to fifteen digits in all), the parser returns
    the whole part.  With more digits the float conversion can carry to
    the next whole number: 0.99999999999999999s gives 1. *)
Theorem fractional_seconds_truncated :
  (forall ip fp,
     digits ip -> digits fp -> ip <> [] ->
     (FloatParse.digits_value ip + 1) * 10 ^ Z.of_nat (List.length fp) < 2 ^ 53 ->
     format_duration (VStr (number_text ip fp ++ "s")) =
       Ok (FloatParse.digits_value ip)) /\
  format_duration (VStr "0.99999999999999999s") = Ok 1.
Proof.
  split; [|vm_compute; reflexivity].
  intros ip fp Hi Hf Hne Hb.
  rewrite format_duration_unit. unfold float_of_str.
  rewrite (parse_number ip fp Hi Hf Hne). cbn [bind].
  pose proof (digits_value_nonneg ip Hi) as Hi0.
  pose proof (digits_value_nonneg fp Hf) as Hf0.
  pose proof (digits_value_below fp Hf) as Hf1.
  rewrite digits_value_app.
  destruct fp as [|c fp'].
  - cbn [List.length] in *. change (Z.of_nat 0) with 0 in *.
    change (- 0) with 0. rewrite Z.pow_0_r, Z.mul_1_r in *.
    change (FloatParse.digits_value []) with 0. rewrite Z.add_0_r.
    apply int_of_float_whole. lia.
  - set (f := List.length (c :: fp')) in *.
    assert (E : - Z.of_nat f = Zneg (Pos.of_succ_nat (List.length fp'))) by (unfold f; cbn; lia).
    assert (E' : Z.of_nat f = Zpos (Pos.of_succ_nat (List.length fp'))) by (unfold f; cbn; lia).
    rewrite E. rewrite E' in *.
    apply trunc_of_decimal; [exact Hi0 | lia | exact Hb].
Qed.

(** ** Durations out of range *)

Lemma shr_1_spec r :
  0 <= shr_m r ->
  shr_m (shr_1 r) = shr_m r / 2 /\ shr_r (shr_1 r) = Z.odd (shr_m r).
Proof.
  destruct r as [m r s]. cbn [shr_m]. intros H.
  destruct m as [|[p|p|]|p]; cbn [shr_1 shr_m shr_r]; try lia.
  - split; reflexivity.
  - split; [|reflexivity]. rewrite Pos2Z.inj_xI.
    apply Z.div_unique with (r := 1); lia.
  - split; [|reflexivity]. rewrite Pos2Z.inj_xO.
    apply Z.div_unique with (r := 0); lia.
  - split; reflexivity.
Qed.

Lemma div_pow2_nonneg m k : 0 <= m -> 0 <= m / 2 ^ k.
Proof.
  intros H. destruct (Z_le_gt_dec 0 k).
  - apply Z.div_pos; [exact H | apply Z.pow_pos_nonneg; lia].
  - rewrite Z.pow_neg_r by lia. now rewrite Z.div_0_r.
Qed.

Lemma div_pow2_twice m a b :
  0 <= a -> 0 <= b -> m / 2 ^ a / 2 ^ b = m / 2 ^ (a + b).
Proof.
  intros Ha Hb. rewrite Z.pow_add_r by lia.
  apply Z.div_div; [apply Z.pow_nonzero; lia | apply Z.pow_pos_nonneg; lia].
Qed.

(** Shifting a record right [k] times divides its mantissa by [2^k]; the
    round bit is the last bit that was shifted out. *)
Lemma iter_shr_spec k r :
  0 <= shr_m r ->
  shr_m (iter_pos shr_1 k r) = shr_m r / 2 ^ Zpos k /\
  shr_r (iter_pos shr_1 k r) = Z.odd (shr_m r / 2 ^ (Zpos k - 1)).
Proof.
  revert r. induction k as [k IH|k IH|]; intros r H; cbn [iter_pos].
  - destruct (shr_1_spec r H) as [H1 _].
    assert (H1' : 0 <= shr_m (shr_1 r)) by (rewrite H1; apply (div_pow2_nonneg _ 1 H)).
    destruct (IH _ H1') as [H2 _].
    assert (H2' : 0 <= shr_m (iter_pos shr_1 k (shr_1 r)))
      by (rewrite H2; now apply div_pow2_nonneg).
    destruct (IH _ H2') as [H3 H4].
    rewrite H3, H4, H2, H1. change (shr_m r / 2) with (shr_m r / 2 ^ 1).
    rewrite !div_pow2_twice by lia. rewrite Pos2Z.inj_xI.
    split; [f_equal; f_equal; lia | f_equal; f_equal; f_equal; lia].
  - destruct (IH _ H) as [H2 _].
    assert (H2' : 0 <= shr_m (iter_pos shr_1 k r))
      by (rewrite H2; now apply div_pow2_nonneg).
    destruct (IH _ H2') as [H3 H4].
    rewrite H3, H4, H2.
    rewrite !div_pow2_twice by lia. rewrite Pos2Z.inj_xO.
    split; [f_equal; f_equal; lia | f_equal; f_equal; f_equal; lia].
  - destruct (shr_1_spec r H) as [H1 H2]. rewrite H1, H2.
    split; [reflexivity|]. change (1 - 1) with 0. now rewrite Z.pow_0_r, Z.div_1_r.
Qed.

Lemma rne_bounds m l : m <= round_nearest_even m l <= m + 1.
Proof.
  unfold round_nearest_even. destruct l as [|[]]; try lia. destruct (Z.even m); lia.
Qed.

Lemma rne_record r :
  (shr_r r = false -> round_nearest_even (shr_m r) (loc_of_shr_record r) = shr_m r) /\
  (shr_r r = true -> Z.odd (shr_m r) = true ->
   round_nearest_even (shr_m r) (loc_of_shr_record r) = shr_m r + 1).
Proof.
  destruct r as [m [] []]; cbn [shr_m shr_r loc_of_shr_record round_nearest_even];
    split; try discriminate; try reflexivity.
  intros _ H. rewrite <- Z.negb_odd, H. reflexivity.
Qed.

Lemma shr_fexp_small m e l :
  0 <= m < 2 ^ 53 -> -1074 <= e ->
  shr_fexp 53 1024 m e l = (shr_record_of_loc m l, e).
Proof.
  intros Hm He. unfold shr_fexp.
  assert (Hd : 0 <= Zdigits2 m <= 53).
  { destruct m as [|p|p]; [simpl; lia | | lia]. simpl.
    split; [lia | apply digits2_le; lia]. }
  unfold shr. 
  destruct (fexp 53 1024 (Zdigits2 m + e) - e) as [|k|k] eqn:E; try reflexivity.
  unfold fexp, emin in E. lia.
Qed.

Lemma round_last s m1 e1 :
  0 <= m1 <= 2 ^ 53 -> -1074 <= e1 ->
  (let '(mrs, e'') := shr_fexp 53 1024 m1 e1 loc_Exact in
   match shr_m mrs with
   | Z0 => S754_zero s
   | Zpos m => if e'' <=? 1024 - 53 then S754_finite s m e'' else S754_infinity s
   | Zneg _ => S754_nan
   end) =
  if m1 =? 0 then S754_zero s
  else if m1 <? 2 ^ 53
       then (if e1 <=? 971 then S754_finite s (Z.to_pos m1) e1 else S754_infinity s)
       else (if e1 + 1 <=? 971 then S754_finite s (Z.to_pos (2 ^ 52)) (e1 + 1)
             else S754_infinity s).
Proof.
  intros Hm He. destruct (Z.ltb_spec m1 (2 ^ 53)) as [Hlt|Hge].
  - rewrite shr_fexp_small by lia. cbn [shr_record_of_loc shr_m].
    destruct m1 as [|p|p]; [reflexivity | | lia].
    change (Zpos p =? 0) with false. cbv iota. reflexivity.
  - assert (E : m1 = 2 ^ 53) by lia. subst m1.
    rewrite shr_fexp_once by lia. reflexivity.
Qed.

Lemma is_finite_last s m1 e1 :
  Float.is_finite
    (if m1 =? 0 then S754_zero s
     else if m1 <? 2 ^ 53
          then (if e1 <=? 971 then S754_finite s (Z.to_pos m1) e1 else S754_infinity s)
          else (if e1 + 1 <=? 971 then S754_finite s (Z.to_pos (2 ^ 52)) (e1 + 1)
                else S754_infinity s)) =
  (m1 =? 0) || (if m1 <? 2 ^ 53 then e1 <=? 971 else e1 + 1 <=? 971).
Proof.
  destruct (m1 =? 0); [reflexivity|].
  destruct (m1 <? 2 ^ 53); [destruct (e1 <=? 971) | destruct (e1 + 1 <=? 971)];
    reflexivity.
Qed.

(** Rounding a mantissa of at most 54 bits at a small exponent gives a
    zero or a finite float. *)
Lemma round_aux_small s q e0 l :
  0 <= q < 2 ^ 54 -> -1074 <= e0 <= 960 ->
  Float.is_finite (binary_round_aux 53 1024 s q e0 l) = true.
Proof.
  intros Hq He. unfold binary_round_aux.
  destruct (Z_lt_ge_dec q (2 ^ 53)) as [Hlt|Hge].
  - rewrite shr_fexp_small by lia. rewrite record_m, loc_record.
    pose proof (rne_bounds q l) as Hb.
    rewrite round_last by lia. rewrite is_finite_last.
    destruct (round_nearest_even q l =? 0); [reflexivity|]. cbn [orb].
    destruct (round_nearest_even q l <? 2 ^ 53); apply Z.leb_le; lia.
  - rewrite shr_fexp_once by lia.
    assert (H0 : 0 <= shr_m (shr_record_of_loc q l)) by (rewrite record_m; lia).
    destruct (shr_1_spec _ H0) as [Hm _]. rewrite record_m in Hm.
    pose proof (rne_bounds (shr_m (shr_1 (shr_record_of_loc q l)))
                  (loc_of_shr_record (shr_1 (shr_record_of_loc q l)))) as Hb.
    assert (Hq2 : 2 ^ 52 <= q / 2 < 2 ^ 53).
    { change (2 ^ 53) with (2 * 2 ^ 52) in Hge.
      change (2 ^ 54) with (2 * 2 ^ 53) in Hq.
      split; [apply Z.div_le_lower_bound; lia | apply Z.div_lt_upper_bound; lia]. }
    rewrite round_last by lia. rewrite is_finite_last.
    destruct (_ =? 0); [reflexivity|]. cbn [orb].
    destruct (_ <? 2 ^ 53); apply Z.leb_le; lia.
Qed.

Lemma pow2_split a b : 0 <= a -> 0 <= b -> 2 ^ (a + b) = 2 ^ a * 2 ^ b.
Proof. intros. now apply Z.pow_add_r. Qed.

(** Rounding an integer of 54 bits or more: the result is finite below
    [2^1024 - 2^970], half a unit in the last place above the largest
    float, and the infinity from there on. *)
Lemma round_aux_big s q l :
  2 ^ 53 <= q ->
  (q < 2 ^ 1024 - 2 ^ 970 ->
   Float.is_finite (binary_round_aux 53 1024 s q 0 l) = true) /\
  (2 ^ 1024 - 2 ^ 970 <= q ->
   binary_round_aux 53 1024 s q 0 l = S754_infinity s).
Proof.
  intros Hq.
  assert (Hpos : 0 < q).
  { assert (0 < 2 ^ 53) by reflexivity. lia. }
  destruct q as [|p|p]; [lia | | lia].
  pose proof (digits2_bounds p) as Hd.
  set (d := Zpos (digits2_pos p)) in *.
  assert (Hd54 : 54 <= d).
  { destruct (Z_le_gt_dec 54 d) as [H|H]; [exact H|].
    assert (2 ^ d <= 2 ^ 53) by (apply Z.pow_le_mono_r; lia). lia. }
  set (n := d - 53).
  assert (Hn : 1 <= n) by (unfold n; lia).
  assert (En : fexp 53 1024 (Zdigits2 (Zpos p) + 0) - 0 = n).
  { unfold Zdigits2. fold d. unfold fexp, emin, n. lia. }
  destruct n as [|k|k] eqn:Ek; [lia | | lia].
  assert (H0 : 0 <= shr_m (shr_record_of_loc (Zpos p) l)) by (rewrite record_m; lia).
  destruct (iter_shr_spec k _ H0) as [Hm Hr]. rewrite record_m in Hm, Hr.
  pose (rec := iter_pos shr_1 k (shr_record_of_loc (Zpos p) l)).
  fold rec in Hm, Hr.
  assert (Hp2 : 2 ^ (d - 1) = 2 ^ Zpos k * 2 ^ 52).
  { rewrite <- pow2_split by lia. f_equal. lia. }
  assert (Hp3 : 2 ^ d = 2 ^ Zpos k * 2 ^ 53).
  { rewrite <- pow2_split by lia. f_equal. lia. }
  assert (Hk0 : 0 < 2 ^ Zpos k) by (apply Z.pow_pos_nonneg; lia).
  assert (Hmb : 2 ^ 52 <= shr_m rec < 2 ^ 53).
  { rewrite Hm. split;
      [apply Z.div_le_lower_bound; lia | apply Z.div_lt_upper_bound; lia]. }
  pose proof (rne_bounds (shr_m rec) (loc_of_shr_record rec)) as Hb.
  destruct (rne_record rec) as [Hkeep Hup].
  set (m1 := round_nearest_even (shr_m rec) (loc_of_shr_record rec)) in *.
  assert (Hne : (m1 =? 0) = false) by (apply Z.eqb_neq; lia).
  assert (Hres : binary_round_aux 53 1024 s (Zpos p) 0 l =
                 if m1 <? 2 ^ 53
                 then (if 0 + Zpos k <=? 971
                       then S754_finite s (Z.to_pos m1) (0 + Zpos k)
                       else S754_infinity s)
                 else (if 0 + Zpos k + 1 <=? 971
                       then S754_finite s (Z.to_pos (2 ^ 52)) (0 + Zpos k + 1)
                       else S754_infinity s)).
  { unfold binary_round_aux, shr_fexp at 1. rewrite En. unfold shr.
    change (iter_pos shr_1 k (shr_record_of_loc (Zpos p) l)) with rec.
    change (round_nearest_even (shr_m rec) (loc_of_shr_record rec)) with m1.
    rewrite round_last by lia. now rewrite Hne. }
  rewrite Hres.
  (* the mantissa in units of 2^(k-1) *)
  set (u := Zpos p / 2 ^ (Zpos k - 1)) in *.
  assert (Hu : shr_m rec = u / 2).
  { rewrite Hm. unfold u. change (u / 2) with (u / 2 ^ 1).
    change (Zpos p / 2 ^ (Zpos k - 1) / 2) with (Zpos p / 2 ^ (Zpos k - 1) / 2 ^ 1).
    rewrite div_pow2_twice by lia. f_equal. f_equal. lia. }
  assert (Hud := Z.div_mod u 2 ltac:(lia)).
  assert (Hum := Z.mod_pos_bound u 2 ltac:(lia)).
  assert (Hodd : Z.odd u = true -> u = 2 * shr_m rec + 1).
  { intros Ho. rewrite Hu. rewrite Zodd_mod in Ho.
    apply Z.eqb_eq in Ho. lia. }
  assert (Hk1 : 0 < 2 ^ (Zpos k - 1)) by (apply Z.pow_pos_nonneg; lia).
  assert (Hpu := Z.div_mod (Zpos p) (2 ^ (Zpos k - 1)) ltac:(lia)).
  assert (Hpm := Z.mod_pos_bound (Zpos p) (2 ^ (Zpos k - 1)) Hk1).
  fold u in Hpu.
  split.
  - intros Hlt.
    assert (Hd1024 : d <= 1024).
    { destruct (Z_le_gt_dec d 1024) as [H|H]; [exact H|].
      assert (2 ^ 1024 <= 2 ^ (d - 1)) by (apply Z.pow_le_mono_r; lia).
      assert (0 < 2 ^ 970) by reflexivity. lia. }
    destruct (Z.ltb_spec m1 (2 ^ 53)) as [H1|H1].
    + destruct (Z.leb_spec (0 + Zpos k) 971); [reflexivity | lia].
    + destruct (Z.leb_spec (0 + Zpos k + 1) 971) as [|Hbig]; [reflexivity|].
      exfalso.
      assert (Ek971 : Zpos k = 971) by lia.
      assert (Em : shr_m rec = 2 ^ 53 - 1) by lia.
      assert (Hrt : shr_r rec = true).
      { destruct (shr_r rec); [reflexivity|]. specialize (Hkeep eq_refl). lia. }
      rewrite Hr in Hrt. fold u in Hrt.
      specialize (Hodd Hrt).
      assert (Eu : u = 2 ^ 54 - 1).
      { rewrite Hodd, Em. reflexivity. }
      rewrite Ek971, Eu in Hpu. change (971 - 1) with 970 in Hpu.
      rewrite Ek971 in Hpm. change (971 - 1) with 970 in Hpm.
      assert (ET : 2 ^ 1024 - 2 ^ 970 = 2 ^ 970 * (2 ^ 54 - 1)) by reflexivity.
      lia.
  - intros Hge.
    assert (Hd1024 : 1024 <= d).
    { destruct (Z_le_gt_dec 1024 d) as [H|H]; [exact H|].
      assert (2 ^ d <= 2 ^ 1023) by (apply Z.pow_le_mono_r; lia).
      assert (2 ^ 1023 < 2 ^ 1024 - 2 ^ 970) by reflexivity. lia. }
    destruct (Z.eq_dec d 1024) as [E|E].
    + assert (Ek971 : Zpos k = 971) by lia.
      rewrite Ek971 in Hpu, Hpm, Hp3. change (971 - 1) with 970 in Hpu, Hpm.
      assert (ET : 2 ^ 1024 - 2 ^ 970 = 2 ^ 970 * (2 ^ 54 - 1)) by reflexivity.
      assert (E3 : 2 ^ 971 * 2 ^ 53 = 2 ^ 970 * 2 ^ 54) by reflexivity.
      assert (Eu : u = 2 ^ 54 - 1).
      { assert (2 ^ 54 - 1 <= u) by nia.
        assert (u < 2 ^ 54) by nia. lia. }
      assert (Em : shr_m rec = 2 ^ 53 - 1).
      { rewrite Hu, Eu. reflexivity. }
      assert (Hrt : shr_r rec = true).
      { rewrite Hr. fold u. rewrite Eu. reflexivity. }
      assert (Ho : Z.odd (shr_m rec) = true) by (rewrite Em; reflexivity).
      specialize (Hup Hrt Ho).
      destruct (Z.ltb_spec m1 (2 ^ 53)) as [H1|H1]; [lia|].
      destruct (Z.leb_spec (0 + Zpos k + 1) 971); [lia | reflexivity].
    + destruct (Z.ltb_spec m1 (2 ^ 53)) as [H1|H1].
      * destruct (Z.leb_spec (0 + Zpos k) 971); [lia | reflexivity].
      * destruct (Z.leb_spec (0 + Zpos k + 1) 971); [lia | reflexivity].
Qed.

Lemma normalize_range p :
  (Zpos p < 2 ^ 1024 - 2 ^ 970 ->
   Float.is_finite (binary_normalize 53 1024 (Zpos p) 0 false) = true) /\
  (2 ^ 1024 - 2 ^ 970 <= Zpos p ->
   binary_normalize 53 1024 (Zpos p) 0 false = S754_infinity false).
Proof.
  destruct (Z_lt_ge_dec (Zpos p) (2 ^ 53)) as [Hlt|Hge].
  - destruct (of_Z_exact p Hlt) as [m [e [E _]]].
    unfold Float.prec, Float.emax in E. rewrite E. split; [reflexivity|].
    intros H. exfalso.
    assert (2 ^ 53 < 2 ^ 1024 - 2 ^ 970) by reflexivity. lia.
  - pose proof (digits2_bounds p) as Hd.
    assert (Hd54 : 54 <= Zpos (digits2_pos p)).
    { destruct (Z_le_gt_dec 54 (Zpos (digits2_pos p))) as [H|H]; [exact H|].
      assert (2 ^ Zpos (digits2_pos p) <= 2 ^ 53) by (apply Z.pow_le_mono_r; lia).
      lia. }
    unfold binary_normalize, binary_round, shl_align.
    destruct (fexp 53 1024 (Zpos (digits2_pos p) + 0) - 0) as [|k|k] eqn:E.
    + apply round_aux_big. lia.
    + apply round_aux_big. lia.
    + unfold fexp, emin in E. lia.
Qed.

(** The quotient of [p] by [D], rounded to a float, when the integer part
    of the quotient is [i]. *)
Lemma round_ratio_range p D i :
  i * Zpos D <= Zpos p < (i + 1) * Zpos D ->
  (i < 2 ^ 1024 - 2 ^ 970 ->
   Float.is_finite (Float.round_ratio false p D) = true) /\
  (2 ^ 1024 - 2 ^ 970 <= i ->
   Float.round_ratio false p D = S754_infinity false).
Proof.
  intros Hi.
  assert (Hi0 : 0 <= i) by nia.
  pose proof (digits2_bounds p) as Hp. pose proof (digits2_bounds D) as HD.
  set (d1 := Zpos (digits2_pos p)) in *. set (d2 := Zpos (digits2_pos D)) in *.
  assert (Hd1 : 0 < d1) by (unfold d1; lia).
  assert (Hd2 : 0 < d2) by (unfold d2; lia).
  assert (H53 : 2 ^ 53 < 2 ^ 1024 - 2 ^ 970) by reflexivity.
  assert (H54 : 2 ^ 54 < 2 ^ 1024 - 2 ^ 970) by reflexivity.
  unfold Float.round_ratio, Float.prec, Float.emax, SFdiv_core_binary, Zdigits2.
  fold d1 d2. cbv zeta.
  destruct (Z_lt_ge_dec (d1 - d2 - 53) 0) as [Hneg|Hnn].
  - set (e' := Z.min (fexp 53 1024 (d1 + 0 - (d2 + 0))) (0 - 0)).
    assert (He' : -1074 <= e' < 0 /\ - e' <= 53 + d2 - d1).
    { unfold e', fexp, emin. lia. }
    replace (0 - 0 - e') with (- e') by lia.
    assert (Hm' : match - e' with
                  | 0 => Zpos p
                  | Zpos _ => Z.shiftl (Zpos p) (- e')
                  | Zneg _ => 0
                  end = Zpos p * 2 ^ (- e')).
    { destruct (- e') as [|k|k] eqn:E; [lia | | lia].
      now rewrite Z.shiftl_mul_pow2 by lia. }
    rewrite Hm'.
    pose proof (Z_div_mod (Zpos p * 2 ^ (- e')) (Zpos D) ltac:(lia)) as Hdm.
    destruct (Z.div_eucl (Zpos p * 2 ^ (- e')) (Zpos D)) as [q r].
    destruct Hdm as [Hq Hr].
    assert (Hs : 0 < 2 ^ (- e')) by (apply Z.pow_pos_nonneg; lia).
    assert (Hle : 2 ^ (d1 + - e') <= 2 ^ (53 + d2)) by (apply Z.pow_le_mono_r; lia).
    rewrite pow2_split in Hle by lia.
    assert (E2 : 2 ^ (53 + d2) = 2 ^ 54 * 2 ^ (d2 - 1)).
    { rewrite <- pow2_split by lia. f_equal. lia. }
    assert (Hq54 : 0 <= q < 2 ^ 54).
    { assert (0 < 2 ^ 54) by reflexivity. split; nia. }
    assert (Hle2 : 2 ^ d1 <= 2 ^ (d2 + 52)) by (apply Z.pow_le_mono_r; lia).
    assert (E3 : 2 ^ (d2 + 52) = 2 ^ 53 * 2 ^ (d2 - 1)).
    { rewrite <- pow2_split by lia. f_equal. lia. }
    assert (Hi53 : i < 2 ^ 53).
    { assert (0 < 2 ^ 53) by reflexivity. nia. }
    split.
    + intros _. apply round_aux_small; lia.
    + intros H. lia.
  - replace (Z.min (fexp 53 1024 (d1 + 0 - (d2 + 0))) (0 - 0)) with 0
      by (unfold fexp, emin; lia).
    change (0 - 0 - 0) with 0. cbv iota.
    pose proof (Z_div_mod (Zpos p) (Zpos D) ltac:(lia)) as Hdm.
    destruct (Z.div_eucl (Zpos p) (Zpos D)) as [q r].
    destruct Hdm as [Hq Hr].
    assert (Eq : q = i) by nia.
    subst q.
    destruct (Z_lt_ge_dec i (2 ^ 54)) as [Hlt|Hge].
    + split.
      * intros _. apply round_aux_small; lia.
      * intros H. lia.
    + apply round_aux_big.
      assert (2 ^ 53 <= 2 ^ 54) by discriminate. lia.
Qed.

(** The float of a plain number is finite when its whole part is below
    [2^1024 - 2^970], and the infinity otherwise. *)
Lemma plain_number_range ip fp :
  digits ip -> digits fp ->
  let x := Float.of_decimal false (FloatParse.digits_value (ip ++ fp))
             (- Z.of_nat (List.length fp)) in
  (FloatParse.digits_value ip < 2 ^ 1024 - 2 ^ 970 -> Float.is_finite x = true) /\
  (2 ^ 1024 - 2 ^ 970 <= FloatParse.digits_value ip -> x = S754_infinity false).
Proof.
  intros Hi Hf x. subst x.
  pose proof (digits_value_nonneg ip Hi) as Hi0.
  pose proof (digits_value_nonneg fp Hf) as Hf0.
  pose proof (digits_value_below fp Hf) as Hf1.
  assert (HT : 0 < 2 ^ 1024 - 2 ^ 970) by reflexivity.
  rewrite digits_value_app.
  destruct fp as [|c fp'].
  - cbn [List.length] in *. change (Z.of_nat 0) with 0 in *.
    change (- 0) with 0. rewrite Z.pow_0_r, Z.mul_1_r in *.
    change (FloatParse.digits_value []) with 0. rewrite Z.add_0_r.
    destruct (FloatParse.digits_value ip) as [|p|p]; [| |lia].
    + split; [reflexivity | lia].
    + apply normalize_range.
  - set (f := List.length (c :: fp')) in *.
    assert (E : - Z.of_nat f = Zneg (Pos.of_succ_nat (List.length fp')))
      by (unfold f; cbn; lia).
    assert (E' : Z.of_nat f = Zpos (Pos.of_succ_nat (List.length fp')))
      by (unfold f; cbn; lia).
    rewrite E. rewrite E' in *.
    set (k := Pos.of_succ_nat (List.length fp')) in *.
    assert (HD : 0 < 10 ^ Zpos k) by (apply Z.pow_pos_nonneg; lia).
    set (i := FloatParse.digits_value ip) in *.
    destruct (i * 10 ^ Zpos k + FloatParse.digits_value (c :: fp')) as [|p|p] eqn:En;
      [| |lia].
    + split; [reflexivity|]. intros H. nia.
    + unfold Float.of_decimal.
      apply (round_ratio_range p (10 ^ k) i).
      rewrite Pos2Z.inj_pow. lia.
Qed.

(** C8 (amended).  On a string made of some text and the unit character,
    the parser drops the unit, converts the text to a float and truncates
    the float to an int.  For a plain number (digits, with or without a
    point and more digits) the float is the binary64 value nearest to the
    number.  When the whole part of the number is below 2^1024 - 2^970
    (about 1.797e308: every number of up to 308 digits before the point),
    that float is finite and the parser returns its integer part, taken
    toward zero; a whole number of seconds below 2^53 is returned as it is
    written.  From 2^1024 - 2^970 on, the float is the infinity and the
    parser raises [OverflowError].  The parser returns 123 for the string
    123s and 0 for the string 0.9s. *)
Theorem format_duration_number :
  (forall body,
     format_duration (VStr (body ++ "s")) =
       (x <- float_of_str body ;; int_of_float x)%result) /\
  (forall ip fp, digits ip -> digits fp -> ip <> [] ->
     let x := Float.of_decimal false (FloatParse.digits_value (ip ++ fp))
                (- Z.of_nat (List.length fp)) in
     float_of_str (number_text ip fp) = Ok x /\
     (FloatParse.digits_value ip < 2 ^ 1024 - 2 ^ 970 ->
      Float.is_finite x = true /\
      format_duration (VStr (number_text ip fp ++ "s")) = Ok (Float.trunc x)) /\
     (2 ^ 1024 - 2 ^ 970 <= FloatParse.digits_value ip ->
      x = S754_infinity false /\
      format_duration (VStr (number_text ip fp ++ "s")) = Raise OverflowError)) /\
  (forall s m e,
     Float.trunc (S754_finite s m e) =
       let a := if 0 <=? e then Zpos m * 2 ^ e else Zpos m / 2 ^ (- e) in
       if s then - a else a) /\
  (forall s, Float.trunc (S754_zero s) = 0) /\
  (forall ip, digits ip -> ip <> [] ->
     FloatParse.digits_value ip < 2 ^ 53 ->
     format_duration (VStr (number_text ip [] ++ "s")) =
       Ok (FloatParse.digits_value ip)) /\
  format_duration (VStr "123s") = Ok 123 /\
  format_duration (VStr "0.9s") = Ok 0.
Proof.
  assert (Hnum : forall ip fp, digits ip -> digits fp -> ip <> [] ->
     let x := Float.of_decimal false (FloatParse.digits_value (ip ++ fp))
                (- Z.of_nat (List.length fp)) in
     float_of_str (number_text ip fp) = Ok x /\
     format_duration (VStr (number_text ip fp ++ "s")) = int_of_float x).
  { intros ip fp Hi Hf Hne x.
    assert (Hx : float_of_str (number_text ip fp) = Ok x).
    { unfold float_of_str. now rewrite (parse_number ip fp Hi Hf Hne). }
    split; [exact Hx|]. rewrite format_duration_unit. now rewrite Hx. }
  split; [exact format_duration_unit|].
  split.
  { intros ip fp Hi Hf Hne x.
    destruct (Hnum ip fp Hi Hf Hne) as [Hx Hd]. fold x in Hx, Hd.
    destruct (plain_number_range ip fp Hi Hf) as [Hfin Hinf].
    fold x in Hfin, Hinf.
    split; [exact Hx|]. rewrite Hd. split.
    - intros Hlt. specialize (Hfin Hlt). split; [exact Hfin|].
      destruct x; try discriminate Hfin; reflexivity.
    - intros Hge. specialize (Hinf Hge). split; [exact Hinf|].
      now rewrite Hinf. }
  split.
  { intros s m e. pose proof (int_of_float_finite s m e) as H.
    unfold int_of_float in H. now injection H. }
  split; [reflexivity|].
  split.
  - intros ip Hi Hne Hlt.
    destruct (Hnum ip [] Hi (Forall_nil _) Hne) as [_ H].
    rewrite H, app_nil_r. apply int_of_float_whole.
    split; [now apply digits_value_nonneg | exact Hlt].
  - split; vm_compute; reflexivity.
Qed.

End Script.

(** * The properties on the samples *)

Lemma status_200 : ~ error_status 200.
Proof. unfold error_status. lia. Qed.

Lemma sample_departure : departure_time sample_utc = Ok "2025-01-01T00:00:15Z".
Proof. vm_compute. reflexivity. Qed.

(** The sample runs get from the service what they are made of. *)
Lemma service_run_at t status_code text json :
  service (run_at t (Reply status_code text json)) = Reply status_code text json.
Proof.
  unfold service, run_at. cbn [utc_now http_response].
  now rewrite sample_departure.
Qed.

Lemma service_run_at_no_reply t : service (run_at t NoReply) = NoReply.
Proof.
  unfold service, run_at. cbn [utc_now http_response].
  now rewrite sample_departure.
Qed.

Lemma sample_first_route t kv rest :
  within_window t = true ->
  first_route (run_at t (answer (VDict kv :: rest))) kv.
Proof.
  intros H. split; [exact H|].
  exists 200, "{...}", [("routes", VList (VDict kv :: rest))], rest.
  split; [apply service_run_at|]. split; [exact status_200 | reflexivity].
Qed.



Lemma format_duration_guard_witness :
  format_duration (VStr "12") = Ok 0 /\
  format_duration (VStr "12 min") = Ok 0 /\
  format_duration (VStr "abcs") = Raise ValueError.
Proof.
  split; [|split].
  - apply (proj1 (proj2 (format_duration_guard "12"))). reflexivity.
  - apply (proj1 (proj2 (proj2 (format_duration_guard "12 min")))).
    intros t H. apply (f_equal (fun s => Str.endswith s "s")) in H.
    rewrite endswith_app in H. discriminate H.
  - apply (proj2 (proj2 (proj2 (format_duration_guard "abcs")))); reflexivity.
Defined.

(** C1, as stated, fails: the malformed string abcs ends with the unit
    character, and the parser raises [ValueError] instead of returning 0. *)
Lemma format_duration_raises_on_malformed :
  Str.endswith "abcs" "s" = true /\
  FloatParse.parse "abc" = None /\
  format_duration (VStr "abcs") = Raise ValueError /\
  format_duration (VStr "abcs") <> Ok 0.
Proof. repeat split. discriminate. Qed.

Lemma within_window_hours_witness :
  within_window sample_time = true /\ within_window sample_night = false.
Proof.
  split.
  - apply (proj2 (proj1 (within_window_hours sample_time))). simpl. lia.
  - apply (proj1 (proj2 (within_window_hours sample_night))). simpl. lia.
Defined.


Lemma log_is_append_only_witness :
  log_file (snd (log_eta sample_str sample_dumps sample_env used)) = Some "old" \/
  exists r, log_file (snd (log_eta sample_str sample_dumps sample_env used)) =
              Some ("old" ++ row_line sample_str r).
Proof.
  exact (proj1 (proj2 (proj2 (log_is_append_only sample_str sample_dumps
                                sample_env used))) "old" eq_refl).
Defined.

Lemma no_routes_leaves_log_witness :
  main sample_str sample_dumps
    (run_at sample_time (answer [])) used =
  {| log_file := Some "old";
     console := [Printed "No routes returned."];
     requests := 1 |}.
Proof.
  apply (proj2 (no_routes_leaves_log sample_str sample_dumps
                  (run_at sample_time (answer [])) used
                  200 "{...}" [("routes", VList [])]
                  eq_refl eq_refl status_200 (or_intror eq_refl))).
Defined.

Lemma http_error_reported_witness :
  main sample_str sample_dumps
    (run_at sample_time (Reply 403 "denied" None)) used =
  {| log_file := Some "old";
     console := [Printed "HTTPError status: 403"; Printed "Response text: denied"];
     requests := 1 |}.
Proof.
  assert (H : error_status 403) by (unfold error_status; lia).
  apply (proj2 (proj2 (http_error_reported sample_str sample_dumps
                         (run_at sample_time (Reply 403 "denied" None))
                         used 403 "denied" None eq_refl eq_refl H))).
Defined.

(** C6, as stated, fails: 300 is no success status and yet no HTTP error is
    raised for it.  With a body that is not JSON the program prints a
    traceback instead of the status code and the body; with a body that
    holds a route, the run appends a row. *)
Lemma other_status_not_reported :
  ~ error_status 300 /\
  main sample_str sample_dumps
    (run_at sample_time (Reply 300 "choices" None)) used =
  {| log_file := Some "old";
     console := [Traceback JSONDecodeError];
     requests := 1 |} /\
  log_file (main sample_str sample_dumps
              (run_at sample_time (Reply 300 "{...}"
                              (Some (VDict [("routes", VList [VDict sample_route])]))))
              used) =
  Some ("old" ++ row_line sample_str sample_row).
Proof.
  split; [unfold error_status; lia|].
  split; vm_compute; reflexivity.
Qed.

Lemma skip_outside_window_witness :
  main sample_str sample_dumps
    (run_at sample_night (answer [VDict sample_route])) used =
  {| log_file := Some "old";
     console := [Printed "[20:00] Outside time window; skipping."];
     requests := 0 |}.
Proof.
  assert (H : ~ (5 <= hour sample_night < 20)) by (simpl; lia).
  apply (proj2 (skip_outside_window sample_str sample_dumps
                  (run_at sample_night (answer [VDict sample_route]))
                  used H)).
Defined.

Lemma format_duration_number_witness :
  format_duration (VStr "12.75s") = Ok 12.
Proof.
  assert (Hi : digits ["1"; "2"]%char) by (repeat constructor).
  assert (Hf : digits ["7"; "5"]%char) by (repeat constructor).
  assert (Hne : ["1"; "2"]%char <> []) by discriminate.
  assert (Hlt : FloatParse.digits_value ["1"; "2"]%char < 2 ^ 1024 - 2 ^ 970)
    by reflexivity.
  exact (proj2 (proj1 (proj2 (proj1 (proj2 format_duration_number)
                                ["1"; "2"]%char ["7"; "5"]%char Hi Hf Hne))
                  Hlt)).
Defined.

(** C8, as stated, fails: a number of 310 digits, followed by the unit
    character, has the form of a duration; it is converted to the
    infinity, which has no integer part, and the parser raises
    [OverflowError] instead of returning a count of seconds. *)
Lemma format_duration_overflows :
  digits (List.repeat "9"%char 310) /\
  format_duration (VStr (number_text (List.repeat "9"%char 310) [] ++ "s"))
    = Raise OverflowError /\
  forall k,
    format_duration (VStr (number_text (List.repeat "9"%char 310) [] ++ "s")) <> Ok k.
Proof.
  assert (H : format_duration
                (VStr (number_text (List.repeat "9"%char 310) [] ++ "s"))
              = Raise OverflowError) by (vm_compute; reflexivity).
  split; [|split; [exact H|]].
  - apply Forall_forall. intros c Hc. apply repeat_spec in Hc. now subst c.
  - intros k. rewrite H. discriminate.
Qed.


Lemma missing_route_keys_witness :
  fst (log_eta sample_str sample_dumps
         (run_at sample_time (answer [VDict []])) used)
    = Raise (KeyError (VStr "duration")) /\
  fst (log_eta sample_str sample_dumps
         (run_at sample_time (answer [VDict [("duration", VStr "600s")]])) used)
    = Raise (KeyError (VStr "staticDuration")) /\
  exists r,
    route_description r = VStr EmptyString /\
    log_eta sample_str sample_dumps
      (run_at sample_time (answer [VDict bare_route])) used
    = (Ok tt, logged sample_str sample_dumps r used).
Proof.
  split; [|split].
  - pose proof (proj1 (proj2 (missing_route_keys sample_str sample_dumps
        (run_at sample_time (answer [VDict []])) [] used
        (sample_first_route sample_time [] [] eq_refl))) eq_refl) as [H _].
    now rewrite H.
  - pose proof (proj1 (proj2 (proj2 (missing_route_keys sample_str sample_dumps
        (run_at sample_time (answer [VDict [("duration", VStr "600s")]]))
        [("duration", VStr "600s")] used
        (sample_first_route sample_time _ [] eq_refl))))
        (VStr "600s") 600 eq_refl eq_refl eq_refl) as [H _].
    now rewrite H.
  - eexists. split; [|
      apply (proj2 (proj2 (proj2 (proj2 (missing_route_keys sample_str sample_dumps
        (run_at sample_time (answer [VDict bare_route]))
        bare_route used
        (sample_first_route sample_time bare_route [] eq_refl)))))
        (VStr "600s") 600 (VStr "500s") 500 (VInt 16093)
        (Float.of_decimal false 100 (-1)) (Float.of_decimal false 83 (-1))
        (Float.of_decimal false 100 (-1)))];
      first [reflexivity | vm_compute; reflexivity].
Defined.

(** C10, as stated, fails: a first route that lacks [staticDuration] and
    [distanceMeters] and whose [duration] is no number makes the run raise
    [ValueError], which is no key-lookup error. *)
Lemma missing_key_without_key_error :
  lookup "staticDuration" faulty_route = None /\
  lookup "distanceMeters" faulty_route = None /\
  fst (log_eta sample_str sample_dumps faulty_env used) = Raise ValueError /\
  forall key, fst (log_eta sample_str sample_dumps faulty_env used) <> Raise (KeyError key).
Proof.
  assert (H : fst (log_eta sample_str sample_dumps faulty_env used) = Raise ValueError)
    by reflexivity.
  repeat split; trivial. intros key. rewrite H. discriminate.
Qed.

(** ** Samples for the further properties *)

Lemma sample_fetched t text data :
  within_window t = true ->
  fetched (run_at t (Reply 200 text (Some data))) data.
Proof.
  intros H. split; [exact H|].
  exists 200, text. split; [apply service_run_at | exact status_200].
Qed.

Lemma failed_write_leaves_header_witness :
  main sample_str sample_dumps surrogate_env fresh =
    {| log_file := Some (header_line sample_str);
       console := [Traceback UnicodeEncodeError];
       requests := 1 |} /\
  main sample_str sample_dumps surrogate_env used =
    {| log_file := Some "old";
       console := [Traceback UnicodeEncodeError];
       requests := 1 |} /\
  log_file (main sample_str sample_dumps faulty_env fresh) = None.
Proof.
  assert (Hr : route_row sample_time (VDict surrogate_route) =
               Ok {| timestamp := Fmt.isoformat sample_time;
                     origin := ORIGIN;
                     destination := DESTINATION;
                     distance_mi := Float.of_decimal false 1000 (-2);
                     eta_min := Float.of_decimal false 100 (-1);
                     freeflow_min := Float.of_decimal false 83 (-1);
                     route_description := VSurrogate [55296%N] |})
    by (vm_compute; reflexivity).
  split; [|split].
  - exact (proj2 (proj2 (proj2 (failed_write_leaves_header sample_str sample_dumps
                                  surrogate_env fresh))
                    surrogate_route _
                    (sample_first_route sample_time surrogate_route [] eq_refl)
                    Hr eq_refl)).
  - exact (proj2 (proj2 (proj2 (failed_write_leaves_header sample_str sample_dumps
                                  surrogate_env used))
                    surrogate_route _
                    (sample_first_route sample_time surrogate_route [] eq_refl)
                    Hr eq_refl)).
  - destruct (proj1 (failed_write_leaves_header sample_str sample_dumps
                       faulty_env fresh) ValueError eq_refl) as [Hm _].
    rewrite Hm. reflexivity.
Defined.

Lemma fetch_failures_reported_witness :
  main sample_str sample_dumps (run_at sample_time NoReply) used =
    {| log_file := Some "old";
       console := [Traceback RequestException];
       requests := 1 |} /\
  main sample_str sample_dumps
    (run_at sample_time (Reply 200 "<html>" None)) used =
    {| log_file := Some "old";
       console := [Traceback JSONDecodeError];
       requests := 1 |}.
Proof.
  split.
  - exact (proj2 (proj1 (fetch_failures_reported sample_str sample_dumps
                           (run_at sample_time NoReply) used eq_refl)
                    eq_refl)).
  - exact (proj2 (proj2 (fetch_failures_reported sample_str sample_dumps
                           (run_at sample_time (Reply 200 "<html>" None)) used eq_refl)
                    200 "<html>" eq_refl status_200)).
Defined.

Lemma other_shapes_raise_witness :
  main sample_str sample_dumps
    (run_at sample_time (Reply 200 "[]" (Some (VList [])))) used =
    {| log_file := Some "old";
       console := [Traceback AttributeError];
       requests := 1 |} /\
  main sample_str sample_dumps
    (run_at sample_time (Reply 200 "{...}" (Some (VDict [("routes", VInt 5)])))) used =
    {| log_file := Some "old";
       console := [Traceback TypeError];
       requests := 1 |}.
Proof.
  split.
  - assert (N : forall top, VList [] <> VDict top) by (intros top; discriminate).
    exact (proj2 (proj1 (other_shapes_raise sample_str sample_dumps
                           (run_at sample_time (Reply 200 "[]" (Some (VList []))))
                           used (VList [])
                           (sample_fetched sample_time "[]" (VList []) eq_refl))
                    N)).
  - exact (proj2 (proj2 (other_shapes_raise sample_str sample_dumps
                           (run_at sample_time (Reply 200 "{...}"
                                           (Some (VDict [("routes", VInt 5)]))))
                           used (VDict [("routes", VInt 5)])
                           (sample_fetched sample_time "{...}" _ eq_refl))
                    [("routes", VInt 5)] (VInt 5) eq_refl eq_refl eq_refl)).
Defined.

Lemma wrong_types_raise_witness :
  main sample_str sample_dumps
    (run_at sample_time (answer [VDict [("duration", VInt 600)]])) used =
    {| log_file := Some "old";
       console := [Traceback AttributeError];
       requests := 1 |} /\
  main sample_str sample_dumps
    (run_at sample_time (answer [VDict [("duration", VStr "600s");
                                 ("staticDuration", VStr "500s");
                                 ("distanceMeters", VStr "16 km")]])) used =
    {| log_file := Some "old";
       console := [Traceback TypeError];
       requests := 1 |}.
Proof.
  split.
  - exact (proj2 (proj1 (wrong_types_raise sample_str sample_dumps
                           (run_at sample_time (answer [VDict [("duration", VInt 600)]]))
                           [("duration", VInt 600)] used
                           (sample_first_route sample_time _ [] eq_refl))
                    (VInt 600) eq_refl eq_refl eq_refl)).
  - assert (Heta : (q <- int_truediv 600 60 ;; py_round q 1)%result
                   = Ok (Float.of_decimal false 100 (-1)))
      by (vm_compute; reflexivity).
    assert (Hff : (q <- int_truediv 500 60 ;; py_round q 1)%result
                  = Ok (Float.of_decimal false 83 (-1)))
      by (vm_compute; reflexivity).
    exact (proj2 (proj2 (proj2 (wrong_types_raise sample_str sample_dumps
                           (run_at sample_time (answer [VDict [("duration", VStr "600s");
                                                        ("staticDuration", VStr "500s");
                                                        ("distanceMeters", VStr "16 km")]]))
                           _ used
                           (sample_first_route sample_time _ [] eq_refl)))
                    (VStr "600s") 600 (VStr "500s") 500 (VStr "16 km")
                    (Float.of_decimal false 100 (-1)) (Float.of_decimal false 83 (-1))
                    eq_refl eq_refl eq_refl eq_refl eq_refl eq_refl Heta Hff)).
Defined.

Lemma zero_like_duration_logged_witness :
  exists r,
    eta_min r = S754_zero false /\
    log_eta sample_str sample_dumps
      (run_at sample_time (answer [VDict [("duration", VStr "600");
                                   ("staticDuration", VStr "500s");
                                   ("distanceMeters", VInt 16093)]])) used =
      (Ok tt, logged sample_str sample_dumps r used).
Proof.
  assert (Hz : zero_like (VStr "600"))
    by (right; left; exists "600"; split; reflexivity).
  assert (Hff : (q <- int_truediv 500 60 ;; py_round q 1)%result
                = Ok (Float.of_decimal false 83 (-1)))
    by (vm_compute; reflexivity).
  assert (Hmi : (q <- truediv_float (VInt 16093) meters_per_mile ;; py_round q 2)%result
                = Ok (Float.of_decimal false 100 (-1)))
    by (vm_compute; reflexivity).
  destruct (zero_like_duration_logged sample_str sample_dumps
              (run_at sample_time (answer [VDict [("duration", VStr "600");
                                           ("staticDuration", VStr "500s");
                                           ("distanceMeters", VInt 16093)]]))
              _ used (sample_first_route sample_time _ [] eq_refl)
              (VStr "600") (VStr "500s") 500 (VInt 16093)
              (Float.of_decimal false 83 (-1)) (Float.of_decimal false 100 (-1))
              eq_refl Hz eq_refl eq_refl eq_refl Hff Hmi)
    as [description [Hd [_ H]]].
  injection Hd as <-.
  eexists. split; [|exact H]. reflexivity.
Defined.

Lemma only_first_route_counts_witness :
  log_eta sample_str sample_dumps sample_env used =
    log_eta sample_str sample_dumps other_env used /\
  main sample_str sample_dumps sample_env used =
    main sample_str sample_dumps other_env used.
Proof.
  assert (H203 : ~ error_status 203) by (unfold error_status; lia).
  exact (only_first_route_counts sample_str sample_dumps sample_env other_env
           200 "{...}" [("routes", VList [VDict sample_route])]
           203 "{routes: [...], geocodingResults: {}}"
           [("geocodingResults", VDict []);
            ("routes", VList [VDict sample_route; VDict bare_route])]
           (VDict sample_route) [] [VDict bare_route] used
           eq_refl (service_run_at _ _ _ _) status_200 (service_run_at _ _ _ _) H203
           eq_refl eq_refl).
Defined.

Lemma runs_read_back_witness :
  log_file (runs sample_str sample_dumps
              [faulty_env; sample_env; surrogate_env; sample_env] fresh) =
    Some (header_line sample_str ++ row_line sample_str sample_row
          ++ row_line sample_str sample_row) /\
  read_log (header_line sample_str ++ row_line sample_str sample_row
            ++ row_line sample_str sample_row) =
    Some [fieldnames; texts sample_str (row_values sample_row);
          texts sample_str (row_values sample_row)].
Proof.
  assert (L : log_file (runs sample_str sample_dumps
                          [faulty_env; sample_env; surrogate_env; sample_env] fresh) =
              Some (header_line sample_str ++ row_line sample_str sample_row
                    ++ row_line sample_str sample_row))
    by (vm_compute; reflexivity).
  assert (E : logged_rows [faulty_env; sample_env; surrogate_env; sample_env]
              = [sample_row; sample_row]) by (vm_compute; reflexivity).
  assert (H : match log_file (runs sample_str sample_dumps
                                [faulty_env; sample_env; surrogate_env; sample_env]
                                fresh) with
              | None =>
                  logged_rows [faulty_env; sample_env; surrogate_env; sample_env] = []
              | Some text =>
                  read_log text =
                    Some (fieldnames ::
                          map (fun r => texts sample_str (row_values r))
                            (logged_rows
                               [faulty_env; sample_env; surrogate_env; sample_env]))
              end)
    by exact (proj1 (runs_read_back sample_str sample_dumps
                       [faulty_env; sample_env; surrogate_env; sample_env]
                       fresh eq_refl)).
  rewrite L, E in H. split; [exact L | exact H].
Defined.

Lemma one_request_in_window_witness :
  requests (main sample_str sample_dumps sample_env used) = 1%nat /\
  requests (main sample_str sample_dumps last_env used) = 0%nat /\
  console (main sample_str sample_dumps last_env used) = [Traceback OverflowError].
Proof.
  split; [|split].
  - exact (proj1 (one_request_in_window sample_str sample_dumps sample_env used)).
  - exact (proj1 (one_request_in_window sample_str sample_dumps last_env used)).
  - vm_compute. reflexivity.
Defined.

Lemma conversions_accurate_witness :
  exists row k k' j,
    route_row sample_time (VDict bare_route) = Ok row /\
    eta_min row = Float.of_decimal false k (-1) /\
    Z.abs (6 * k - 600) <= 3 /\
    freeflow_min row = Float.of_decimal false k' (-1) /\
    Z.abs (6 * k' - 500) <= 3 /\
    distance_mi row = Float.of_decimal false j (-2) /\
    Z.abs (160934 * j - 10000 * 16093) <= 80467.
Proof.
  assert (Hr : route_row sample_time (VDict bare_route) =
               Ok {| timestamp := Fmt.isoformat sample_time;
                     origin := ORIGIN;
                     destination := DESTINATION;
                     distance_mi := Float.of_decimal false 1000 (-2);
                     eta_min := Float.of_decimal false 100 (-1);
                     freeflow_min := Float.of_decimal false 83 (-1);
                     route_description := VStr EmptyString |})
    by (vm_compute; reflexivity).
  assert (B1 : 0 <= 600 < 2 ^ 50) by (split; [discriminate | reflexivity]).
  assert (B2 : 0 <= 500 < 2 ^ 50) by (split; [discriminate | reflexivity]).
  assert (B3 : 0 <= 16093 < 2 ^ 32) by (split; [discriminate | reflexivity]).
  destruct (conversions_accurate sample_time (VDict bare_route) _
              (VStr "600s") (VStr "500s") 600 500 16093
              Hr eq_refl eq_refl eq_refl eq_refl eq_refl B1 B2 B3)
    as [k [k' [j [H1 [_ [H2 [H3 [_ [H4 [H5 [_ H6]]]]]]]]]]].
  eexists. exists k, k', j.
  split; [exact Hr|].
  split; [exact H1|]. split; [exact H2|]. split; [exact H3|].
  split; [exact H4|]. split; [exact H5 | exact H6].
Defined.

Lemma falsy_routes_reported_witness :
  main sample_str sample_dumps
    (run_at sample_time (Reply 200 "{...}" (Some (VDict [("routes", VNone)])))) used =
  {| log_file := Some "old";
     console := [Printed "No routes returned."];
     requests := 1 |}.
Proof.
  exact (proj2 (falsy_routes_reported sample_str sample_dumps
                  (run_at sample_time (Reply 200 "{...}" (Some (VDict [("routes", VNone)]))))
                  used [("routes", VNone)] VNone
                  (sample_fetched sample_time "{...}" _ eq_refl) eq_refl eq_refl)).
Defined.

Lemma sample_utc_reading : utc_reading sample_utc.
Proof. unfold utc_reading. vm_compute. repeat split; easy. Qed.

Lemma departure_thirty_seconds_later_witness :
  departure_time sample_utc = Ok "2025-01-01T00:00:15Z".
Proof.
  assert (Hb : instant sample_utc + 30 < (MAXORDINAL + 1) * 86400) by reflexivity.
  destruct (proj1 (departure_thirty_seconds_later sample_utc sample_utc_reading) Hb)
    as [t' [Ht' [Hi [Hu [Hd _]]]]].
  assert (E : {| year := 2025; month := 1; day := 1;
                 hour := 0; minute := 0; second := 15; utcoffset := 0 |} = t').
  { apply Hu; [|reflexivity]. unfold utc_reading. vm_compute. repeat split; easy. }
  rewrite Hd, <- E. reflexivity.
Defined.

Lemma fractional_seconds_truncated_witness :
  format_duration (VStr "1234.567s") = Ok 1234.
Proof.
  assert (Hi : digits ["1"; "2"; "3"; "4"]%char) by (repeat constructor).
  assert (Hf : digits ["5"; "6"; "7"]%char) by (repeat constructor).
  assert (Hne : ["1"; "2"; "3"; "4"]%char <> []) by discriminate.
  assert (Hb : (FloatParse.digits_value ["1"; "2"; "3"; "4"]%char + 1)
               * 10 ^ Z.of_nat (List.length ["5"; "6"; "7"]%char) < 2 ^ 53)
    by reflexivity.
  exact (proj1 fractional_seconds_truncated
           ["1"; "2"; "3"; "4"]%char ["5"; "6"; "7"]%char Hi Hf Hne Hb).
Defined.
